(** * Loan origination analysis: the normalisation and statistics core

    A shallow embedding of [data_processor.py] (class [DataProcessor]) and
    [statistics.py] ([detect_trends], [generate_recommendations]).

    Conventions of the embedding.
    - A pandas cell is a value of [cell]; the missing markers [None], [NaN]
      and [NaT] are the one constructor [Null] ([pd.isna] is true exactly
      there).  A column ([Series]) is a list of cells, a [DataFrame] an
      ordered association list of named columns.
    - Python floats are exact rationals ([Q]): every division of the source
      that the claims look at is guarded or has a non-zero divisor, and the
      thresholds compared against are the decimal literals of the source.
    - A Python exception is a value of [exn]; a method that can raise returns
      a [result].
    - Functions of the libraries the source calls (strptime, the pandas date
      accessors and aggregations) are the fields of the class [PyLib]; the
      significance test that [detect_trends] calls is a variable of its
      section.  pandas' inference of column types is not modelled: where
      the code applies the date arithmetic or the [.dt] accessor to a date
      column in which no cell is a datetime, pandas raises, and the model
      goes on with missing values.  The statements on the view of
      [preprocess_data] are about the runs that return. *)

From Stdlib Require Import List String Ascii Bool Arith ZArith QArith Qround Sorted Lia.
From Stdlib Require Import DecimalString Qabs Lqa.
Import ListNotations.

Local Close Scope Q_scope.
Local Open Scope string_scope.

(** ** Python values used by the source *)
Module Py.

(** [str.lower] on the ASCII range. *)
Definition lower_ascii (c : ascii) : ascii :=
  let n := nat_of_ascii c in
  if (65 <=? n)%nat && (n <=? 90)%nat then ascii_of_nat (n + 32) else c.

Fixpoint lower (s : string) : string :=
  match s with
  | EmptyString => EmptyString
  | String c r => String (lower_ascii c) (lower r)
  end.

(** [needle in hay] on strings. *)
Fixpoint contains (needle hay : string) : bool :=
  if String.prefix needle hay then true
  else match hay with
       | EmptyString => false
       | String _ r => contains needle r
       end.

(** [x in l] on a list of strings. *)
Definition mem (x : string) (l : list string) : bool :=
  existsb (String.eqb x) l.

(** [l.index(x)]: position of the first element equal to [x].  The source
    calls it only with an [x] taken from [l]; past the end the count is the
    length of [l]. *)
Fixpoint index (x : string) (l : list string) : nat :=
  match l with
  | [] => 0
  | y :: r => if String.eqb x y then 0 else S (index x r)
  end.

Inductive exn : Type :=
| ValueError (msg : string)
| KeyError (key : string)
| TypeError (msg : string).

Inductive result (A : Type) : Type :=
| Ok (a : A)
| Raise (e : exn).
Arguments Ok {A} a.
Arguments Raise {A} e.

Definition bind {A B} (m : result A) (k : A -> result B) : result B :=
  match m with
  | Ok a => k a
  | Raise e => Raise e
  end.

Definition returns {A} (m : result A) : bool :=
  match m with Ok _ => true | Raise _ => false end.

Definition raises_ValueError {A} (m : result A) : bool :=
  match m with Raise (ValueError _) => true | _ => false end.

(** A [dict] with string keys and values, in insertion order. *)
Definition dict := list (string * string).

Fixpoint dict_get (d : dict) (k default : string) : string :=
  match d with
  | [] => default
  | (k', v) :: r => if String.eqb k k' then v else dict_get r k default
  end.

End Py.
Import Py.

Notation "x <- m ;; k" := (bind m (fun x => k))
  (at level 61, m at next level, right associativity).

(** ** Column suggestion ([DataProcessor.suggest_column]) *)
Module ColumnMapper.

(** The three heuristics, as tests of a pattern against a column. *)
Definition exact (name col : string) : bool := String.eqb name col.
Definition case_insensitive (name col : string) : bool :=
  String.eqb (lower name) (lower col).
Definition partial (name col : string) : bool :=
  contains (lower name) (lower col) || contains (lower col) (lower name).

(** [for col in columns: if test col: return columns.index(col) + 1] *)
Fixpoint scan_columns (test : string -> bool) (columns rest : list string)
  : option nat :=
  match rest with
  | [] => None
  | col :: rest' =>
      if test col then Some (index col columns + 1)
      else scan_columns test columns rest'
  end.

(** [for name in possible_names: for col in columns: ...] *)
Fixpoint scan (m : string -> string -> bool) (possible_names columns : list string)
  : option nat :=
  match possible_names with
  | [] => None
  | name :: names' =>
      match scan_columns (m name) columns columns with
      | Some i => Some i
      | None => scan m names' columns
      end
  end.

(** The first loop of the source: [if name in columns: return
    columns.index(name) + 1]. *)
Fixpoint scan_exact (possible_names columns : list string) : option nat :=
  match possible_names with
  | [] => None
  | name :: names' =>
      if mem name columns then Some (index name columns + 1)
      else scan_exact names' columns
  end.

Definition suggest (columns possible_names : list string) : nat :=
  match scan_exact possible_names columns with
  | Some i => i
  | None =>
      match scan case_insensitive possible_names columns with
      | Some i => i
      | None =>
          match scan partial possible_names columns with
          | Some i => i
          | None => 0
          end
      end
  end.

End ColumnMapper.

(** ** The pandas data model *)
Module Pandas.

Inductive cell : Type :=
| Null                (* None, NaN, NaT *)
| Str (s : string)
| Num (q : Q)
| Time (ns : Z).      (* datetime / Timestamp, nanoseconds since the epoch *)

Definition isna (c : cell) : bool :=
  match c with Null => true | _ => false end.

Definition Series := list cell.

(** Columns in order, each with its values; all columns of a frame built by
    the source have the number of rows of the frame. *)
Definition DataFrame := list (string * Series).

Definition columns (df : DataFrame) : list string := map fst df.

Definition has_column (name : string) (df : DataFrame) : bool :=
  mem name (columns df).

Fixpoint lookup (name : string) (df : DataFrame) : option Series :=
  match df with
  | [] => None
  | (n, s) :: r => if String.eqb name n then Some s else lookup name r
  end.

(** [df[name]] *)
Definition getitem (df : DataFrame) (name : string) : result Series :=
  match lookup name df with
  | Some s => Ok s
  | None => Raise (KeyError name)
  end.

(** [df[name] = s]: replaces the column in place, or appends it. *)
Fixpoint setitem (df : DataFrame) (name : string) (s : Series) : DataFrame :=
  match df with
  | [] => [(name, s)]
  | (n, s') :: r =>
      if String.eqb name n then (n, s) :: r else (n, s') :: setitem r name s
  end.

(** [len(df)] *)
Definition len (df : DataFrame) : nat :=
  match df with
  | [] => 0
  | (_, s) :: _ => List.length s
  end.

(** [s == 'text'], element by element. *)
Definition eq_str (text : string) (c : cell) : bool :=
  match c with Str s => String.eqb s text | _ => false end.

(** Boolean indexing [s[mask]] and [df[mask]]. *)
Fixpoint select {A} (mask : list bool) (s : list A) : list A :=
  match mask, s with
  | b :: mask', x :: s' => if b then x :: select mask' s' else select mask' s'
  | _, _ => []
  end.

Definition select_rows (mask : list bool) (df : DataFrame) : DataFrame :=
  map (fun '(n, s) => (n, select mask s)) df.

(** [s.loc[mask] = np.nan] *)
Fixpoint set_nan (mask : list bool) (s : Series) : Series :=
  match mask, s with
  | b :: mask', x :: s' => (if b then Null else x) :: set_nan mask' s'
  | _, _ => s
  end.

(** [s < k] and [s > k] against a number: false on a missing value. *)
Definition lt_num (k : Q) (c : cell) : bool :=
  match c with Num q => negb (Qle_bool k q) | _ => false end.
Definition gt_num (k : Q) (c : cell) : bool :=
  match c with Num q => negb (Qle_bool q k) | _ => false end.

(** [a - b] on two datetime columns: a Timedelta in nanoseconds, or NaT. *)
Definition sub_time (a b : cell) : option Z :=
  match a, b with
  | Time x, Time y => Some (x - y)%Z
  | _, _ => None
  end.

Fixpoint zip_with {A B C} (f : A -> B -> C) (l : list A) (r : list B) : list C :=
  match l, r with
  | a :: l', b :: r' => f a b :: zip_with f l' r'
  | _, _ => []
  end.

(** [.dt.total_seconds()] *)
Definition total_seconds (td : option Z) : cell :=
  match td with
  | Some ns => Num (ns # 1000000000)
  | None => Null
  end.

(** [s / k] for a number [k]. *)
Definition div_num (k : Q) (c : cell) : cell :=
  match c with Num q => Num (q / k) | _ => Null end.

(** The library functions the source calls.  [None] stands for a call that
    raises. *)
Class PyLib : Type := {
  strptime : string -> string -> option Z;
  to_datetime : cell -> option (option Z);
  repr : cell -> string;
  dt_month : Z -> Z;
  dt_year : Z -> Z;
  dt_strftime : string -> Z -> string;
  dt_quarter : Z -> string;
  agg_mean : Series -> cell;
  agg_median : Series -> cell;
  agg_min : Series -> cell;
  agg_max : Series -> cell;
  agg_std : Series -> cell;
  series_corr : Series -> Series -> cell;
  is_numeric_dtype : Series -> bool
}.

(** [str(x)] *)
Definition str_ `{PyLib} (c : cell) : string :=
  match c with Str s => s | _ => repr c end.

(** [.dt.month], [.dt.year], [.dt.strftime(fmt)] on a datetime column. *)
Definition dt_num `{PyLib} (f : Z -> Z) (c : cell) : cell :=
  match c with Time t => Num (inject_Z (f t)) | _ => Null end.
Definition dt_str `{PyLib} (f : Z -> string) (c : cell) : cell :=
  match c with Time t => Str (f t) | _ => Null end.

(** Equality of two cells, as used to collect the distinct values of a
    column. *)
Definition cell_eqb (a b : cell) : bool :=
  match a, b with
  | Null, Null => true
  | Str x, Str y => String.eqb x y
  | Num x, Num y => Qeq_bool x y
  | Time x, Time y => Z.eqb x y
  | _, _ => false
  end.

(** Order of group keys: numbers, then timestamps, then strings, each kind
    in its own order. *)
Definition cell_leb (a b : cell) : bool :=
  match a, b with
  | Null, _ => true
  | _, Null => false
  | Num x, Num y => Qle_bool x y
  | Num _, _ => true
  | _, Num _ => false
  | Time x, Time y => Z.leb x y
  | Time _, _ => true
  | _, Time _ => false
  | Str x, Str y => String.leb x y
  end.

Section Sorting.
Context {A : Type} (leb : A -> A -> bool).

Fixpoint insert_sorted (x : A) (l : list A) : list A :=
  match l with
  | [] => [x]
  | y :: r => if leb x y then x :: l else y :: insert_sorted x r
  end.

Fixpoint sort (l : list A) : list A :=
  match l with
  | [] => []
  | x :: r => insert_sorted x (sort r)
  end.
End Sorting.

(** [s.dropna()] *)
Definition dropna (s : Series) : Series := filter (fun c => negb (isna c)) s.

(** Distinct values of a column, in order of first occurrence. *)
Fixpoint unique (s : Series) : list cell :=
  match s with
  | [] => []
  | c :: r => c :: filter (fun d => negb (cell_eqb c d)) (unique r)
  end.

Definition count (k : cell) (s : Series) : nat :=
  List.length (filter (cell_eqb k) s).

(** [df.groupby(name)]: the sorted distinct non-missing keys, each with the
    mask of its rows. *)
Definition groupby (keys : Series) : list (cell * list bool) :=
  map (fun k => (k, map (cell_eqb k) keys)) (sort cell_leb (unique (dropna keys))).

(** [s.value_counts()]: each distinct non-missing value with the number of
    its occurrences, the most frequent first; values with the same count
    stay in order of first occurrence. *)
Definition more_frequent (a b : cell * nat) : bool := (snd b <=? snd a)%nat.

Definition value_counts (s : Series) : list (cell * nat) :=
  sort more_frequent
       (map (fun k => (k, count k (dropna s))) (unique (dropna s))).

(** [df.head(n)] *)
Definition head {A} (n : Z) (l : list A) : list A :=
  if (0 <=? n)%Z then firstn (Z.to_nat n) l
  else firstn (List.length l - Z.to_nat (- n)) l.

(** Rounding to the nearest integer, ties to the even one, and
    [.round(2)], on exact rationals.  The code rounds the binary float of
    the same quotient, which can fall on the other side of a tie in the
    third decimal (23 of 160 is 14.37 there and 14.38 here). *)
Definition round_half_even (q : Q) : Z :=
  let f := Qfloor q in
  let twice := (2 * (q - inject_Z f))%Q in
  if Qle_bool twice 1
  then (if Qle_bool 1 twice then (if Z.even f then f else f + 1) else f)%Z
  else (f + 1)%Z.

Definition round2 (q : Q) : Q :=
  inject_Z (round_half_even (q * 100)) / 100.

Definition of_nat (n : nat) : Q := inject_Z (Z.of_nat n).

(** [pd.DataFrame(columns=names)] *)
Definition empty_frame (names : list string) : DataFrame :=
  map (fun n => (n, [])) names.

End Pandas.
Import Pandas.

(** ** [class DataProcessor] *)
Module DataProcessor.
Section Methods.
Context `{PyLib}.

Record DataProcessor : Type := {
  raw_data : DataFrame;
  data : option DataFrame;
  column_mapping : list (string * option string);
  approval_terms : list string;
  rejection_terms : list string
}.

Definition __init__ (data : DataFrame) : DataProcessor :=
  {| raw_data := data;
     data := None;
     column_mapping := [];
     approval_terms := ["approved"; "accept"; "funded"; "complete"];
     rejection_terms := ["rejected"; "denied"; "declined"; "refuse"] |}.

Definition suggest_column (self : DataProcessor) (possible_names : list string) : nat :=
  ColumnMapper.suggest (columns (raw_data self)) possible_names.

Definition set_column_mapping (self : DataProcessor)
    (mapping : list (string * option string)) : DataProcessor :=
  {| raw_data := raw_data self;
     data := data self;
     column_mapping := mapping;
     approval_terms := approval_terms self;
     rejection_terms := rejection_terms self |}.

Definition formats : list string :=
  [ "%Y-%m-%d"; "%d-%m-%Y"; "%m-%d-%Y";
    "%Y/%m/%d"; "%d/%m/%Y"; "%m/%d/%Y";
    "%Y-%m-%d %H:%M:%S"; "%d-%m-%Y %H:%M:%S"; "%m-%d-%Y %H:%M:%S";
    "%Y/%m/%d %H:%M:%S"; "%d/%m/%Y %H:%M:%S"; "%m/%d/%Y %H:%M:%S";
    "%b %d %Y"; "%d %b %Y"; "%B %d %Y"; "%d %B %Y" ].

(** [for fmt in formats: try: return strptime(...) except ValueError: continue] *)
Fixpoint try_formats (text : string) (fmts : list string) : option Z :=
  match fmts with
  | [] => None
  | fmt :: r =>
      match strptime text fmt with
      | Some t => Some t
      | None => try_formats text r
      end
  end.

Definition _parse_date (date_str : cell) : cell :=
  if isna date_str then Null
  else match date_str with
       | Time t => Time t
       | _ =>
           match try_formats (str_ date_str) formats with
           | Some t => Time t
           | None =>
               match to_datetime date_str with
               | Some (Some t) => Time t
               | Some None => Null
               | None => Null
               end
           end
       end.

Definition _standardize_status (self : DataProcessor) (status : cell) : string :=
  if isna status then "unknown"
  else
    let status_lower := lower (str_ status) in
    if existsb (fun term => contains term status_lower) (approval_terms self)
    then "approved"
    else if existsb (fun term => contains term status_lower) (rejection_terms self)
    then "rejected"
    else "other".

(** The dict comprehension [{std: col for std, col in mapping.items() if col}]. *)
Fixpoint mapped_columns (mapping : list (string * option string))
  : list (string * string) :=
  match mapping with
  | [] => []
  | (std_name, Some col_name) :: r =>
      if String.eqb col_name "" then mapped_columns r
      else (std_name, col_name) :: mapped_columns r
  | (_, None) :: r => mapped_columns r
  end.

(** [for std_name, orig_name in mapped_columns.items():
       processed_df[std_name] = df[orig_name]] *)
Fixpoint copy_mapped (df : DataFrame) (mapped : list (string * string))
    (processed_df : DataFrame) : result DataFrame :=
  match mapped with
  | [] => Ok processed_df
  | (std_name, orig_name) :: r =>
      s <- getitem df orig_name ;;
      copy_mapped df r (setitem processed_df std_name s)
  end.

Definition date_columns : list string := ["application_date"; "decision_date"].

Definition convert_date (processed_df : DataFrame) (col : string) : DataFrame :=
  match lookup col processed_df with
  | Some s => setitem processed_df col (map _parse_date s)
  | None => processed_df
  end.

Definition standardize (self : DataProcessor) (processed_df : DataFrame) : DataFrame :=
  match lookup "status" processed_df with
  | Some s =>
      setitem processed_df "status_standardized"
        (map (fun c => Str (_standardize_status self c)) s)
  | None => processed_df
  end.

(** The processing time of one row, before the range filter. *)
Definition days_between (decision application : cell) : cell :=
  div_num (24 * 60 * 60) (total_seconds (sub_time decision application)).

(** [df.loc[df[col] < k, col] = np.nan], for a test [df[col] < k]. *)
Definition loc_nan (test : cell -> bool) (col : string) (df : DataFrame) : DataFrame :=
  match lookup col df with
  | Some s => setitem df col (set_nan (map test s) s)
  | None => df
  end.

Definition processing_time (processed_df : DataFrame) : DataFrame :=
  match lookup "application_date" processed_df, lookup "decision_date" processed_df with
  | Some app, Some dec =>
      let df1 := setitem processed_df "processing_time_days"
                   (zip_with days_between dec app) in
      let df2 := loc_nan (lt_num 0) "processing_time_days" df1 in
      loc_nan (gt_num 365) "processing_time_days" df2
  | _, _ => processed_df
  end.

Definition periods (processed_df : DataFrame) : DataFrame :=
  match lookup "application_date" processed_df with
  | Some app =>
      let df1 := setitem processed_df "application_month" (map (dt_num dt_month) app) in
      let df2 := setitem df1 "application_year" (map (dt_num dt_year) app) in
      setitem df2 "application_yearmonth" (map (dt_str (dt_strftime "%Y-%m")) app)
  | None => processed_df
  end.

(** Returns the processed frame and the processor with [self.data] set. *)
Definition preprocess_data (self : DataProcessor) : result (DataFrame * DataProcessor) :=
  let df := raw_data self in
  processed_df <- copy_mapped df (mapped_columns (column_mapping self)) [] ;;
  let processed_df := fold_left convert_date date_columns processed_df in
  let processed_df := standardize self processed_df in
  let processed_df := processing_time processed_df in
  let processed_df := periods processed_df in
  Ok (processed_df,
      {| raw_data := raw_data self;
         data := Some processed_df;
         column_mapping := column_mapping self;
         approval_terms := approval_terms self;
         rejection_terms := rejection_terms self |}).

Definition not_processed : exn :=
  ValueError "Data has not been processed yet. Call preprocess_data() first.".

(** [(a / b)] on two columns of counts: [0 / 0] is NaN; the numerators of
    the source never exceed the denominators. *)
Definition truediv (a b : nat) : cell :=
  if (b =? 0)%nat then Null else Num (of_nat a / of_nat b).

Definition count_true (mask : list bool) : nat :=
  List.length (filter (fun b => b) mask).

Definition nat_col (l : list nat) : Series := map (fun n => Num (of_nat n)) l.

(** [.dt.to_period('Q').astype(str)] *)
Definition quarter_of (c : cell) : cell :=
  match c with Time t => Str (dt_quarter t) | _ => Str "NaT" end.

Definition grouped_approval (df : DataFrame) (grouper : string) : result DataFrame :=
  keys <- getitem df grouper ;;
  let grouped := groupby keys in
  let total_applications := map (fun g => count_true (snd g)) grouped in
  st <- getitem df "status_standardized" ;;
  let approved :=
    map (fun g => List.length (filter (eq_str "approved") (select (snd g) st))) grouped in
  Ok [ (grouper, map fst grouped);
       ("total_applications", nat_col total_applications);
       ("approved", nat_col approved);
       ("approval_rate", zip_with truediv approved total_applications) ].

Definition overall_approval (df : DataFrame) : result DataFrame :=
  let total := len df in
  st <- getitem df "status_standardized" ;;
  let approved := len (select_rows (map (eq_str "approved") st) df) in
  Ok [ ("total_applications", [Num (of_nat total)]);
       ("approved", [Num (of_nat approved)]);
       ("approval_rate",
        [Num (if (0 <? total)%nat then of_nat approved / of_nat total else 0)]) ].

Definition is_period (time_period : option string) (name : string) : bool :=
  match time_period with Some p => String.eqb p name | None => false end.

Definition get_approval_rate (self : DataProcessor)
    (group_by time_period : option string) : result DataFrame :=
  match data self with
  | None => Raise not_processed
  | Some df =>
      if is_period time_period "monthly" && has_column "application_yearmonth" df
      then grouped_approval df "application_yearmonth"
      else if is_period time_period "quarterly" && has_column "application_date" df
      then
        app <- getitem df "application_date" ;;
        grouped_approval (setitem df "quarter" (map quarter_of app)) "quarter"
      else if is_period time_period "yearly" && has_column "application_year" df
      then grouped_approval df "application_year"
      else
        match group_by with
        | Some g =>
            if has_column g df then grouped_approval df g else overall_approval df
        | None => overall_approval df
        end
  end.

(** The six aggregations of the processing-time table, on one series. *)
Definition time_stats (s : Series) : list cell :=
  [ Num (of_nat (List.length (dropna s))); agg_mean s; agg_median s;
    agg_min s; agg_max s; agg_std s ].

Definition stat_names : list string :=
  ["count"; "mean_days"; "median_days"; "min_days"; "max_days"; "std_days"].

(** One column per name from a list of rows. *)
Fixpoint frame_of_rows (names : list string) (rows : list (list cell)) : DataFrame :=
  match names with
  | [] => []
  | n :: names' =>
      (n, map (fun r => hd Null r) rows) :: frame_of_rows names' (map (@tl cell) rows)
  end.

Definition get_processing_time_stats (self : DataProcessor)
    (group_by : option string) : result DataFrame :=
  match data self with
  | None => Raise not_processed
  | Some df0 =>
      if negb (has_column "processing_time_days" df0)
      then Raise (ValueError "Processing time not calculated. Check date columns mapping.")
      else
        days0 <- getitem df0 "processing_time_days" ;;
        let df := select_rows (map (fun c => negb (isna c)) days0) df0 in
        days <- getitem df "processing_time_days" ;;
        let overall := Ok (frame_of_rows stat_names [time_stats days]) in
        match group_by with
        | Some g =>
            if has_column g df then
              keys <- getitem df g ;;
              let grouped := groupby keys in
              Ok (frame_of_rows (g :: stat_names)
                    (map (fun grp => fst grp :: time_stats (select (snd grp) days)) grouped))
            else overall
        | None => overall
        end
  end.

(** [n_top] is [None] when the caller leaves it out (default 10). *)
Definition get_rejection_factors (self : DataProcessor) (n_top : option Z)
  : result DataFrame :=
  let n_top := match n_top with Some n => n | None => 10%Z end in
  match data self with
  | None => Raise not_processed
  | Some df =>
      st <- getitem df "status_standardized" ;;
      let rejected := select_rows (map (eq_str "rejected") st) df in
      if has_column "rejection_reason" rejected then
        reasons0 <- getitem rejected "rejection_reason" ;;
        let rejected := select_rows (map (fun c => negb (isna c)) reasons0) rejected in
        reasons <- getitem rejected "rejection_reason" ;;
        let rejection_counts := value_counts reasons in
        let total_rejections := list_sum (map snd rejection_counts) in
        let with_percentage :=
          map (fun rc => (fst rc, snd rc,
                          round2 (of_nat (snd rc) / of_nat total_rejections * 100)))
              rejection_counts in
        let top := head n_top with_percentage in
        Ok [ ("reason", map (fun r => fst (fst r)) top);
             ("count", map (fun r => Num (of_nat (snd (fst r)))) top);
             ("percentage", map (fun r => Num (snd r)) top) ]
      else Ok (empty_frame ["reason"; "count"; "percentage"])
  end.

Definition potential_factors : list string :=
  ["loan_amount"; "income"; "credit_score"; "processing_time_days"].

Definition is_factor (df : DataFrame) (col : string) : bool :=
  match lookup col df with
  | Some s => is_numeric_dtype s
  | None => false
  end.

(** One pass of [for factor in factors]: the row appended to
    [correlations], if any. *)
Definition correlation_row (df : DataFrame) (factor : string) : option (list cell) :=
  match lookup factor df, lookup "is_approved" df with
  | Some f, Some a =>
      let mask := zip_with (fun x y => negb (isna x) && negb (isna y)) f a in
      let temp_df := select_rows mask df in
      if (0 <? len temp_df)%nat
      then Some [Str factor; series_corr (select mask f) (select mask a)]
      else None
  | _, _ => None
  end.

Fixpoint somes {A} (l : list (option A)) : list A :=
  match l with
  | [] => []
  | Some a :: r => a :: somes r
  | None :: r => somes r
  end.

Definition get_correlation_factors (self : DataProcessor) : result DataFrame :=
  match data self with
  | None => Raise not_processed
  | Some df0 =>
      st <- getitem df0 "status_standardized" ;;
      let df := setitem df0 "is_approved"
                  (map (fun c => Num (if eq_str "approved" c then 1 else 0)) st) in
      let factors := filter (is_factor df) potential_factors in
      match factors with
      | [] => Ok (empty_frame ["factor"; "correlation_with_approval"])
      | _ =>
          match somes (map (correlation_row df) factors) with
          | [] => Ok []
          | correlations =>
              Ok (frame_of_rows ["factor"; "correlation_with_approval"] correlations)
          end
      end
  end.

Definition get_loan_amount_analysis (self : DataProcessor) : result DataFrame :=
  match data self with
  | None => Raise not_processed
  | Some df =>
      if negb (has_column "loan_amount" df)
      then Ok (empty_frame ["status"; "count"; "mean"; "median"; "min"; "max"])
      else
        keys <- getitem df "status_standardized" ;;
        amount <- getitem df "loan_amount" ;;
        Ok (frame_of_rows ["status"; "count"; "mean"; "median"; "min"; "max"]
              (map (fun grp =>
                      let s := select (snd grp) amount in
                      [ fst grp; Num (of_nat (List.length (dropna s)));
                        agg_mean s; agg_median s; agg_min s; agg_max s ])
                   (groupby keys)))
  end.

End Methods.
End DataProcessor.

(** ** [statistics.py] *)
Module Statistics.

(** The dict returned by [detect_trends]. *)
Record trend_info : Type := {
  trend : string;
  p_value : option Q;
  confidence : option string;
  recent_change : option Q
}.

Definition insufficient_data : trend_info :=
  {| trend := "insufficient data"; p_value := None;
     confidence := None; recent_change := None |}.

(** [values[-n:]], [values[-1]] and [values[0]] *)
Definition last_n (n : nat) (values : list Q) : list Q :=
  skipn (List.length values - n) values.
Definition last_value (values : list Q) : Q := last values 0%Q.
Definition first_value (values : list Q) : Q := hd 0%Q values.

Definition lt (a b : Q) : bool := negb (Qle_bool b a).

(** The numbers of a column without missing values; [None] when a value is
    not a number. *)
Fixpoint floats (s : Series) : option (list Q) :=
  match s with
  | [] => Some []
  | Num q :: r => option_map (cons q) (floats r)
  | _ :: _ => None
  end.

Section DetectTrends.
(** [stats.mannkendall(values)]: the trend statistic and the p-value, or
    [None] when the call raises. *)
Variable mannkendall : list Q -> option (Q * Q).

(** The body of the [try] block once the test has returned. *)
Definition primary (values : list Q) (trend p_value : Q) : trend_info :=
  let confidence :=
    if Qle_bool p_value 0.05 then "high"
    else if Qle_bool p_value 0.1 then "moderate"
    else "low" in
  let trend_direction :=
    if lt 0 trend then "increasing"
    else if lt trend 0 then "decreasing"
    else "stable" in
  let recent_change :=
    if (3 <=? List.length values)%nat then
      let recent_values := last_n 3 values in
      Some (if negb (Qeq_bool (first_value recent_values) 0)
            then (last_value recent_values - first_value recent_values)
                 / first_value recent_values
            else 0)%Q
    else None in
  {| trend := trend_direction; p_value := Some p_value;
     confidence := Some confidence; recent_change := recent_change |}.

(** The [except] block. *)
Definition fallback (values : list Q) : trend_info :=
  if (2 <=? List.length values)%nat then
    let slope :=
      ((last_value values - first_value values)
       / (of_nat (List.length values) - 1))%Q in
    let trend_direction :=
      if lt 0.01 slope then "increasing"
      else if lt slope (-0.01) then "decreasing"
      else "stable" in
    let recent_change :=
      (if negb (Qeq_bool (first_value values) 0)
       then (last_value values - first_value values) / first_value values
       else 0)%Q in
    {| trend := trend_direction; p_value := None;
       confidence := Some "low"; recent_change := Some recent_change |}
  else insufficient_data.

(** [detect_trends] from the point where [values] is known. *)
Definition detect_values (values : list Q) : trend_info :=
  if (List.length values <? 3)%nat then insufficient_data
  else match mannkendall values with
       | Some (trend, p_value) => primary values trend p_value
       | None => fallback values
       end.

Definition detect_trends (time_series_data : option DataFrame) (value_col : string)
  : result trend_info :=
  match time_series_data with
  | None => Ok insufficient_data
  | Some df =>
      if (len df =? 0)%nat || negb (has_column value_col df)
      then Ok insufficient_data
      else
        s <- getitem df value_col ;;
        let values := dropna s in
        if (List.length values <? 3)%nat then Ok insufficient_data
        else match floats values with
             | Some vs => Ok (detect_values vs)
             | None => Raise (TypeError "unsupported operand")
             end
  end.
End DetectTrends.

(** The name [stats.mannkendall] as [scipy.stats] resolves it: the module
    has no attribute of that name, so evaluating the call raises
    AttributeError inside the [try] block, for every argument. *)
Definition scipy_stats_mannkendall (values : list Q) : option (Q * Q) := None.

(** A recommendation dict. *)
Record recommendation : Type := {
  category : string;
  description : string;
  priority : string
}.

Definition when {A} (b : bool) (l : list A) : list A := if b then l else [].

(** What one pass of [for insight in insights] appends. *)
Definition recommend (insight : dict) : list recommendation :=
  let category := dict_get insight "category" "" in
  let description := dict_get insight "description" "" in
  when (String.eqb category "approval_rate" && contains "decreasing" description)
    [ {| category := "approval_rate";
         description := "Investigate reasons for declining approval rates and consider adjusting lending criteria or application processes";
         priority := "high" |} ]
  ++ (if String.eqb category "processing_time" && contains "increasing" description
      then [ {| category := "processing_time";
                description := "Review and optimize loan processing workflow to reduce increasing processing times";
                priority := "high" |} ]
      else when (String.eqb category "processing_time" && contains "decreasing" description)
             [ {| category := "processing_time";
                  description := "Document and standardize recent process improvements that have led to reduced processing times";
                  priority := "medium" |} ])
  ++ when (String.eqb category "bottleneck")
       (let severity := dict_get insight "severity" "medium" in
        let by_severity := if String.eqb severity "high" then "high" else "medium" in
        when (contains "processing_time outliers" description)
          [ {| category := "bottleneck";
               description := "Implement process monitoring to identify and address applications with extended processing times";
               priority := by_severity |} ]
        ++ when (contains "rejection_reason" description)
             [ {| category := "bottleneck";
                  description := "Focus on the dominant rejection reason to improve application quality or adjust lending criteria";
                  priority := by_severity |} ]
        ++ when (contains "volume_fluctuation" description)
             [ {| category := "bottleneck";
                  description := "Develop resource allocation strategy to better handle application volume fluctuations";
                  priority := "medium" |} ])
  ++ when (String.eqb category "correlation")
       (when (contains "loan amount" (lower description) && contains "negative" description)
          [ {| category := "correlation";
               description := "Review lending criteria for higher loan amounts to identify potential barriers to approval";
               priority := "medium" |} ]
        ++ when (contains "credit score" (lower description) && contains "positive" description)
             [ {| category := "correlation";
                  description := "Consider developing specialized products for different credit score segments";
                  priority := "medium" |} ]
        ++ when (contains "income" (lower description))
             [ {| category := "correlation";
                  description := "Evaluate income verification procedures and requirements for potential optimization";
                  priority := "medium" |} ]).

(** The recommendations the loop has collected when it ends. *)
Definition specific (insights : list dict) : list recommendation :=
  fold_left (fun recommendations insight => (recommendations ++ recommend insight)%list)
            insights [].

Definition general : list recommendation :=
  [ {| category := "general";
       description := "Implement regular data analysis reviews to track key metrics and identify trends early";
       priority := "medium" |};
    {| category := "general";
       description := "Develop standardized reporting for loan origination performance to share with stakeholders";
       priority := "medium" |} ].

Definition generate_recommendations (insights : list dict) : list recommendation :=
  match insights with
  | [] => []
  | _ =>
      let recommendations := specific insights in
      if (List.length recommendations <? 3)%nat
      then recommendations ++ general
      else recommendations
  end.

End Statistics.

(** ** Rendering of numbers in formatted strings *)
Module Format.

(** [str(n)] for a count. *)
Definition str_nat (n : nat) : string := NilZero.string_of_uint (Nat.to_uint n).

(** [s.rjust(width, "0")] *)
Definition zero_pad (width : nat) (s : string) : string :=
  String.concat "" (repeat "0" (width - String.length s)) ++ s.

(** The format [.Nf] on an exact number: [digits] decimals, rounded to the
    nearest, ties to even, with the sign of the number. *)
Definition format_fixed (digits : nat) (q : Q) : string :=
  let scale := (10 ^ Z.of_nat digits)%Z in
  let scaled := round_half_even (Qabs q * inject_Z scale) in
  (if Qle_bool 0 q then "" else "-")
  ++ str_nat (Z.to_nat (scaled / scale))
  ++ (if (digits =? 0)%nat then ""
      else "." ++ zero_pad digits (str_nat (Z.to_nat (scaled mod scale)))).

(** [s.replace("_", " ")] *)
Fixpoint replace_underscores (s : string) : string :=
  match s with
  | EmptyString => EmptyString
  | String c r =>
      String (if Ascii.eqb c "_" then " "%char else c) (replace_underscores r)
  end.

Definition is_lower (c : ascii) : bool :=
  let n := nat_of_ascii c in (97 <=? n)%nat && (n <=? 122)%nat.
Definition is_upper (c : ascii) : bool :=
  let n := nat_of_ascii c in (65 <=? n)%nat && (n <=? 90)%nat.
Definition upper_ascii (c : ascii) : ascii :=
  if is_lower c then ascii_of_nat (nat_of_ascii c - 32) else c.

(** [s.title()] on the ASCII range: a letter after a non-letter is put in
    upper case, a letter after a letter in lower case. *)
Fixpoint title_from (after_letter : bool) (s : string) : string :=
  match s with
  | EmptyString => EmptyString
  | String c r =>
      String (if after_letter then lower_ascii c else upper_ascii c)
             (title_from (is_lower c || is_upper c) r)
  end.

Definition title (s : string) : string := title_from false s.

End Format.
Import Format.

(** ** [statistics.py]: summary, bottlenecks and insights *)
Module Synthesis.
Import DataProcessor Statistics.

(** The dict returned by [calculate_summary_metrics]. *)
Record summary_metrics : Type := {
  total_applications : nat;
  approved_count : nat;
  rejected_count : nat;
  overall_approval_rate : Q;
  avg_processing_time : cell;
  median_processing_time : cell
}.

(** A bottleneck dict. *)
Record bottleneck : Type := {
  type : string;
  description : string;
  severity : string
}.

(** [df.empty] *)
Definition empty (df : DataFrame) : bool := (len df =? 0)%nat.

(** [s.pct_change().dropna()] on a series of counts, as exact rationals.
    pandas computes [b / a - 1] in binary floats, so that a change of
    exactly 30 percent (10 to 13) compares as greater than 0.3 there and
    as equal here. *)
Fixpoint pct_changes (volumes : list nat) : list Q :=
  match volumes with
  | a :: ((b :: _) as rest) => ((of_nat b - of_nat a) / of_nat a)%Q :: pct_changes rest
  | _ => []
  end.

Section Functions.
Context `{PyLib}.
(** [s.quantile(q)] on the numbers of a series, and the format [.Nf]. *)
Variable quantile : list Q -> Q -> Q.
Variable fixed : nat -> Q -> string.

Definition calculate_summary_metrics (data : option DataFrame) : summary_metrics :=
  let zeros :=
    {| total_applications := 0; approved_count := 0; rejected_count := 0;
       overall_approval_rate := 0; avg_processing_time := Num 0;
       median_processing_time := Num 0 |} in
  match data with
  | None => zeros
  | Some df =>
      if empty df then zeros
      else
        let total := len df in
        let '(approved, rejected, approval_rate) :=
          match lookup "status_standardized" df with
          | Some st =>
              let approved := List.length (filter (eq_str "approved") st) in
              let rejected := List.length (filter (eq_str "rejected") st) in
              (approved, rejected,
               if (0 <? total)%nat then (of_nat approved / of_nat total)%Q else 0%Q)
          | None => (0, 0, 0%Q)
          end in
        let '(avg_time, median_time) :=
          match lookup "processing_time_days" df with
          | Some days =>
              let processing_time := dropna days in
              match processing_time with
              | [] => (Num 0, Num 0)
              | _ => (agg_mean processing_time, agg_median processing_time)
              end
          | None => (Num 0, Num 0)
          end in
        {| total_applications := total; approved_count := approved;
           rejected_count := rejected; overall_approval_rate := approval_rate;
           avg_processing_time := avg_time; median_processing_time := median_time |}
  end.

(** The check of the processing-time outliers. *)
Definition outlier_bottleneck (df : DataFrame) : result (list bottleneck) :=
  match lookup "processing_time_days" df with
  | Some days =>
      match dropna days with
      | [] => Ok []
      | processing_time =>
          match floats processing_time with
          | None => Raise (TypeError "unsupported operand")
          | Some values =>
              let q3 := quantile values 0.75 in
              let q1 := quantile values 0.25 in
              let iqr := (q3 - q1)%Q in
              let upper_bound := (q3 + 1.5 * iqr)%Q in
              let outliers := filter (fun v => Statistics.lt upper_bound v) values in
              let outlier_percent :=
                (of_nat (List.length outliers) / of_nat (List.length values) * 100)%Q in
              if Statistics.lt 10 outlier_percent then
                Ok [ {| type := "processing_time";
                        description :=
                          "Significant processing time outliers detected ("
                          ++ fixed 1 outlier_percent ++ "% of applications)";
                        severity :=
                          if Statistics.lt 20 outlier_percent then "high" else "medium" |} ]
              else Ok []
          end
      end
  | None => Ok []
  end.

(** The check of the distribution of the rejection reasons. *)
Definition rejection_bottleneck (df : DataFrame) : list bottleneck :=
  match lookup "rejection_reason" df, lookup "status_standardized" df with
  | Some _, Some st =>
      let rejected := select_rows (map (eq_str "rejected") st) df in
      match (if empty rejected then None else lookup "rejection_reason" rejected) with
      | Some reasons =>
          let rejection_reasons := dropna reasons in
          match value_counts rejection_reasons with
          | [] => []
          | (top_reason, top_count) :: _ =>
              let top_reason_pct :=
                (of_nat top_count / of_nat (List.length rejection_reasons) * 100)%Q in
              if Statistics.lt 50 top_reason_pct then
                [ {| type := "rejection_reason";
                     description :=
                       "'" ++ str_ top_reason ++ "' accounts for "
                       ++ fixed 1 top_reason_pct ++ "% of rejections";
                     severity :=
                       if Statistics.lt 70 top_reason_pct then "high" else "medium" |} ]
              else []
          end
      | None => []
      end
  | _, _ => []
  end.

(** The check of the monthly volumes. *)
Definition volume_bottleneck (df : DataFrame) : list bottleneck :=
  match lookup "application_yearmonth" df with
  | Some months =>
      let monthly_volume := map (fun g => count_true (snd g)) (groupby months) in
      if (2 <? List.length monthly_volume)%nat then
        let monthly_changes := map Qabs (pct_changes monthly_volume) in
        let significant_changes :=
          filter (fun change => Statistics.lt 0.3 change) monthly_changes in
        match significant_changes with
        | [] => []
        | _ =>
            [ {| type := "volume_fluctuation";
                 description :=
                   "Significant monthly volume fluctuations detected in "
                   ++ str_nat (List.length significant_changes) ++ " months";
                 severity := "medium" |} ]
        end
      else []
  | None => []
  end.

Definition identify_bottlenecks (data : option DataFrame) : result (list bottleneck) :=
  match data with
  | None => Ok []
  | Some df =>
      if empty df then Ok []
      else
        outliers <- outlier_bottleneck df ;;
        Ok (outliers ++ rejection_bottleneck df ++ volume_bottleneck df)%list
  end.

(** The insight that [generate_insights] makes of a trend, under the
    category and the subject of the trend ("Approval rate", "Processing
    time"). *)
Definition trend_insight (category subject : string) (trend : option trend_info)
  : list dict :=
  match trend with
  | None => []
  | Some info =>
      if String.eqb (Statistics.trend info) "insufficient data" then []
      else
        let confidence_text :=
          match confidence info with Some c => c | None => "None" end in
        let text :=
          subject ++ " shows a " ++ Statistics.trend info ++ " trend with "
          ++ confidence_text ++ " confidence" in
        let text :=
          match recent_change info with
          | Some change =>
              let recent_change_pct := (change * 100)%Q in
              if Statistics.lt 5 (Qabs recent_change_pct)
              then text ++ " (recent change: " ++ fixed 1 recent_change_pct ++ "%)"
              else text
          | None => text
          end in
        [ [("category", category); ("description", text)] ]
  end.

Definition bottleneck_insight (b : bottleneck) : dict :=
  [ ("category", "bottleneck"); ("description", description b);
    ("severity", severity b) ].

(** One pass of the loop over the factors; an exception in the pass
    skips the factor. *)
Definition correlation_insight (df : DataFrame) (factor : string) : list dict :=
  match lookup factor df, lookup "status_standardized" df with
  | Some f, Some st =>
      let mask := zip_with (fun x y => negb (isna x) && negb (isna y)) f st in
      let kept_factor := select mask f in
      let is_approved :=
        map (fun c => Num (if eq_str "approved" c then 1 else 0)) (select mask st) in
      if (10 <? len (select_rows mask [(factor, f); ("status_standardized", st)]))%nat
      then
        match series_corr kept_factor is_approved with
        | Num corr =>
            if Statistics.lt 0.2 (Qabs corr) then
              let direction := if Statistics.lt 0 corr then "positive" else "negative" in
              let strength :=
                if Statistics.lt 0.5 (Qabs corr) then "strong" else "moderate" in
              [ [ ("category", "correlation");
                  ("description",
                   title (replace_underscores factor) ++ " shows a " ++ strength
                   ++ " " ++ direction ++ " correlation (" ++ fixed 2 corr
                   ++ ") with approval rates") ] ]
            else []
        | _ => []
        end
      else []
  | _, _ => []
  end.

Definition generate_insights (data : option DataFrame)
    (approval_trend processing_time_trend : option trend_info)
    (bottlenecks : option (list bottleneck)) : list dict :=
  match data with
  | None => []
  | Some df =>
      if empty df then []
      else
        (trend_insight "approval_rate" "Approval rate" approval_trend
         ++ trend_insight "processing_time" "Processing time" processing_time_trend
         ++ match bottlenecks with
            | Some bs => map bottleneck_insight bs
            | None => []
            end
         ++ (if has_column "status_standardized" df
             then flat_map (correlation_insight df)
                    (filter (is_factor df) potential_factors)
             else []))%list
  end.

End Functions.
End Synthesis.

(** ** [utils.py]: distinct values and filters *)
Module Utils.

(** The values a filter can hold: nothing, one value, or a list or tuple
    of values. *)
Inductive filter_value : Type :=
| FNone
| FOne (value : cell)
| FSeq (values : list cell).

(** [s == value] and [s.isin(values)], element by element; a missing cell
    equals nothing. *)
Definition eq_value (value c : cell) : bool := negb (isna c) && cell_eqb c value.
Definition isin (values : list cell) (c : cell) : bool :=
  existsb (cell_eqb c) values.

(** [max_display] is [None] when the caller leaves it out (default 10). *)
Definition get_unique_values (df : option DataFrame) (column : string)
    (max_display : option Z) : list cell :=
  let max_display := match max_display with Some n => n | None => 10%Z end in
  match df with
  | None => []
  | Some df =>
      match lookup column df with
      | None => []
      | Some s =>
          let values := unique (dropna s) in
          if (max_display <? Z.of_nat (List.length values))%Z
          then map fst (head max_display (value_counts s))
          else values
      end
  end.

Section Filters.
(** [(s >= start) & (s <= end)]: the mask, or [None] when the comparison
    raises; and the test of a datetime column. *)
Variable between : Series -> cell -> cell -> option (list bool).
Variable is_datetime : Series -> bool.

(** One pass of [for column, value in filters.items()]. *)
Definition apply_filter (filtered_df : DataFrame) (column : string)
    (value : filter_value) : result DataFrame :=
  match lookup column filtered_df with
  | None => Ok filtered_df
  | Some s =>
      match value with
      | FSeq [start; finish] =>
          match between s start finish with
          | Some mask => Ok (select_rows mask filtered_df)
          | None =>
              if is_datetime s then Raise (TypeError "invalid comparison")
              else Ok filtered_df
          end
      | FSeq values => Ok (select_rows (map (isin values) s) filtered_df)
      | FOne value => Ok (select_rows (map (eq_value value) s) filtered_df)
      | FNone => Ok filtered_df
      end
  end.

Fixpoint apply_filters (filtered_df : DataFrame)
    (filters : list (string * filter_value)) : result DataFrame :=
  match filters with
  | [] => Ok filtered_df
  | (column, value) :: rest =>
      df' <- apply_filter filtered_df column value ;;
      apply_filters df' rest
  end.

Definition filter_dataframe (df : option DataFrame)
    (filters : list (string * filter_value)) : result (option DataFrame) :=
  match df, filters with
  | None, _ => Ok None
  | Some d, [] => Ok (Some d)
  | Some d, _ => filtered <- apply_filters d filters ;; Ok (Some filtered)
  end.
End Filters.

End Utils.

(** * Vocabulary of the statements *)
Module Spec.
Import ColumnMapper DataProcessor Statistics.

(** No name of [names] matches any column of [columns] under [m]. *)
Definition no_hit (m : string -> string -> bool) (names columns : list string) : Prop :=
  forall n c, In n names -> In c columns -> m n c = false.

(** The first name of [names] that matches some column under [m] matches,
    first, the column at position [k]. *)
Definition first_hit (m : string -> string -> bool) (names columns : list string)
    (k : nat) : Prop :=
  exists before name after pre col post,
    names = (before ++ name :: after)%list /\
    columns = (pre ++ col :: post)%list /\
    k = List.length pre /\
    no_hit m before columns /\
    (forall c, In c pre -> m name c = false) /\
    m name col = true.

(** A name written in ASCII.  On such names [str.lower] is [lower]: it
    changes the letters A to Z and nothing else. *)
Definition ascii_only (s : string) : bool :=
  forallb (fun c => (nat_of_ascii c <? 128)%nat) (list_ascii_of_string s).

Definition example_columns : list string :=
  ["Application_ID"; "App Date"; "decision_date"; "Status"].
Definition example_names : list string := ["application_id"; "loan_id"; "id"].


(** Every column of the frame has [n] rows. *)
Definition rectangular (n : nat) (df : DataFrame) : Prop :=
  Forall (fun c => List.length (snd c) = n) df.

(** The canonical field names a column mapping may use as keys, and the
    four of them the caller requires. *)
Definition canonical_fields : list string :=
  [ "application_id"; "application_date"; "decision_date"; "status";
    "loan_amount"; "income"; "credit_score"; "rejection_reason" ].

Definition required_fields : list string :=
  ["application_id"; "application_date"; "decision_date"; "status"].

Definition canonical_mapping (mapping : list (string * option string)) : Prop :=
  forall std, In std (map fst mapping) -> In std canonical_fields.

(** The field is mapped: the mapping holds a non-empty source column for
    it. *)
Definition is_mapped (mapping : list (string * option string)) (field : string) : bool :=
  existsb (String.eqb field) (map fst (mapped_columns mapping)).

(** A raw table of four applications whose date cells are datetimes
    already: decided after 10 days, decided 20 days before the application,
    decided after 400 days, and never applied. *)
Definition day_ns : Z := (24 * 60 * 60 * 1000000000)%Z.

Definition example_raw : DataFrame :=
  [ ("Loan ID", [Str "A1"; Str "A2"; Str "A3"; Str "A4"]);
    ("Applied", [Time 0; Time (20 * day_ns); Time 0; Null]);
    ("Decided", [Time (10 * day_ns); Time 0; Time (400 * day_ns); Time day_ns]);
    ("Outcome", [Str "Approved"; Str "DECLINED - low score"; Str "In Review"; Null]) ].

Definition full_mapping : list (string * option string) :=
  [ ("application_id", Some "Loan ID");
    ("application_date", Some "Applied");
    ("decision_date", Some "Decided");
    ("status", Some "Outcome");
    ("loan_amount", None); ("income", None);
    ("credit_score", None); ("rejection_reason", None) ].

(** The same mapping with the status field left unmapped. *)
Definition mapping_without_status : list (string * option string) :=
  [ ("application_id", Some "Loan ID");
    ("application_date", Some "Applied");
    ("decision_date", Some "Decided");
    ("status", Some "");
    ("loan_amount", None); ("income", None);
    ("credit_score", None); ("rejection_reason", None) ].

(** The same mapping with the application date left unmapped. *)
Definition mapping_without_application_date : list (string * option string) :=
  [ ("application_id", Some "Loan ID");
    ("application_date", None);
    ("decision_date", Some "Decided");
    ("status", Some "Outcome");
    ("loan_amount", None); ("income", None);
    ("credit_score", None); ("rejection_reason", None) ].

Definition example_processor (mapping : list (string * option string)) : DataProcessor :=
  set_column_mapping (__init__ example_raw) mapping.

(** A value of [processing_time_days] of the canonical view: missing, or a
    number of days between 0 and 365. *)
Definition in_range (c : cell) : Prop :=
  match c with
  | Null => True
  | Num q => (0 <= q /\ q <= 365)%Q
  | _ => False
  end.

(** Days from the application to the decision, both in nanoseconds. *)
Definition elapsed_days (decision application : Z) : Q :=
  (((decision - application) # 1000000000) / (24 * 60 * 60))%Q.

(** The processing time of a row: the days elapsed when both dates are
    present and the days are neither negative nor more than 365, missing
    otherwise. *)
Definition expected_days (decision application : cell) : cell :=
  match decision, application with
  | Time d, Time a =>
      let q := elapsed_days d a in
      if Qle_bool 0 q && Qle_bool q 365 then Num q else Null
  | _, _ => Null
  end.

(** The approval rate of a group: approved by total, and 0 for a group
    without rows. *)
Definition rate_of (approved total : nat) : cell :=
  Num (if (total =? 0)%nat then 0 else of_nat approved / of_nat total).

(** The two shapes of the table of [get_approval_rate]: one overall row,
    or one row per group under the name of the grouping column. *)
Definition overall_table (total approved : nat) : DataFrame :=
  [ ("total_applications", [Num (of_nat total)]);
    ("approved", [Num (of_nat approved)]);
    ("approval_rate", [rate_of approved total]) ].

Definition grouped_table (grouper : string) (keys : list cell)
    (totals approveds : list nat) : DataFrame :=
  [ (grouper, keys);
    ("total_applications", nat_col totals);
    ("approved", nat_col approveds);
    ("approval_rate", zip_with rate_of approveds totals) ].

(** A view of eleven applications, ten of them rejected: six for a low
    credit score, four for another reason. *)
Definition rejections_view : DataFrame :=
  [ ("status_standardized",
     (repeat (Str "rejected") 10 ++ [Str "approved"])%list);
    ("rejection_reason",
     (repeat (Str "Low Credit Score") 6 ++ repeat (Str "Other") 4 ++ [Null])%list) ].

(** A view without rows. *)
Definition empty_view : DataFrame :=
  [ ("application_id", []); ("status", []); ("status_standardized", []) ].

(** A processor that holds [view] as its processed data. *)
Definition processed (view : DataFrame) : DataProcessor :=
  {| raw_data := []; data := Some view; column_mapping := [];
     approval_terms := ["approved"; "accept"; "funded"; "complete"];
     rejection_terms := ["rejected"; "denied"; "declined"; "refuse"] |}.

(** The reasons of the rejected rows of a view, without the missing
    ones. *)
Definition rejected_reasons (df : DataFrame) : Series :=
  match lookup "status_standardized" df, lookup "rejection_reason" df with
  | Some st, Some reasons => dropna (select (map (eq_str "rejected") st) reasons)
  | _, _ => []
  end.

(** A row of the ranking: reason, count, percentage. *)
Definition reason_of (r : cell * nat * Q) : cell := fst (fst r).
Definition count_of (r : cell * nat * Q) : nat := snd (fst r).
Definition percentage_of (r : cell * nat * Q) : Q := snd r.

Definition ranking_table (rows : list (cell * nat * Q)) : DataFrame :=
  [ ("reason", map (fun r => fst (fst r)) rows);
    ("count", map (fun r => Num (of_nat (snd (fst r)))) rows);
    ("percentage", map (fun r => Num (snd r)) rows) ].

(** [count] out of [total] in percent, before any rounding; and a number
    within half a unit of the second decimal of another, which is what
    rounding to two decimals guarantees whichever way a tie falls. *)
Definition exact_percentage (count total : nat) : Q :=
  (of_nat count / of_nat total * 100)%Q.

Definition rounds_to (p q : Q) : Prop := (Qabs (p - q) <= 5 # 1000)%Q.

(** The names of the columns that [preprocess_data] derives. *)
Definition derived_columns : list string :=
  [ "status_standardized"; "processing_time_days";
    "application_month"; "application_year"; "application_yearmonth" ].

(** The frame that [preprocess_data] makes of the copied columns. *)
Definition stages `{PyLib} (self : DataProcessor) (copied : DataFrame) : DataFrame :=
  periods (processing_time (standardize self (fold_left convert_date date_columns copied))).

(** A status value in which some term of [terms] occurs, after
    lower-casing. *)
Definition mentions `{PyLib} (terms : list string) (status : cell) : Prop :=
  exists term, In term terms /\ contains term (lower (str_ status)) = true.

(** A library for the closed examples below.  Their cells are strings that
    are not dates, or datetimes already, so that no date text is parsed and
    no aggregation is reached: every parser refuses, every aggregation is
    missing. *)
Definition example_lib : PyLib :=
  {| strptime := fun _ _ => None;
     to_datetime := fun _ => None;
     repr := fun _ => "";
     dt_month := fun _ => 1%Z;
     dt_year := fun _ => 1970%Z;
     dt_strftime := fun _ _ => "1970-01";
     dt_quarter := fun _ => "1970Q1";
     agg_mean := fun _ => Null;
     agg_median := fun _ => Null;
     agg_min := fun _ => Null;
     agg_max := fun _ => Null;
     agg_std := fun _ => Null;
     series_corr := fun _ _ => Null;
     is_numeric_dtype := fun _ => false |}.

(** The recent-change ratio over the trailing three values: (last - first)
    / first of those three, and 0 when that first value is 0. *)
Definition trailing_change (values : list Q) : Q :=
  match rev values with
  | last :: _ :: first :: _ =>
      if Qeq_bool first 0 then 0%Q else ((last - first) / first)%Q
  | _ => 0%Q
  end.

(** The same ratio between the first and the last value of the whole
    series. *)
Definition overall_change (values : list Q) : Q :=
  if Qeq_bool (first_value values) 0 then 0%Q
  else ((last_value values - first_value values) / first_value values)%Q.

(** The series of the trend examples, as a table with a value column. *)
Definition rising_series : DataFrame :=
  [ ("application_yearmonth",
     [Str "2023-01"; Str "2023-02"; Str "2023-03"; Str "2023-04"; Str "2023-05"]);
    ("approval_rate", [Num 0.40; Num 0.42; Num 0.45; Num 0.47; Num 0.50]) ].

Definition doubling_series : list Q := [1; 2; 4; 8]%Q.

(** One insight that triggers a specific recommendation. *)
Definition declining_insight : dict :=
  [ ("category", "approval_rate");
    ("description", "Approval rate shows a decreasing trend with high confidence") ].

End Spec.

(** * Vocabulary of the further statements *)
Module Terms.
Import ColumnMapper DataProcessor Statistics Synthesis Utils Spec.

(** The four status classes. *)
Definition status_classes : list cell :=
  [Str "approved"; Str "rejected"; Str "other"; Str "unknown"].

(** The character occurs in the string. *)
Fixpoint occurs (c : ascii) (s : string) : bool :=
  match s with
  | EmptyString => false
  | String d r => Ascii.eqb c d || occurs c r
  end.

(** A number between 0 and 1. *)
Definition is_fraction (c : cell) : Prop :=
  match c with
  | Num q => (0 <= q /\ q <= 1)%Q
  | _ => False
  end.

(** A recommendation with one of the two priorities and one of the five
    categories that the source writes. *)
Definition well_formed (r : recommendation) : Prop :=
  In (priority r) ["high"; "medium"] /\
  In (category r)
     ["approval_rate"; "processing_time"; "bottleneck"; "correlation"; "general"].

(** The description that [identify_bottlenecks] gives an outlier
    bottleneck, for 12.5 percent. *)
Definition outlier_insight : dict :=
  [ ("category", "bottleneck");
    ("description",
     "Significant processing time outliers detected (12.5% of applications)");
    ("severity", "medium") ].

(** A mapping of the two date fields only, and one without the decision
    date. *)
Definition dates_mapping : list (string * option string) :=
  [ ("application_date", Some "Applied"); ("decision_date", Some "Decided") ].

Definition application_only_mapping : list (string * option string) :=
  [ ("application_id", Some "Loan ID"); ("application_date", Some "Applied");
    ("decision_date", None); ("status", Some "Outcome") ].

(** A view of three months of applications. *)
Definition monthly_view : DataFrame :=
  [ ("application_yearmonth",
     [Str "2023-01"; Str "2023-01"; Str "2023-02"; Str "2023-03"; Null]);
    ("status_standardized",
     [Str "approved"; Str "rejected"; Str "approved"; Str "other"; Str "approved"]) ].

(** A cell of a column of numbers: a number or the missing marker. *)
Definition numeric (c : cell) : bool :=
  match c with Num _ | Null => true | _ => false end.

(** The statuses of a column that are neither approved nor rejected. *)
Definition decided (c : cell) : bool := eq_str "approved" c || eq_str "rejected" c.

(** The recommendations for a falling approval rate and for a rising
    processing time. *)
Definition approval_advice : recommendation :=
  {| category := "approval_rate";
     Statistics.description := "Investigate reasons for declining approval rates and consider adjusting lending criteria or application processes";
     priority := "high" |}.

Definition workflow_advice : recommendation :=
  {| category := "processing_time";
     Statistics.description := "Review and optimize loan processing workflow to reduce increasing processing times";
     priority := "high" |}.

(** The types of the bottlenecks, in the order of the checks. *)
Definition bottleneck_types (outliers reasons volumes : bool) : list string :=
  (when outliers ["processing_time"] ++ when reasons ["rejection_reason"]
   ++ when volumes ["volume_fluctuation"])%list.

(** A quantile for the closed examples, whose tables have no processing
    times: the first value. *)
Definition first_quantile (values : list Q) (q : Q) : Q := hd 0%Q values.

(** The pairs of consecutive monthly volumes, and the test of a change of
    more than 30 percent of the earlier volume. *)
Fixpoint adjacent (volumes : list nat) : list (nat * nat) :=
  match volumes with
  | a :: ((b :: _) as rest) => (a, b) :: adjacent rest
  | _ => []
  end.

Definition jump (ab : nat * nat) : bool :=
  (3 * fst ab <? 10 * (Nat.max (fst ab) (snd ab) - Nat.min (fst ab) (snd ab)))%nat.

(** The test of a change of at least 30 percent of the earlier volume. *)
Definition reaches (ab : nat * nat) : bool :=
  (3 * fst ab <=? 10 * (Nat.max (fst ab) (snd ab) - Nat.min (fst ab) (snd ab)))%nat.

(** The percentage change from a month to the next. *)
Definition change_of (ab : nat * nat) : Q :=
  ((of_nat (snd ab) - of_nat (fst ab)) / of_nat (fst ab))%Q.

(** The test of the category of an insight. *)
Definition has_category (name : string) (insight : dict) : bool :=
  String.eqb (dict_get insight "category" "") name.

(** A bottleneck with severity high or medium, and one whose description
    has no underscore. *)
Definition severity_ok (b : bottleneck) : Prop := In (severity b) ["high"; "medium"].
Definition plain (b : bottleneck) : Prop := occurs "_" (Synthesis.description b) = false.

(** A trend result with a falling direction. *)
Definition falling_trend : trend_info :=
  {| trend := "decreasing"; p_value := None; confidence := Some "low";
     recent_change := Some (- (1 # 4))%Q |}.

End Terms.

(** * Properties *)

(** ** Column suggestion *)
Module ColumnMapperFacts.
Import ColumnMapper DataProcessor Spec.

Lemma mem_In (x : string) (l : list string) : mem x l = true <-> In x l.
Proof.
  unfold mem. rewrite existsb_exists. split.
  - intros [y [Hy Heq]]. apply String.eqb_eq in Heq. now subst.
  - intros Hx. exists x. split; [assumption | apply String.eqb_refl].
Qed.

Lemma index_app_fresh (x : string) (pre post : list string) :
  ~ In x pre -> index x (pre ++ x :: post) = List.length pre.
Proof.
  induction pre as [|y pre IH]; simpl; intros Hn.
  - now rewrite String.eqb_refl.
  - destruct (String.eqb x y) eqn:E.
    + apply String.eqb_eq in E. subst. exfalso. apply Hn. now left.
    + f_equal. apply IH. intros Hin. apply Hn. now right.
Qed.

Lemma In_first (x : string) (l : list string) :
  In x l -> exists pre post, l = (pre ++ x :: post)%list /\ ~ In x pre.
Proof.
  induction l as [|y l IH]; simpl; intros Hin; [contradiction|].
  destruct (string_dec y x) as [->|Hne].
  - exists [], l. split; [reflexivity | intros []].
  - destruct Hin as [->|Hin]; [congruence|].
    destruct (IH Hin) as (pre & post & -> & Hn).
    exists (y :: pre), post. split; [reflexivity|].
    intros [H|H]; [congruence | contradiction].
Qed.

Lemma scan_columns_some (test : string -> bool) (columns rest : list string) (i : nat) :
  scan_columns test columns rest = Some i ->
  exists pre col post,
    rest = (pre ++ col :: post)%list /\
    (forall c, In c pre -> test c = false) /\
    test col = true /\ i = index col columns + 1.
Proof.
  induction rest as [|c rest IH]; simpl; [discriminate|].
  destruct (test c) eqn:E.
  - intros [= <-]. exists [], c, rest. repeat split; try assumption.
    intros ? [].
  - intros Hs. destruct (IH Hs) as (pre & col & post & -> & Hpre & Hcol & ->).
    exists (c :: pre), col, post. repeat split; try assumption.
    intros c' [<-|Hin]; [assumption | now apply Hpre].
Qed.

Lemma scan_columns_none (test : string -> bool) (columns rest : list string) :
  scan_columns test columns rest = None -> forall c, In c rest -> test c = false.
Proof.
  induction rest as [|c rest IH]; simpl; [intros _ ? []|].
  destruct (test c) eqn:E; [discriminate|].
  intros Hs c' [<-|Hin]; [assumption | now apply IH].
Qed.

Lemma no_hit_cons m name names columns :
  (forall c, In c columns -> m name c = false) ->
  no_hit m names columns -> no_hit m (name :: names) columns.
Proof.
  intros Hn Hrest n c [<-|Hin] Hc; [now apply Hn | now apply Hrest].
Qed.

Lemma first_hit_later m name names columns k :
  (forall c, In c columns -> m name c = false) ->
  first_hit m names columns k -> first_hit m (name :: names) columns k.
Proof.
  intros Hn (before & n & after & pre & col & post & -> & -> & -> & Hb & Hpre & Hcol).
  exists (name :: before), n, after, pre, col, post.
  repeat split; try assumption. now apply no_hit_cons.
Qed.

Lemma scan_spec (m : string -> string -> bool) (names columns : list string) :
  match scan m names columns with
  | Some i => exists k, i = S k /\ first_hit m names columns k
  | None => no_hit m names columns
  end.
Proof.
  induction names as [|name names IH]; simpl.
  - intros n c [].
  - destruct (scan_columns (m name) columns columns) as [i|] eqn:E.
    + destruct (scan_columns_some _ _ _ _ E) as (pre & col & post & Hc & Hpre & Hcol & ->).
      exists (List.length pre). split.
      * rewrite Hc, index_app_fresh; [lia|].
        intros Hin. apply Hpre in Hin. congruence.
      * exists [], name, names, pre, col, post.
        repeat split; try assumption. intros ? ? [].
    + pose proof (scan_columns_none _ _ _ E) as Hn.
      destruct (scan m names columns) as [i|].
      * destruct IH as (k & -> & Hk). exists k. split; [reflexivity|].
        now apply first_hit_later.
      * now apply no_hit_cons.
Qed.

Lemma scan_exact_spec (names columns : list string) :
  match scan_exact names columns with
  | Some i => exists k, i = S k /\ first_hit exact names columns k
  | None => no_hit exact names columns
  end.
Proof.
  induction names as [|name names IH]; simpl.
  - intros n c [].
  - destruct (mem name columns) eqn:E.
    + apply mem_In in E. destruct (In_first _ _ E) as (pre & post & Hc & Hn).
      exists (List.length pre). split.
      * rewrite Hc. rewrite index_app_fresh by assumption. lia.
      * exists [], name, names, pre, name, post.
        repeat split; try assumption.
        -- intros ? ? [].
        -- intros c Hin. unfold exact. apply String.eqb_neq.
           intros ->. contradiction.
        -- apply String.eqb_refl.
    + assert (Hn : forall c, In c columns -> exact name c = false).
      { intros c Hin. unfold exact. apply String.eqb_neq. intros ->.
        apply mem_In in Hin. congruence. }
      destruct (scan_exact names columns) as [i|].
      * destruct IH as (k & -> & Hk). exists k. split; [reflexivity|].
        now apply first_hit_later.
      * now apply no_hit_cons.
Qed.

Lemma example_no_exact_hit : no_hit exact example_names example_columns.
Proof.
  pose proof (scan_exact_spec example_names example_columns) as H.
  exact H.
Qed.

(** C8.  For names and columns written in ASCII, [suggest_column] tries
    the three heuristics in strict priority order and the first hit wins:
    an exact match of a name with a column, else a case-insensitive exact
    match, else a case-insensitive substring match in either direction;
    within a heuristic the first name that matches anything wins, with the
    first column it matches.  The result is the position of that column
    plus one, and 0 when nothing matches.  For the columns Application_ID,
    App Date, decision_date, Status and the names application_id, loan_id,
    id there is no exact hit and the case-insensitive step resolves to
    Application_ID (result 1). *)
Theorem suggest_column_priority :
  (forall (self : DataProcessor) (possible_names : list string),
     let cols := columns (raw_data self) in
     forallb ascii_only possible_names = true ->
     forallb ascii_only cols = true ->
     (exists k, first_hit exact possible_names cols k /\
                suggest_column self possible_names = S k)
     \/ (no_hit exact possible_names cols /\
         exists k, first_hit case_insensitive possible_names cols k /\
                   suggest_column self possible_names = S k)
     \/ (no_hit exact possible_names cols /\
         no_hit case_insensitive possible_names cols /\
         exists k, first_hit partial possible_names cols k /\
                   suggest_column self possible_names = S k)
     \/ (no_hit exact possible_names cols /\
         no_hit case_insensitive possible_names cols /\
         no_hit partial possible_names cols /\
         suggest_column self possible_names = 0))
  /\ (let self := __init__ (map (fun c => (c, [])) example_columns) in
      no_hit exact example_names (columns (raw_data self)) /\
      first_hit case_insensitive example_names (columns (raw_data self)) 0 /\
      suggest_column self example_names = 1 /\
      nth_error (columns (raw_data self)) 0 = Some "Application_ID").
Proof.
  split.
  - intros self names cols _ _. unfold suggest_column, suggest. fold cols.
    pose proof (scan_exact_spec names cols) as He.
    destruct (scan_exact names cols) as [i|].
    { destruct He as (k & -> & Hk). left. now exists k. }
    pose proof (scan_spec case_insensitive names cols) as Hc.
    destruct (scan case_insensitive names cols) as [i|].
    { destruct Hc as (k & -> & Hk). right; left. split; [assumption|]. now exists k. }
    pose proof (scan_spec partial names cols) as Hp.
    destruct (scan partial names cols) as [i|].
    { destruct Hp as (k & -> & Hk). right; right; left.
      repeat split; try assumption. now exists k. }
    right; right; right. repeat split; assumption.
  - cbv zeta. split; [exact example_no_exact_hit|]. split; [|split; reflexivity].
    exists [], "application_id", ["loan_id"; "id"], [], "Application_ID",
      ["App Date"; "decision_date"; "Status"].
    repeat split; try reflexivity; first [intros ? ? [] | intros ? []].
Qed.

Lemma suggest_column_priority_witness :
  forallb ascii_only example_names = true /\
  forallb ascii_only example_columns = true /\
  exists k,
    first_hit case_insensitive example_names example_columns k /\
    suggest_column (__init__ (map (fun c => (c, [])) example_columns)) example_names
    = S k.
Proof.
  split; [reflexivity|]. split; [reflexivity|].
  destruct (proj1 suggest_column_priority
              (__init__ (map (fun c => (c, [])) example_columns)) example_names
              eq_refl eq_refl)
    as [(k & Hk & He)|[(_ & k & Hk & He)|[(_ & Hn & _)|(_ & _ & _ & He)]]].
  - exfalso.
    destruct Hk as (before & name & after & pre & col & post & Hn & Hc & _ & _ & _ & Hm).
    assert (Hf : exact name col = false).
    { apply example_no_exact_hit.
      - rewrite Hn. apply in_elt.
      - change (In col (columns (raw_data
                  (__init__ (map (fun c => (c, [])) example_columns))))).
        rewrite Hc. apply in_elt. }
    rewrite Hm in Hf. discriminate Hf.
  - exists k. split; assumption.
  - exfalso.
    assert (Hf : case_insensitive "application_id" "Application_ID" = false).
    { apply Hn; left; reflexivity. }
    discriminate Hf.
  - discriminate He.
Defined.

End ColumnMapperFacts.

(** ** Status classification *)
Module StatusFacts.
Import DataProcessor Spec.

Lemma existsb_mentions `{PyLib} (terms : list string) (status : cell) :
  existsb (fun term => contains term (lower (str_ status))) terms = true
  <-> mentions terms status.
Proof. unfold mentions. apply existsb_exists. Qed.

Lemma existsb_not_mentions `{PyLib} (terms : list string) (status : cell) :
  ~ mentions terms status ->
  existsb (fun term => contains term (lower (str_ status))) terms = false.
Proof.
  intros Hn. apply not_true_is_false. intros Ht. apply Hn.
  now apply existsb_mentions.
Qed.

(** C4, the claim as stated fails: the empty string is not a missing
    value, so it is classified [other], not [unknown]. *)
Lemma empty_status_is_not_unknown :
  @_standardize_status example_lib (__init__ []) (Str "") = "other" /\
  @_standardize_status example_lib (__init__ []) (Str "") <> "unknown".
Proof. split; [reflexivity | discriminate]. Qed.

(** C4, amended.  [_standardize_status] classifies a missing value as
    [unknown]; any other value is lower-cased and matched by substring
    against the approval terms first, then the rejection terms: a value
    with an approval term is [approved] (also when it has a rejection term
    as well), a value with a rejection term and no approval term is
    [rejected], a value with neither is [other].  With the terms of the
    constructor, "Approved" is approved, "DECLINED - low score" is
    rejected, a missing value is unknown, "In Review" is other, and the
    empty string is other. *)
Theorem standardize_status_priority `{PyLib} (self : DataProcessor) (status : cell) :
  (isna status = true -> _standardize_status self status = "unknown") /\
  (isna status = false -> mentions (approval_terms self) status ->
   _standardize_status self status = "approved") /\
  (isna status = false -> ~ mentions (approval_terms self) status ->
   mentions (rejection_terms self) status ->
   _standardize_status self status = "rejected") /\
  (isna status = false -> ~ mentions (approval_terms self) status ->
   ~ mentions (rejection_terms self) status ->
   _standardize_status self status = "other") /\
  map (_standardize_status (__init__ []))
      [Str "Approved"; Str "DECLINED - low score"; Null; Str "In Review"; Str ""]
  = ["approved"; "rejected"; "unknown"; "other"; "other"].
Proof.
  unfold _standardize_status. repeat split.
  - now intros ->.
  - intros -> Ha. now rewrite (proj2 (existsb_mentions _ _) Ha).
  - intros -> Ha Hr. rewrite (existsb_not_mentions _ _ Ha).
    now rewrite (proj2 (existsb_mentions _ _) Hr).
  - intros -> Ha Hr. now rewrite (existsb_not_mentions _ _ Ha), (existsb_not_mentions _ _ Hr).
Qed.

End StatusFacts.

(** ** Recommendations *)
Module RecommendationFacts.
Import Statistics Spec.

(** C9, the claim as stated fails: for the empty insight list fewer than
    three specific recommendations are generated, and nothing is appended:
    the result is empty. *)
Lemma no_insights_no_recommendations :
  List.length (specific []) < 3 /\ generate_recommendations [] = [].
Proof. split; [simpl; lia | reflexivity]. Qed.

(** C9, amended.  For every non-empty insight list, when fewer than three
    specific recommendations are generated the two general recommendations
    are appended after them, otherwise the specific ones are returned as
    they are; in both cases the result has at least two entries.  (For the
    empty insight list the result is empty.) *)
Theorem generate_recommendations_general (insights : list dict) :
  insights <> [] ->
  (List.length (specific insights) < 3 ->
   generate_recommendations insights = (specific insights ++ general)%list) /\
  (3 <= List.length (specific insights) ->
   generate_recommendations insights = specific insights) /\
  2 <= List.length (generate_recommendations insights).
Proof.
  intros Hne. destruct insights as [|i insights]; [congruence|].
  unfold generate_recommendations.
  destruct (List.length (specific (i :: insights)) <? 3)%nat eqn:E.
  - apply Nat.ltb_lt in E. repeat split; try lia.
    rewrite length_app. simpl. lia.
  - apply Nat.ltb_ge in E. repeat split; try lia.
Qed.

Lemma generate_recommendations_general_witness :
  [declining_insight] <> [] /\
  generate_recommendations [declining_insight]
  = (specific [declining_insight] ++ general)%list.
Proof.
  split; [discriminate|].
  apply (generate_recommendations_general [declining_insight]);
    [discriminate | simpl; lia].
Defined.

End RecommendationFacts.

(** ** Trend detection *)
Module TrendFacts.
Import Statistics Spec.

(** When the significance test returns, the confidence band follows the
    p-value and the direction follows the sign of the statistic. *)
Lemma primary_bands (values : list Q) (t p : Q) :
  confidence (primary values t p)
  = Some (if Qle_bool p 0.05 then "high"
          else if Qle_bool p 0.1 then "moderate" else "low")
  /\ trend (primary values t p)
     = (if lt 0 t then "increasing" else if lt t 0 then "decreasing" else "stable")
  /\ p_value (primary values t p) = Some p.
Proof. repeat split. Qed.

Lemma last_n_3 (values : list Q) (a b c : Q) (front : list Q) :
  values = (front ++ [a; b; c])%list -> last_n 3 values = [a; b; c].
Proof.
  intros ->. unfold last_n. rewrite length_app. simpl.
  replace (List.length front + 3 - 3) with (List.length front + 0) by lia.
  rewrite skipn_app, Nat.add_0_r, skipn_all.
  replace (List.length front - List.length front) with 0 by lia.
  reflexivity.
Qed.

(** On the path of the test the recent change is taken over the trailing
    three values. *)
Lemma primary_recent_change (front : list Q) (a b c t p : Q) :
  recent_change (primary (front ++ [a; b; c]) t p)
  = Some (trailing_change (front ++ [a; b; c])).
Proof.
  unfold primary, trailing_change. cbn [recent_change].
  rewrite (last_n_3 _ a b c front eq_refl).
  rewrite length_app, rev_app_distr, Nat.add_comm.
  unfold first_value, last_value. simpl.
  now destruct (Qeq_bool a 0).
Qed.

(** The fallback takes the recent change between the first and the last
    value of the whole series. *)
Lemma fallback_recent_change (values : list Q) :
  2 <= List.length values ->
  recent_change (fallback values) = Some (overall_change values)
  /\ confidence (fallback values) = Some "low"
  /\ p_value (fallback values) = None.
Proof.
  intros Hlen. unfold fallback, overall_change.
  replace (2 <=? List.length values)%nat with true
    by (symmetry; apply Nat.leb_le; lia).
  cbn [recent_change confidence p_value].
  now destruct (Qeq_bool (first_value values) 0).
Qed.

(** C2, the code at the series 0.40, 0.42, 0.45, 0.47, 0.50.  Whenever
    the call of the significance test raises there, as the call of
    [stats.mannkendall] does, the [except] branch answers: the direction is
    increasing, but no p-value is produced and the confidence is low, not
    high or moderate. *)
Theorem detect_trends_rising_low_confidence
    (mannkendall : list Q -> option (Q * Q)) :
  mannkendall [0.40; 0.42; 0.45; 0.47; 0.50]%Q = None ->
  exists r,
    detect_trends mannkendall (Some rising_series) "approval_rate" = Ok r /\
    trend r = "increasing" /\ p_value r = None /\ confidence r = Some "low" /\
    confidence r <> Some "high" /\ confidence r <> Some "moderate".
Proof.
  intros Hraise. unfold detect_trends. simpl. unfold detect_values. simpl.
  rewrite Hraise. eexists. split; [reflexivity|].
  repeat split; discriminate.
Qed.

Lemma detect_trends_rising_low_confidence_witness :
  exists r,
    detect_trends scipy_stats_mannkendall (Some rising_series) "approval_rate" = Ok r /\
    confidence r = Some "low".
Proof.
  destruct (detect_trends_rising_low_confidence scipy_stats_mannkendall eq_refl)
    as (r & Hr & _ & _ & Hc & _).
  exists r. split; assumption.
Defined.

(** C6, the code on its fallback path.  For a series of at least three
    values on which the call of the significance test raises, the recent
    change returned is the ratio between the first and the last value of
    the whole series; for 1, 2, 4, 8 that is 7, while the ratio over the
    trailing three values is 3. *)
Theorem fallback_recent_change_whole_series
    (mannkendall : list Q -> option (Q * Q)) (values : list Q) :
  3 <= List.length values ->
  mannkendall values = None ->
  recent_change (detect_values mannkendall values) = Some (overall_change values)
  /\ overall_change doubling_series = 7%Q
  /\ trailing_change doubling_series = (6 # 2)%Q
  /\ ~ (overall_change doubling_series == trailing_change doubling_series)%Q.
Proof.
  intros Hlen Hraise. unfold detect_values. rewrite Hraise.
  replace (List.length values <? 3)%nat with false
    by (symmetry; apply Nat.ltb_ge; lia).
  split; [apply fallback_recent_change; lia|].
  repeat split. intros Heq. vm_compute in Heq. discriminate.
Qed.

Lemma fallback_recent_change_whole_series_witness :
  recent_change (detect_values scipy_stats_mannkendall doubling_series) = Some 7%Q.
Proof.
  destruct (fallback_recent_change_whole_series scipy_stats_mannkendall doubling_series)
    as (Hr & Ho & _); [simpl; lia | reflexivity |].
  rewrite Hr, Ho. reflexivity.
Defined.

End TrendFacts.

(** ** Frames *)
Module FrameFacts.
Import Spec.

Lemma lookup_setitem (df : DataFrame) (n m : string) (s : Series) :
  lookup n (setitem df m s) = if String.eqb n m then Some s else lookup n df.
Proof.
  induction df as [|[c s'] df IH]; simpl.
  - now destruct (String.eqb n m).
  - destruct (String.eqb m c) eqn:Emc; simpl.
    + apply String.eqb_eq in Emc. subst c.
      now destruct (String.eqb n m).
    + destruct (String.eqb n c) eqn:Enc.
      * apply String.eqb_eq in Enc. subst c.
        now rewrite String.eqb_sym, Emc.
      * apply IH.
Qed.

Lemma has_column_lookup (n : string) (df : DataFrame) :
  has_column n df = match lookup n df with Some _ => true | None => false end.
Proof.
  unfold has_column, mem, columns.
  induction df as [|[c s] df IH]; simpl; [reflexivity|].
  now destruct (String.eqb n c).
Qed.

Lemma has_column_Some (n : string) (df : DataFrame) :
  has_column n df = true -> exists s, lookup n df = Some s.
Proof.
  rewrite has_column_lookup. destruct (lookup n df) as [s|]; [|discriminate].
  now exists s.
Qed.

Lemma lookup_In_columns (n : string) (df : DataFrame) (s : Series) :
  lookup n df = Some s -> In n (columns df).
Proof.
  induction df as [|[c s'] df IH]; simpl; [discriminate|].
  destruct (String.eqb n c) eqn:E.
  - apply String.eqb_eq in E. now left.
  - intros Hl. right. now apply IH.
Qed.

Lemma lookup_In (n : string) (df : DataFrame) (s : Series) :
  lookup n df = Some s -> In (n, s) df.
Proof.
  induction df as [|[c s'] df IH]; simpl; [discriminate|].
  destruct (String.eqb n c) eqn:E.
  - apply String.eqb_eq in E. intros [= ->]. left. now subst.
  - intros Hl. right. now apply IH.
Qed.

Lemma columns_setitem (df : DataFrame) (m c : string) (s : Series) :
  In c (columns (setitem df m s)) -> c = m \/ In c (columns df).
Proof.
  induction df as [|[n s'] df IH]; simpl.
  - intros [<-|[]]. now left.
  - destruct (String.eqb m n) eqn:E; simpl.
    + intros [<-|Hin]; right; [now left | now right].
    + intros [<-|Hin]; [right; now left|].
      destruct (IH Hin) as [->|Hc]; [now left | right; now right].
Qed.

Lemma rectangular_lookup (n : nat) (df : DataFrame) (m : string) (s : Series) :
  rectangular n df -> lookup m df = Some s -> List.length s = n.
Proof.
  intros Hr Hl. apply lookup_In in Hl.
  unfold rectangular in Hr. rewrite Forall_forall in Hr.
  exact (Hr _ Hl).
Qed.

Lemma rectangular_setitem (n : nat) (df : DataFrame) (m : string) (s : Series) :
  rectangular n df -> List.length s = n -> rectangular n (setitem df m s).
Proof.
  intros Hr Hs. induction Hr as [|[c s'] df Hc Hr IH]; simpl.
  - constructor; [assumption | constructor].
  - destruct (String.eqb m c); constructor; assumption.
Qed.

Lemma set_nan_map (test : cell -> bool) (s : Series) :
  set_nan (map test s) s = map (fun c => if test c then Null else c) s.
Proof. induction s as [|c s IH]; simpl; [reflexivity | now rewrite IH]. Qed.

Lemma select_map_filter {A} (test : A -> bool) (s : list A) :
  select (map test s) s = filter test s.
Proof.
  induction s as [|c s IH]; simpl; [reflexivity|].
  destruct (test c); now rewrite IH.
Qed.

Lemma lookup_select_rows (mask : list bool) (n : string) (df : DataFrame) :
  lookup n (select_rows mask df) = option_map (select mask) (lookup n df).
Proof.
  induction df as [|[c s] df IH]; simpl; [reflexivity|].
  now destruct (String.eqb n c).
Qed.

Lemma length_zip_with {A B C} (f : A -> B -> C) (l : list A) (r : list B) (n : nat) :
  List.length l = n -> List.length r = n -> List.length (zip_with f l r) = n.
Proof.
  revert r n. induction l as [|a l IH]; intros [|b r] n; simpl; intros <-;
    try discriminate; try reflexivity.
  intros [= Hr]. f_equal. now apply IH.
Qed.

End FrameFacts.

(** ** Normalisation *)
Module NormalizerFacts.
Import DataProcessor Spec FrameFacts.

Lemma has_column_In (c : string) (df : DataFrame) :
  has_column c df = true <-> In c (columns df).
Proof. apply ColumnMapperFacts.mem_In. Qed.

Lemma has_column_setitem (df : DataFrame) (c m : string) (s : Series) :
  has_column c df = true -> has_column c (setitem df m s) = true.
Proof.
  rewrite !has_column_lookup, lookup_setitem.
  now destruct (String.eqb c m).
Qed.

Lemma mapped_columns_keys (mapping : list (string * option string)) (std : string) :
  In std (map fst (mapped_columns mapping)) -> In std (map fst mapping).
Proof.
  induction mapping as [|[k [col|]] mapping IH]; simpl; [tauto| |].
  - destruct (String.eqb col ""); simpl; intuition.
  - intuition.
Qed.

Section CopyMapped.
Variable df : DataFrame.

Lemma copy_mapped_ok (mapped : list (string * string)) :
  (forall std col, In (std, col) mapped -> has_column col df = true) ->
  forall acc, exists p,
    copy_mapped df mapped acc = Ok p /\
    (forall c, has_column c acc = true \/ In c (map fst mapped) ->
               has_column c p = true) /\
    (forall c, In c (columns p) -> In c (columns acc) \/ In c (map fst mapped)) /\
    (forall n, rectangular n df -> rectangular n acc -> rectangular n p).
Proof.
  induction mapped as [|[std col] mapped IH]; intros Hall acc; simpl.
  - exists acc. repeat split; tauto.
  - destruct (has_column_Some col df (Hall std col (or_introl eq_refl))) as [s Hs].
    unfold getitem. rewrite Hs. simpl.
    destruct (IH (fun a b Hin => Hall a b (or_intror Hin)) (setitem acc std s))
      as (p & Hp & Hhas & Hcols & Hrect).
    exists p. split; [exact Hp|]. repeat split.
    + intros c [Hc|[<-|Hc]]; apply Hhas.
      * left. now apply has_column_setitem.
      * left. rewrite has_column_lookup, lookup_setitem, String.eqb_refl. reflexivity.
      * now right.
    + intros c Hc. destruct (Hcols c Hc) as [Hin|Hin]; [|right; now right].
      destruct (columns_setitem _ _ _ _ Hin) as [->|Hin']; [right; now left | now left].
    + intros n Hdf Hacc. apply Hrect; [assumption|].
      apply rectangular_setitem; [assumption|].
      now apply (rectangular_lookup n df col).
Qed.

Lemma copy_mapped_raise (mapped : list (string * string)) (e : exn) :
  forall acc, copy_mapped df mapped acc = Raise e ->
  exists std col, In (std, col) mapped /\ has_column col df = false /\ e = KeyError col.
Proof.
  induction mapped as [|[std col] mapped IH]; intros acc; simpl; [discriminate|].
  unfold getitem. destruct (lookup col df) as [s|] eqn:Hs; simpl.
  - intros Hr. destruct (IH _ Hr) as (a & b & Hin & Hb & He).
    exists a, b. split; [now right | now split].
  - intros [= <-]. exists std, col. split; [now left|]. split; [|reflexivity].
    rewrite has_column_lookup, Hs. reflexivity.
Qed.
Lemma copy_mapped_all (mapped : list (string * string)) :
  forall acc p, copy_mapped df mapped acc = Ok p ->
  forall std col, In (std, col) mapped -> has_column col df = true.
Proof.
  induction mapped as [|[std0 col0] mapped IH]; intros acc p; simpl;
    [intros _ ? ? []|].
  unfold getitem. destruct (lookup col0 df) as [s|] eqn:Hs; simpl; [|discriminate].
  intros Hp std col [[= <- <-]|Hin].
  - rewrite has_column_lookup, Hs. reflexivity.
  - now apply (IH _ _ Hp std col).
Qed.
End CopyMapped.

(** The four stages after the copy only set columns: they keep every
    column, and add none but derived ones. *)
Section Stages.
Context `{PyLib}.

Lemma convert_date_lookup (df : DataFrame) (col c : string) :
  lookup c (convert_date df col)
  = if String.eqb c col then option_map (map _parse_date) (lookup col df)
    else lookup c df.
Proof.
  unfold convert_date. destruct (lookup col df) as [s|] eqn:E.
  - rewrite lookup_setitem. now destruct (String.eqb c col).
  - destruct (String.eqb c col) eqn:Ec; [|reflexivity].
    apply String.eqb_eq in Ec. subst. now rewrite E.
Qed.

Lemma convert_date_columns (df : DataFrame) (col c : string) :
  In c (columns (convert_date df col)) -> In c (columns df).
Proof.
  unfold convert_date. destruct (lookup col df) as [s|] eqn:E; [|tauto].
  intros Hin. destruct (columns_setitem _ _ _ _ Hin) as [->|Hc]; [|assumption].
  now apply lookup_In_columns with s.
Qed.

Lemma standardize_columns (self : DataProcessor) (df : DataFrame) (c : string) :
  In c (columns (standardize self df)) -> In c derived_columns \/ In c (columns df).
Proof.
  unfold standardize. destruct (lookup "status" df); [|tauto].
  intros Hin. destruct (columns_setitem _ _ _ _ Hin) as [->|Hc];
    [left; simpl; tauto | now right].
Qed.

Lemma loc_nan_columns (test : cell -> bool) (col : string) (df : DataFrame) (c : string) :
  In c (columns (loc_nan test col df)) -> In c (columns df).
Proof.
  unfold loc_nan. destruct (lookup col df) as [s|] eqn:E; [|tauto].
  intros Hin. destruct (columns_setitem _ _ _ _ Hin) as [->|Hc]; [|assumption].
  now apply lookup_In_columns with s.
Qed.

Lemma processing_time_columns (df : DataFrame) (c : string) :
  In c (columns (processing_time df)) -> In c derived_columns \/ In c (columns df).
Proof.
  unfold processing_time.
  destruct (lookup "application_date" df); [|tauto].
  destruct (lookup "decision_date" df); [|tauto].
  intros Hin. do 2 apply loc_nan_columns in Hin.
  destruct (columns_setitem _ _ _ _ Hin) as [->|Hc];
    [left; simpl; tauto | now right].
Qed.

Lemma periods_columns (df : DataFrame) (c : string) :
  In c (columns (periods df)) -> In c derived_columns \/ In c (columns df).
Proof.
  unfold periods. destruct (lookup "application_date" df); [|tauto].
  intros Hin.
  destruct (columns_setitem _ _ _ _ Hin) as [->|Hin1]; [left; simpl; tauto|].
  destruct (columns_setitem _ _ _ _ Hin1) as [->|Hin2]; [left; simpl; tauto|].
  destruct (columns_setitem _ _ _ _ Hin2) as [->|Hin3]; [left; simpl; tauto|].
  now right.
Qed.

Lemma loc_nan_has (test : cell -> bool) (col : string) (df : DataFrame) (c : string) :
  has_column c df = true -> has_column c (loc_nan test col df) = true.
Proof.
  unfold loc_nan. destruct (lookup col df); [|tauto]. apply has_column_setitem.
Qed.

Lemma stages_has (self : DataProcessor) (df : DataFrame) (c : string) :
  has_column c df = true -> has_column c (stages self df) = true.
Proof.
  intros Hc. unfold stages, periods, processing_time, standardize. simpl.
  assert (H1 : has_column c (convert_date (convert_date df "application_date")
                               "decision_date") = true).
  { unfold convert_date at 1.
    destruct (lookup "decision_date" _); [apply has_column_setitem|];
      (unfold convert_date; destruct (lookup "application_date" df);
       [now apply has_column_setitem | assumption]). }
  set (d1 := convert_date _ _) in *. clearbody d1.
  assert (H2 : has_column c (match lookup "status" d1 with
                             | Some s => setitem d1 "status_standardized"
                                           (map (fun c => Str (_standardize_status self c)) s)
                             | None => d1 end) = true).
  { destruct (lookup "status" d1); [now apply has_column_setitem | assumption]. }
  set (d2 := match lookup "status" d1 with Some _ => _ | None => _ end) in *.
  clearbody d2.
  assert (H3 : has_column c (processing_time d2) = true).
  { unfold processing_time.
    destruct (lookup "application_date" d2); [|assumption].
    destruct (lookup "decision_date" d2); [|assumption].
    do 2 apply loc_nan_has. now apply has_column_setitem. }
  unfold processing_time in H3.
  set (d3 := match lookup "application_date" d2 with Some _ => _ | None => _ end) in *.
  clearbody d3.
  destruct (lookup "application_date" d3); [|assumption].
  now do 3 apply has_column_setitem.
Qed.

Lemma stages_columns (self : DataProcessor) (df : DataFrame) (c : string) :
  In c (columns (stages self df)) -> In c derived_columns \/ In c (columns df).
Proof.
  unfold stages. simpl. intros Hin.
  destruct (periods_columns _ _ Hin) as [Hd|Hin1]; [now left|].
  destruct (processing_time_columns _ _ Hin1) as [Hd|Hin2]; [now left|].
  destruct (standardize_columns _ _ _ Hin2) as [Hd|Hin3]; [now left|].
  right. now do 2 apply convert_date_columns in Hin3.
Qed.

Lemma preprocess_data_stages (self : DataProcessor) :
  preprocess_data self
  = (copied <- copy_mapped (raw_data self) (mapped_columns (column_mapping self)) [] ;;
     Ok (stages self copied,
         {| raw_data := raw_data self;
            data := Some (stages self copied);
            column_mapping := column_mapping self;
            approval_terms := approval_terms self;
            rejection_terms := rejection_terms self |})).
Proof. reflexivity. Qed.

End Stages.

(** C1, the claim as stated fails: with the status field left unmapped
    [preprocess_data] raises nothing and returns a view. *)
Lemma unmapped_status_still_returns :
  existsb (fun field => negb (is_mapped mapping_without_status field)) required_fields
  = true /\
  returns (@preprocess_data example_lib (example_processor mapping_without_status))
  = true.
Proof. split; reflexivity. Qed.

(** C1, amended.  [preprocess_data] has no readiness check of its own (the
    caller checks the four required fields before it calls).  For a raw
    table with distinct column names and any mapping: when a mapped source
    column is missing from the raw table it raises the KeyError of such a
    column; when every mapped source column exists and the application
    date, a required field, is left unmapped, it returns a view all the
    same (without that field neither the date arithmetic nor the period
    extraction runs, so that nothing depends on the column types pandas
    infers); and whenever it returns, it stores the view, which has a
    column for every mapped field and none for a canonical field left
    unmapped. *)
Theorem preprocess_data_no_readiness_check `{PyLib} (self : DataProcessor) :
  NoDup (columns (raw_data self)) ->
  ((exists std col, In (std, col) (mapped_columns (column_mapping self)) /\
                    has_column col (raw_data self) = false) ->
   exists std col,
     In (std, col) (mapped_columns (column_mapping self)) /\
     has_column col (raw_data self) = false /\
     preprocess_data self = Raise (KeyError col))
  /\ ((forall std col, In (std, col) (mapped_columns (column_mapping self)) ->
                       has_column col (raw_data self) = true) ->
      is_mapped (column_mapping self) "application_date" = false ->
      exists view self', preprocess_data self = Ok (view, self'))
  /\ (forall view self',
        preprocess_data self = Ok (view, self') ->
        data self' = Some view /\
        (forall field, is_mapped (column_mapping self) field = true ->
                       has_column field view = true) /\
        (forall field, In field canonical_fields ->
                       is_mapped (column_mapping self) field = false ->
                       has_column field view = false)).
Proof.
  intros _. rewrite preprocess_data_stages.
  destruct (copy_mapped (raw_data self) (mapped_columns (column_mapping self)) [])
    as [p|e] eqn:E; cbn [bind].
  - pose proof (copy_mapped_all _ _ _ _ E) as Hall.
    split; [|split].
    + intros (std & col & Hin & Habs). rewrite (Hall _ _ Hin) in Habs. discriminate.
    + intros _ _. eexists. eexists. reflexivity.
    + intros view self' [= <- <-].
      destruct (copy_mapped_ok (raw_data self) _ Hall [])
        as (p' & Hp & Hhas & Hcols & _).
      rewrite E in Hp. injection Hp as <-.
      split; [reflexivity|]. split.
      * intros field Hm. apply stages_has, Hhas. right.
        unfold is_mapped in Hm. apply existsb_exists in Hm.
        destruct Hm as (x & Hx & Heq). apply String.eqb_eq in Heq. now subst.
      * intros field Hcan Hm. apply not_true_is_false. intros Hc.
        apply has_column_In in Hc.
        destruct (stages_columns _ _ _ Hc) as [Hd|Hin].
        -- simpl in Hcan, Hd.
           repeat (destruct Hcan as [<-|Hcan]; [intuition discriminate|]).
           contradiction.
        -- destruct (Hcols _ Hin) as [[]|Hk].
           assert (is_mapped (column_mapping self) field = true); [|congruence].
           unfold is_mapped. apply existsb_exists. exists field.
           split; [assumption | apply String.eqb_refl].
  - destruct (copy_mapped_raise _ _ _ _ E) as (std & col & Hin & Habs & ->).
    split; [|split].
    + intros _. exists std, col. now repeat split.
    + intros Hall _. rewrite (Hall _ _ Hin) in Habs. discriminate.
    + discriminate.
Qed.

Lemma preprocess_data_no_readiness_check_witness :
  NoDup (columns example_raw) /\
  is_mapped mapping_without_application_date "application_date" = false /\
  exists view self',
    @preprocess_data example_lib (example_processor mapping_without_application_date)
    = Ok (view, self').
Proof.
  assert (Hd : NoDup (columns example_raw)).
  { repeat constructor; simpl; intuition discriminate. }
  split; [exact Hd|]. split; [reflexivity|].
  destruct (@preprocess_data_no_readiness_check example_lib
              (example_processor mapping_without_application_date) Hd)
    as (_ & Hret & _).
  apply Hret; [|reflexivity].
  intros std col Hin. simpl in Hin.
  repeat (destruct Hin as [[= <- <-]|Hin]; [reflexivity|]). contradiction.
Defined.

End NormalizerFacts.

(** ** Processing time *)
Module ProcessingTimeFacts.
Import DataProcessor Spec FrameFacts NormalizerFacts.

Ltac names :=
  repeat (rewrite lookup_setitem; cbn [String.eqb Ascii.eqb Bool.eqb andb]).

Lemma in_range_expected (decision application : cell) :
  in_range (expected_days decision application).
Proof.
  destruct decision as [| | |d]; simpl; trivial.
  destruct application as [| | |a]; simpl; trivial.
  destruct (Qle_bool 0 (elapsed_days d a)) eqn:E0; simpl; trivial.
  destruct (Qle_bool (elapsed_days d a) 365) eqn:E1; simpl; trivial.
  split; now apply Qle_bool_iff.
Qed.

(** The two range filters after the subtraction, on one row. *)
Lemma filtered_days (decision application : cell) :
  (let c1 := days_between decision application in
   let c2 := if lt_num 0 c1 then Null else c1 in
   if gt_num 365 c2 then Null else c2)
  = expected_days decision application.
Proof.
  destruct decision as [| | |d]; try reflexivity.
  destruct application as [| | |a]; try reflexivity.
  unfold days_between, expected_days, sub_time, total_seconds, div_num, lt_num, gt_num.
  fold (elapsed_days d a). cbv zeta.
  destruct (Qle_bool 0 (elapsed_days d a)); simpl; [|reflexivity].
  now destruct (Qle_bool (elapsed_days d a) 365).
Qed.

Lemma zip_with_map {A B C D} (f : A -> B -> C) (g : C -> D) (l : list A) (r : list B) :
  map g (zip_with f l r) = zip_with (fun a b => g (f a b)) l r.
Proof.
  revert r. induction l as [|a l IH]; intros [|b r]; simpl; try reflexivity.
  now rewrite IH.
Qed.

Lemma zip_with_ext {A B C} (f g : A -> B -> C) (l : list A) (r : list B) :
  (forall a b, f a b = g a b) -> zip_with f l r = zip_with g l r.
Proof.
  intros Hfg. revert r. induction l as [|a l IH]; intros [|b r]; simpl; try reflexivity.
  now rewrite Hfg, IH.
Qed.

Lemma Forall_zip_with {A B C} (P : C -> Prop) (f : A -> B -> C) (l : list A) (r : list B) :
  (forall a b, P (f a b)) -> Forall P (zip_with f l r).
Proof.
  intros Hf. revert r. induction l as [|a l IH]; intros [|b r]; simpl; constructor;
    [apply Hf | apply IH].
Qed.

Section Stages.
Context `{PyLib}.

(** What [processing_time] leaves in the three columns it reads or
    writes. *)
Lemma processing_time_lookup (df : DataFrame) :
  lookup "processing_time_days" df = None ->
  match lookup "application_date" df, lookup "decision_date" df with
  | Some application, Some decision =>
      lookup "processing_time_days" (processing_time df)
      = Some (zip_with expected_days decision application)
      /\ lookup "application_date" (processing_time df) = Some application
      /\ lookup "decision_date" (processing_time df) = Some decision
  | _, _ => processing_time df = df
  end.
Proof.
  intros Hnone. unfold processing_time.
  destruct (lookup "application_date" df) as [app|] eqn:Ea; [|reflexivity].
  destruct (lookup "decision_date" df) as [dec|] eqn:Ed; [|reflexivity].
  unfold loc_nan. names. rewrite Ea, Ed.
  repeat split. f_equal.
  rewrite !set_nan_map, map_map, zip_with_map.
  apply zip_with_ext. intros d a. apply filtered_days.
Qed.

Lemma periods_lookup (df : DataFrame) (c : string) :
  ~ In c ["application_month"; "application_year"; "application_yearmonth"] ->
  lookup c (periods df) = lookup c df.
Proof.
  intros Hc. unfold periods.
  destruct (lookup "application_date" df); [|reflexivity].
  rewrite !lookup_setitem.
  destruct (String.eqb c "application_yearmonth") eqn:E1;
    [apply String.eqb_eq in E1; subst; simpl in Hc; tauto|].
  destruct (String.eqb c "application_year") eqn:E2;
    [apply String.eqb_eq in E2; subst; simpl in Hc; tauto|].
  destruct (String.eqb c "application_month") eqn:E3;
    [apply String.eqb_eq in E3; subst; simpl in Hc; tauto|].
  reflexivity.
Qed.

Lemma standardize_lookup (self : DataProcessor) (df : DataFrame) (c : string) :
  c <> "status_standardized" ->
  lookup c (standardize self df) = lookup c df.
Proof.
  intros Hc. unfold standardize. destruct (lookup "status" df); [|reflexivity].
  rewrite lookup_setitem. apply String.eqb_neq in Hc. now rewrite Hc.
Qed.

Lemma loc_nan_rectangular (n : nat) (test : cell -> bool) (col : string) (df : DataFrame) :
  rectangular n df -> rectangular n (loc_nan test col df).
Proof.
  intros Hr. unfold loc_nan. destruct (lookup col df) as [s|] eqn:E; [|assumption].
  apply rectangular_setitem; [assumption|].
  rewrite set_nan_map, length_map. now apply (rectangular_lookup n df col).
Qed.

Lemma convert_date_rectangular (n : nat) (df : DataFrame) (col : string) :
  rectangular n df -> rectangular n (convert_date df col).
Proof.
  intros Hr. unfold convert_date. destruct (lookup col df) as [s|] eqn:E; [|assumption].
  apply rectangular_setitem; [assumption|].
  rewrite length_map. now apply (rectangular_lookup n df col).
Qed.

Lemma stages_rectangular (n : nat) (self : DataProcessor) (df : DataFrame) :
  rectangular n df -> rectangular n (stages self df).
Proof.
  intros Hr. unfold stages. simpl.
  assert (H1 : rectangular n (convert_date (convert_date df "application_date")
                                "decision_date"))
    by now do 2 apply convert_date_rectangular.
  set (d1 := convert_date _ _) in *. clearbody d1.
  assert (H2 : rectangular n (standardize self d1)).
  { unfold standardize. destruct (lookup "status" d1) as [s|] eqn:E; [|assumption].
    apply rectangular_setitem; [assumption|].
    rewrite length_map. now apply (rectangular_lookup n d1 "status"). }
  set (d2 := standardize self d1) in *. clearbody d2.
  assert (H3 : rectangular n (processing_time d2)).
  { unfold processing_time.
    destruct (lookup "application_date" d2) as [a|] eqn:Ea; [|assumption].
    destruct (lookup "decision_date" d2) as [d|] eqn:Ed; [|assumption].
    do 2 apply loc_nan_rectangular. apply rectangular_setitem; [assumption|].
    apply length_zip_with;
      [now apply (rectangular_lookup n d2 "decision_date")
      | now apply (rectangular_lookup n d2 "application_date")]. }
  set (d3 := processing_time d2) in *. clearbody d3.
  unfold periods. destruct (lookup "application_date" d3) as [a|] eqn:Ea; [|assumption].
  pose proof (rectangular_lookup n d3 _ _ H3 Ea) as Hlen.
  repeat apply rectangular_setitem; try assumption; now rewrite length_map.
Qed.

Lemma copy_mapped_props (df : DataFrame) (mapped : list (string * string)) :
  forall acc p, copy_mapped df mapped acc = Ok p ->
    (forall c, In c (columns p) -> In c (columns acc) \/ In c (map fst mapped)) /\
    (forall n, rectangular n df -> rectangular n acc -> rectangular n p).
Proof.
  induction mapped as [|[std col] mapped IH]; intros acc p; simpl.
  - intros [= <-]. split; [tauto | trivial].
  - unfold getitem. destruct (lookup col df) as [s|] eqn:Hs; simpl; [|discriminate].
    intros Hp. destruct (IH _ _ Hp) as [Hcols Hrect]. split.
    + intros c Hc. destruct (Hcols c Hc) as [Hin|Hin]; [|right; now right].
      destruct (columns_setitem _ _ _ _ Hin) as [->|Hin']; [right; now left | now left].
    + intros n Hdf Hacc. apply Hrect; [assumption|].
      apply rectangular_setitem; [assumption|].
      now apply (rectangular_lookup n df col).
Qed.

Lemma lookup_absent (df : DataFrame) (c : string) :
  ~ In c (columns df) -> lookup c df = None.
Proof.
  intros Hn. destruct (lookup c df) as [s|] eqn:E; [|reflexivity].
  exfalso. apply Hn. now apply lookup_In_columns with s.
Qed.

(** C3.  For every raw table (each of whose columns has [n] rows) and
    every mapping of canonical fields, in the view that
    [preprocess_data] returns the column [processing_time_days], when
    there is one, holds for each row the days from the parsed
    application date to the parsed decision date if both are present and
    the days are neither negative nor more than 365, and the missing
    marker otherwise: no value is negative or above 365.  No row is
    dropped: that column and every other column of the view still have
    the [n] rows of the raw table. *)
Theorem processing_time_in_range (self self' : DataProcessor) (view : DataFrame) (n : nat) :
  canonical_mapping (column_mapping self) ->
  rectangular n (raw_data self) ->
  preprocess_data self = Ok (view, self') ->
  rectangular n view /\
  forall days, lookup "processing_time_days" view = Some days ->
    Forall in_range days /\ List.length days = n /\
    exists application decision,
      lookup "application_date" view = Some application /\
      lookup "decision_date" view = Some decision /\
      days = zip_with expected_days decision application.
Proof.
  intros Hcan Hraw. rewrite preprocess_data_stages.
  destruct (copy_mapped (raw_data self) (mapped_columns (column_mapping self)) [])
    as [p|e] eqn:Hp; simpl; [|discriminate].
  intros [= <- _].
  destruct (copy_mapped_props _ _ _ _ Hp) as [Hcols Hrect].
  assert (Hview : rectangular n (stages self p)).
  { apply stages_rectangular, Hrect; [assumption | constructor]. }
  split; [exact Hview|].
  intros days Hdays.
  assert (Hlen : List.length days = n)
    by now apply (rectangular_lookup n _ _ _ Hview Hdays).
  assert (Hnone : lookup "processing_time_days" p = None).
  { apply lookup_absent. intros Hin.
    destruct (Hcols _ Hin) as [[]|Hk].
    apply mapped_columns_keys, Hcan in Hk. simpl in Hk.
    repeat (destruct Hk as [Hk|Hk]; [discriminate|]). contradiction. }
  unfold stages in Hdays |- *. simpl fold_left in *.
  set (d2 := standardize self _) in *.
  assert (Hnone2 : lookup "processing_time_days" d2 = None).
  { unfold d2. rewrite standardize_lookup by discriminate.
    rewrite !convert_date_lookup. exact Hnone. }
  clearbody d2.
  rewrite periods_lookup in Hdays
    by (simpl; intros [E|[E|[E|[]]]]; discriminate).
  rewrite !periods_lookup by (simpl; intros [E|[E|[E|[]]]]; discriminate).
  pose proof (processing_time_lookup d2 Hnone2) as Hpt.
  destruct (lookup "application_date" d2) as [app|];
    [destruct (lookup "decision_date" d2) as [dec|]|].
  - destruct Hpt as (Hd & Ha & Hdc). rewrite Hd in Hdays. injection Hdays as <-.
    split; [|split; [assumption|]].
    + apply Forall_zip_with. apply in_range_expected.
    + exists app, dec. repeat split; assumption.
  - rewrite Hpt in Hdays. congruence.
  - rewrite Hpt in Hdays. congruence.
Qed.

End Stages.

Lemma processing_time_in_range_witness :
  exists view self',
    @preprocess_data example_lib (example_processor full_mapping) = Ok (view, self') /\
    rectangular 4 view /\
    lookup "processing_time_days" view = Some [Num (elapsed_days (10 * day_ns) 0); Null; Null; Null].
Proof.
  eexists. eexists. split; [reflexivity|].
  split.
  - eapply (@processing_time_in_range example_lib (example_processor full_mapping)).
    + intros std Hin. simpl in Hin. simpl. tauto.
    + repeat constructor.
    + reflexivity.
  - reflexivity.
Defined.

End ProcessingTimeFacts.

(** ** Metric methods *)
Module MetricsFacts.
Import DataProcessor Spec FrameFacts.

(** C10.  While [self.data] is [None], that is before [preprocess_data]
    has stored a view, each of the five metric methods raises the
    ValueError "Data has not been processed yet", whatever its arguments:
    none of them returns a result. *)
Theorem metrics_need_processed_data `{PyLib} (self : DataProcessor)
    (group_by time_period : option string) (n_top : option Z) :
  data self = None ->
  get_approval_rate self group_by time_period = Raise not_processed /\
  get_processing_time_stats self group_by = Raise not_processed /\
  get_rejection_factors self n_top = Raise not_processed /\
  get_correlation_factors self = Raise not_processed /\
  get_loan_amount_analysis self = Raise not_processed /\
  raises_ValueError (@Raise DataFrame not_processed) = true.
Proof.
  intros Hnone.
  unfold get_approval_rate, get_processing_time_stats, get_rejection_factors,
    get_correlation_factors, get_loan_amount_analysis.
  rewrite Hnone. repeat split.
Qed.

Lemma metrics_need_processed_data_witness :
  @get_approval_rate example_lib (__init__ example_raw) None (Some "monthly")
  = Raise not_processed /\
  get_rejection_factors (__init__ example_raw) (Some 10%Z) = Raise not_processed.
Proof.
  destruct (@metrics_need_processed_data example_lib (__init__ example_raw)
              None (Some "monthly") (Some 10%Z) eq_refl) as (Ha & _ & Hr & _).
  split; assumption.
Defined.

End MetricsFacts.

(** ** Approval rate *)
Module ApprovalFacts.
Import DataProcessor Spec FrameFacts.

Lemma cell_eqb_refl (c : cell) : cell_eqb c c = true.
Proof.
  destruct c; simpl; trivial.
  - apply String.eqb_refl.
  - apply Qeq_bool_iff. reflexivity.
  - apply Z.eqb_refl.
Qed.

Lemma cell_eqb_sym (a b : cell) : cell_eqb a b = cell_eqb b a.
Proof.
  destruct a, b; simpl; trivial.
  - apply String.eqb_sym.
  - apply eq_true_iff_eq. rewrite !Qeq_bool_iff. split; intros E; now symmetry.
  - apply Z.eqb_sym.
Qed.

Lemma cell_eqb_trans (a b c : cell) :
  cell_eqb a b = true -> cell_eqb b c = true -> cell_eqb a c = true.
Proof.
  destruct a, b; simpl; try discriminate; destruct c; simpl; try discriminate; trivial.
  - intros E1 E2. apply String.eqb_eq in E1, E2. subst. apply String.eqb_refl.
  - rewrite !Qeq_bool_iff. intros E1 E2. now rewrite E1.
  - intros E1 E2. apply Z.eqb_eq in E1, E2. subst. apply Z.eqb_refl.
Qed.

Section SortFacts.
Context {A : Type} (leb : A -> A -> bool).

Lemma In_insert_sorted (x y : A) (l : list A) :
  In x (insert_sorted leb y l) <-> x = y \/ In x l.
Proof.
  induction l as [|z l IH]; simpl; [intuition|].
  destruct (leb y z); simpl; [intuition|].
  rewrite IH. intuition.
Qed.

Lemma In_sort (x : A) (l : list A) : In x (sort leb l) <-> In x l.
Proof.
  induction l as [|y l IH]; simpl; [tauto|].
  rewrite In_insert_sorted, IH. intuition.
Qed.

Lemma filter_insert_sorted (p : A -> bool) (y : A) (l : list A) :
  List.length (filter p (insert_sorted leb y l))
  = List.length (filter p (y :: l)).
Proof.
  induction l as [|z l IH]; simpl; [reflexivity|].
  destruct (leb y z); simpl; [reflexivity|].
  simpl in IH. destruct (p z), (p y); simpl in *; lia.
Qed.

Lemma filter_sort (p : A -> bool) (l : list A) :
  List.length (filter p (sort leb l)) = List.length (filter p l).
Proof.
  induction l as [|y l IH]; simpl; [reflexivity|].
  rewrite filter_insert_sorted. simpl. destruct (p y); simpl; now rewrite IH.
Qed.

Lemma sum_insert_sorted (f : A -> nat) (y : A) (l : list A) :
  list_sum (map f (insert_sorted leb y l)) = f y + list_sum (map f l).
Proof.
  induction l as [|z l IH]; simpl; [reflexivity|].
  destruct (leb y z); simpl; [reflexivity|]. rewrite IH. lia.
Qed.

Lemma sum_sort (f : A -> nat) (l : list A) :
  list_sum (map f (sort leb l)) = list_sum (map f l).
Proof.
  induction l as [|y l IH]; simpl; [reflexivity|].
  now rewrite sum_insert_sorted, IH.
Qed.
End SortFacts.

Lemma In_unique (c : cell) (s : Series) : In c (unique s) -> In c s.
Proof.
  revert c. induction s as [|d s IH]; simpl; [tauto|].
  intros c [<-|Hin]; [now left|].
  apply filter_In in Hin. right. now apply IH.
Qed.

Lemma count_true_positive (k : cell) (keys : Series) :
  In k keys -> 1 <= count_true (map (cell_eqb k) keys).
Proof.
  unfold count_true. induction keys as [|c keys IH]; simpl; [tauto|].
  intros [->|Hin].
  - rewrite cell_eqb_refl. simpl. lia.
  - destruct (cell_eqb k c); simpl; [lia | now apply IH].
Qed.

Lemma group_sizes_positive (keys : Series) :
  Forall (fun total => 1 <= total)
         (map (fun g => count_true (snd g)) (groupby keys)).
Proof.
  unfold groupby. rewrite map_map. simpl. apply Forall_map, Forall_forall.
  intros k Hk. apply count_true_positive.
  apply In_sort, In_unique in Hk. unfold dropna in Hk.
  now apply filter_In in Hk.
Qed.

Lemma truediv_rate_of (approveds totals : list nat) :
  Forall (fun total => 1 <= total) totals ->
  zip_with truediv approveds totals = zip_with rate_of approveds totals.
Proof.
  intros Hpos. revert approveds.
  induction Hpos as [|t totals Ht Hpos IH]; intros [|a approveds]; simpl;
    try reflexivity.
  rewrite IH. f_equal. unfold truediv, rate_of.
  destruct t; [lia | reflexivity].
Qed.

Lemma grouped_approval_table (df : DataFrame) (grouper : string) :
  has_column grouper df = true ->
  has_column "status_standardized" df = true ->
  exists keys totals approveds,
    grouped_approval df grouper = Ok (grouped_table grouper keys totals approveds) /\
    Forall (fun total => 1 <= total) totals.
Proof.
  intros Hg Hs.
  destruct (has_column_Some _ _ Hg) as [keys Hkeys].
  destruct (has_column_Some _ _ Hs) as [st Hst].
  unfold grouped_approval, getitem. rewrite Hkeys, Hst. simpl.
  eexists. eexists. eexists. unfold grouped_table.
  rewrite <- truediv_rate_of by apply group_sizes_positive.
  split; [reflexivity | apply group_sizes_positive].
Qed.

Lemma overall_approval_table (df : DataFrame) :
  has_column "status_standardized" df = true ->
  exists approved, overall_approval df = Ok (overall_table (len df) approved) /\
                   (rectangular 0 df -> len df = 0 /\ approved = 0).
Proof.
  intros Hs. destruct (has_column_Some _ _ Hs) as [st Hst].
  unfold overall_approval, getitem. rewrite Hst. simpl.
  eexists. split.
  - unfold overall_table, rate_of. destruct (len df); reflexivity.
  - intros Hr. pose proof (rectangular_lookup 0 _ _ _ Hr Hst) as Hlen.
    destruct st; [|discriminate].
    destruct df as [|[n s] df]; [split; reflexivity|].
    inversion Hr as [|x l Hx Hl]; subst. simpl in Hx.
    destruct s; [|discriminate]. split; reflexivity.
Qed.

(** C5.  With processed data that has the standardized status,
    [get_approval_rate] returns for every choice of grouping; the table is
    either the overall row or one row per group, and in both each approval
    rate is approved divided by total, with 0 where the total is 0 (every
    group has at least one row).  On a view without rows the ungrouped
    call returns total 0, approved 0 and rate 0. *)
Theorem approval_rate_zero_guard `{PyLib} (self : DataProcessor) (df : DataFrame)
    (group_by time_period : option string) :
  data self = Some df ->
  has_column "status_standardized" df = true ->
  (exists table,
     get_approval_rate self group_by time_period = Ok table /\
     ((exists approved, table = overall_table (len df) approved)
      \/ (exists grouper keys totals approveds,
            table = grouped_table grouper keys totals approveds /\
            Forall (fun total => 1 <= total) totals)))
  /\ (rectangular 0 df ->
      get_approval_rate self None None
      = Ok [ ("total_applications", [Num 0]); ("approved", [Num 0]);
             ("approval_rate", [Num 0]) ]).
Proof.
  intros Hdata Hs. unfold get_approval_rate. rewrite Hdata. split.
  - assert (Hoverall : exists table, overall_approval df = Ok table /\
              ((exists approved, table = overall_table (len df) approved)
               \/ (exists grouper keys totals approveds,
                     table = grouped_table grouper keys totals approveds /\
                     Forall (fun total => 1 <= total) totals))).
    { destruct (overall_approval_table df Hs) as (a & Ha & _).
      eexists. split; [exact Ha | left; now exists a]. }
    assert (Hgrouped : forall d g, has_column g d = true ->
              has_column "status_standardized" d = true ->
              exists table, grouped_approval d g = Ok table /\
              ((exists approved, table = overall_table (len df) approved)
               \/ (exists grouper keys totals approveds,
                     table = grouped_table grouper keys totals approveds /\
                     Forall (fun total => 1 <= total) totals))).
    { intros d g Hg Hd.
      destruct (grouped_approval_table d g Hg Hd) as (k & t & a & Ht & Hpos).
      eexists. split; [exact Ht | right; now exists g, k, t, a]. }
    destruct (is_period time_period "monthly" && has_column "application_yearmonth" df)
      eqn:Em.
    { apply andb_true_iff in Em. now apply Hgrouped. }
    destruct (is_period time_period "quarterly" && has_column "application_date" df)
      eqn:Eq.
    { apply andb_true_iff in Eq. destruct Eq as [_ Hc].
      destruct (has_column_Some _ _ Hc) as [app Happ].
      unfold getitem at 1. rewrite Happ. simpl. apply Hgrouped.
      - rewrite has_column_lookup, lookup_setitem, String.eqb_refl. reflexivity.
      - rewrite has_column_lookup, lookup_setitem. simpl.
        now rewrite <- has_column_lookup. }
    destruct (is_period time_period "yearly" && has_column "application_year" df)
      eqn:Ey.
    { apply andb_true_iff in Ey. now apply Hgrouped. }
    destruct group_by as [g|]; [|exact Hoverall].
    destruct (has_column g df) eqn:Eg; [now apply Hgrouped | exact Hoverall].
  - intros Hempty. simpl.
    destruct (overall_approval_table df Hs) as (a & Ha & Hz).
    destruct (Hz Hempty) as [Hl ->]. rewrite Ha, Hl. reflexivity.
Qed.

Lemma approval_rate_zero_guard_witness :
  @get_approval_rate example_lib (processed empty_view) None None
  = Ok [ ("total_applications", [Num 0]); ("approved", [Num 0]);
         ("approval_rate", [Num 0]) ].
Proof.
  apply (@approval_rate_zero_guard example_lib (processed empty_view) empty_view None None
           eq_refl eq_refl).
  repeat constructor.
Defined.

End ApprovalFacts.

(** ** Rejection factors *)
Module RejectionFacts.
Import DataProcessor Spec FrameFacts ApprovalFacts.

Lemma dropna_idem (s : Series) : dropna (dropna s) = dropna s.
Proof.
  unfold dropna. induction s as [|c s IH]; simpl; [reflexivity|].
  destruct (isna c) eqn:E; simpl; [assumption|]. now rewrite E, IH.
Qed.

Lemma count_cons (k e : cell) (s : Series) :
  count k (e :: s) = (if cell_eqb k e then 1 else 0) + count k s.
Proof. unfold count. simpl. now destruct (cell_eqb k e). Qed.

Lemma count_positive (k : cell) (s : Series) : In k s -> 1 <= count k s.
Proof.
  induction s as [|e s IH]; simpl; [tauto|]. rewrite count_cons.
  intros [->|Hin]; [rewrite cell_eqb_refl; lia|].
  apply IH in Hin. lia.
Qed.

Lemma sum_plus {A} (f g : A -> nat) (l : list A) :
  list_sum (map (fun x => f x + g x) l) = list_sum (map f l) + list_sum (map g l).
Proof. induction l as [|x l IH]; simpl; [reflexivity | rewrite IH; lia]. Qed.

Lemma sum_indicator {A} (p : A -> bool) (l : list A) :
  list_sum (map (fun x => if p x then 1 else 0) l) = List.length (filter p l).
Proof.
  induction l as [|x l IH]; simpl; [reflexivity|].
  destruct (p x); simpl; now rewrite IH.
Qed.

Lemma sum_ones {A} (l : list A) : list_sum (map (fun _ => 1) l) = List.length l.
Proof. induction l as [|x l IH]; simpl; [reflexivity | now rewrite IH]. Qed.

(** Counting the occurrences of each key, or the keys of each
    occurrence. *)
Lemma sum_counts (keys : list cell) (s : Series) :
  list_sum (map (fun k => count k s) keys)
  = list_sum (map (fun e => List.length (filter (fun k => cell_eqb k e) keys)) s).
Proof.
  induction s as [|e s IH]; simpl.
  - induction keys as [|k keys IHk]; simpl; [reflexivity | assumption].
  - rewrite <- IH, <- sum_indicator, <- sum_plus.
    apply f_equal, map_ext. intros k. apply count_cons.
Qed.

Lemma filter_absorb {A} (p q : A -> bool) (l : list A) :
  (forall x, p x = true -> q x = true) -> filter p (filter q l) = filter p l.
Proof.
  intros Hpq. induction l as [|x l IH]; simpl; [reflexivity|].
  destruct (q x) eqn:Eq; simpl.
  - destruct (p x); now rewrite IH.
  - destruct (p x) eqn:Ep; [|assumption].
    apply Hpq in Ep. congruence.
Qed.

Lemma filter_none {A} (p q : A -> bool) (l : list A) :
  (forall x, p x = true -> q x = false) -> filter p (filter q l) = [].
Proof.
  intros Hpq. induction l as [|x l IH]; simpl; [reflexivity|].
  destruct (q x) eqn:Eq; simpl; [|assumption].
  destruct (p x) eqn:Ep; [|assumption].
  apply Hpq in Ep. congruence.
Qed.

(** Every value of a column is one, and only one, of its distinct
    values. *)
Lemma unique_once (e : cell) (s : Series) :
  In e s -> List.length (filter (fun k => cell_eqb k e) (unique s)) = 1.
Proof.
  induction s as [|d s IH]; simpl; [tauto|]. intros Hin.
  destruct (cell_eqb d e) eqn:Ede; simpl.
  - rewrite filter_none; [reflexivity|].
    intros x Hx. apply negb_false_iff.
    apply cell_eqb_trans with e; [assumption|]. now rewrite cell_eqb_sym.
  - rewrite filter_absorb.
    + apply IH. destruct Hin as [->|Hin]; [|assumption].
      rewrite cell_eqb_refl in Ede. discriminate.
    + intros x Hx. apply negb_true_iff, not_true_is_false. intros Hdx.
      rewrite (cell_eqb_trans _ _ _ Hdx Hx) in Ede. discriminate.
Qed.

Lemma filter_map_length {A B} (p : B -> bool) (f : A -> B) (l : list A) :
  List.length (filter p (map f l)) = List.length (filter (fun x => p (f x)) l).
Proof.
  induction l as [|x l IH]; simpl; [reflexivity|].
  destruct (p (f x)); simpl; now rewrite IH.
Qed.

Lemma insert_descending (x : cell * nat) (l : list (cell * nat)) :
  StronglySorted (fun a b => b <= a) (map snd l) ->
  StronglySorted (fun a b => b <= a) (map snd (insert_sorted more_frequent x l)).
Proof.
  induction l as [|z l IH]; simpl; intros Hs.
  - constructor; constructor.
  - inversion Hs as [|a m Hm Hz]; subst.
    destruct (more_frequent x z) eqn:E; unfold more_frequent in E; simpl.
    + apply Nat.leb_le in E. constructor; [assumption|].
      constructor; [assumption|].
      eapply Forall_impl; [|exact Hz]. simpl. intros; lia.
    + apply Nat.leb_gt in E. constructor; [now apply IH|].
      apply Forall_forall. intros c Hc. apply in_map_iff in Hc.
      destruct Hc as (y & <- & Hy). apply In_insert_sorted in Hy.
      destruct Hy as [->|Hy]; [lia|].
      rewrite Forall_forall in Hz. apply Hz. now apply in_map.
Qed.

Lemma sort_descending (l : list (cell * nat)) :
  StronglySorted (fun a b => b <= a) (map snd (sort more_frequent l)).
Proof.
  induction l as [|x l IH]; simpl; [constructor | now apply insert_descending].
Qed.

(** What [value_counts] returns on a column without missing values. *)
Lemma value_counts_spec (s : Series) :
  dropna s = s ->
  StronglySorted (fun a b => b <= a) (map snd (value_counts s)) /\
  (forall k c, In (k, c) (value_counts s) -> In k s /\ c = count k s) /\
  (forall e, In e s ->
     List.length (filter (fun kc => cell_eqb (fst kc) e) (value_counts s)) = 1) /\
  list_sum (map snd (value_counts s)) = List.length s.
Proof.
  intros Hs. unfold value_counts. rewrite Hs. repeat split.
  - apply sort_descending.
  - apply In_sort, in_map_iff in H. destruct H as (k' & [= <- <-] & Hk).
    now apply In_unique.
  - apply In_sort, in_map_iff in H. now destruct H as (k' & [= <- <-] & Hk).
  - intros e He. rewrite filter_sort, filter_map_length. simpl.
    now apply unique_once.
  - rewrite sum_sort, map_map. simpl. rewrite sum_counts.
    rewrite <- sum_ones. f_equal. apply map_ext_in. intros e He.
    now apply unique_once.
Qed.

Lemma head_firstn {A} (n : Z) (l : list A) :
  (0 <= n)%Z -> head n l = firstn (Z.to_nat n) l.
Proof. intros Hn. unfold head. apply Z.leb_le in Hn. now rewrite Hn. Qed.

(** The exact rounding is within half a unit of the last place kept. *)
Lemma round_half_even_close (x : Q) :
  (Qabs (inject_Z (round_half_even x) - x) <= 1 # 2)%Q.
Proof.
  unfold round_half_even.
  pose proof (Qfloor_le x) as Hl. pose proof (Qlt_floor x) as Hu.
  rewrite inject_Z_plus in Hu. change (inject_Z 1) with 1%Q in Hu.
  set (f := Qfloor x) in *.
  apply Qabs_Qle_condition.
  destruct (Qle_bool (2 * (x - inject_Z f)) 1) eqn:E1.
  - apply Qle_bool_iff in E1.
    destruct (Qle_bool 1 (2 * (x - inject_Z f))) eqn:E2.
    + apply Qle_bool_iff in E2. destruct (Z.even f).
      * split; lra.
      * rewrite inject_Z_plus. change (inject_Z 1) with 1%Q. split; lra.
    + split; lra.
  - assert (Hgt : (1 < 2 * (x - inject_Z f))%Q).
    { apply Qnot_le_lt. intros Hle. apply Qle_bool_iff in Hle. congruence. }
    rewrite inject_Z_plus. change (inject_Z 1) with 1%Q. split; lra.
Qed.

Lemma round2_close (q : Q) : rounds_to (round2 q) q.
Proof.
  unfold rounds_to, round2.
  pose proof (round_half_even_close (q * 100)) as Hc.
  apply Qabs_Qle_condition in Hc. apply Qabs_Qle_condition.
  set (r := inject_Z (round_half_even (q * 100))) in *.
  unfold Qdiv. change (/ 100)%Q with (1 # 100)%Q.
  split; lra.
Qed.

(** C7.  With processed data that has the standardized status,
    [get_rejection_factors] returns the empty table when the view has no
    column [rejection_reason]; otherwise it returns the first [n_top]
    (10 when left out) rows of a ranking of the reasons of the rejected
    rows, missing reasons left out: the rows are in descending order of
    count, each distinct reason has exactly one row, with the number of
    its occurrences and that number as a percentage of all those reasons,
    rounded to two decimals: the percentage is within 0.005 of 100 times
    the count by the number of reasons (the code rounds a binary float, so
    that a tie in the third decimal may fall either way); without such
    reasons the ranking has no rows.
    For six rejections for a low credit score and four for another reason
    the first row is Low Credit Score, 6, 60.0. *)
Theorem rejection_factors_ranking (self : DataProcessor) (df : DataFrame)
    (st : Series) (n_top : option Z) :
  data self = Some df ->
  lookup "status_standardized" df = Some st ->
  (0 <= match n_top with Some n => n | None => 10 end)%Z ->
  let reasons := rejected_reasons df in
  let n := Z.to_nat (match n_top with Some n => n | None => 10%Z end) in
  (lookup "rejection_reason" df = None ->
   get_rejection_factors self n_top = Ok (empty_frame ["reason"; "count"; "percentage"]))
  /\ (lookup "rejection_reason" df <> None ->
      exists rows,
        get_rejection_factors self n_top = Ok (ranking_table (firstn n rows)) /\
        StronglySorted (fun a b => b <= a) (map count_of rows) /\
        (forall r, In r rows ->
           In (reason_of r) reasons /\
           count_of r = count (reason_of r) reasons /\
           1 <= count_of r /\
           rounds_to (percentage_of r)
                     (exact_percentage (count_of r) (List.length reasons))) /\
        (forall c, In c reasons ->
           List.length (filter (fun r => cell_eqb (reason_of r) c) rows) = 1) /\
        (reasons = [] -> rows = []))
  /\ (exists p q,
        get_rejection_factors (processed rejections_view) None
        = Ok [ ("reason", [Str "Low Credit Score"; Str "Other"]);
               ("count", [Num 6; Num 4]);
               ("percentage", [Num p; Num q]) ]
        /\ (p == 60)%Q /\ (q == 40)%Q).
Proof.
  intros Hdata Hst Hn reasons n. split; [|split].
  - intros Hnone. unfold get_rejection_factors. rewrite Hdata.
    unfold getitem. rewrite Hst. cbn [bind].
    now rewrite has_column_lookup, lookup_select_rows, Hnone.
  - intros Hsome. destruct (lookup "rejection_reason" df) as [rs|] eqn:Hrs;
      [clear Hsome | congruence].
    unfold get_rejection_factors. rewrite Hdata.
    unfold getitem. rewrite Hst. cbn [bind].
    rewrite has_column_lookup, !lookup_select_rows, Hrs.
    cbn [option_map bind]. rewrite !lookup_select_rows, Hrs.
    cbn [option_map bind]. rewrite select_map_filter.
    assert (Hreasons : filter (fun c => negb (isna c))
                         (select (map (eq_str "rejected") st) rs) = reasons).
    { unfold reasons, rejected_reasons. now rewrite Hst, Hrs. }
    rewrite Hreasons. rewrite head_firstn by assumption. fold n.
    assert (Hclean : dropna reasons = reasons).
    { unfold reasons, rejected_reasons. rewrite Hst, Hrs. apply dropna_idem. }
    destruct (value_counts_spec reasons Hclean) as (Hsorted & Hcount & Honce & Hsum).
    rewrite Hsum.
    eexists. split; [reflexivity|]. repeat split.
    + rewrite map_map. exact Hsorted.
    + apply in_map_iff in H. destruct H as ([k c] & <- & Hin).
      now apply Hcount in Hin.
    + apply in_map_iff in H. destruct H as ([k c] & <- & Hin).
      now apply Hcount in Hin.
    + apply in_map_iff in H. destruct H as ([k c] & <- & Hin).
      apply Hcount in Hin. destruct Hin as [Hk ->]. now apply count_positive.
    + apply in_map_iff in H. destruct H as ([k c] & <- & Hin).
      apply round2_close.
    + intros c Hc. rewrite filter_map_length. now apply Honce.
    + intros ->. reflexivity.
  - eexists. eexists. split; [vm_compute; reflexivity|].
    split; reflexivity.
Qed.

Lemma rejection_factors_ranking_witness :
  exists rows,
    get_rejection_factors (processed rejections_view) (Some 1%Z)
    = Ok (ranking_table (firstn 1 rows)).
Proof.
  destruct (rejection_factors_ranking (processed rejections_view) rejections_view
              (repeat (Str "rejected") 10 ++ [Str "approved"])%list (Some 1%Z)
              eq_refl eq_refl) as (_ & Hrank & _); [lia|].
  destruct Hrank as (rows & Hrows & _); [discriminate|].
  exists rows. exact Hrows.
Defined.

End RejectionFacts.

(** ** Further properties: date parsing *)
Module ParseDateFacts.
Import DataProcessor Spec Terms.

Lemma try_formats_first `{PyLib} (text : string) (fmts : list string) :
  match try_formats text fmts with
  | Some t =>
      exists before fmt after,
        fmts = (before ++ fmt :: after)%list /\
        (forall f, In f before -> strptime text f = None) /\
        strptime text fmt = Some t
  | None => forall f, In f fmts -> strptime text f = None
  end.
Proof.
  induction fmts as [|fmt fmts IH]; simpl.
  - intros f [].
  - destruct (strptime text fmt) as [t|] eqn:E.
    + exists [], fmt, fmts. repeat split; [intros f [] | assumption].
    + destruct (try_formats text fmts) as [t|].
      * destruct IH as (before & f & after & -> & Hb & Hf).
        exists (fmt :: before), f, after. repeat split; [|assumption].
        intros g [<-|Hg]; [assumption | now apply Hb].
      * intros f [<-|Hf]; [assumption | now apply IH].
Qed.

(** X1.  [_parse_date] returns a datetime or the missing marker, whatever
    the cell; a missing cell stays missing and a datetime is returned as it
    is, so that parsing a parsed value changes nothing. *)
Theorem parse_date_idempotent `{PyLib} (date_str : cell) :
  (_parse_date date_str = Null \/ exists t, _parse_date date_str = Time t) /\
  _parse_date (_parse_date date_str) = _parse_date date_str /\
  (isna date_str = true -> _parse_date date_str = Null) /\
  (forall t, date_str = Time t -> _parse_date date_str = Time t).
Proof.
  assert (Hkind : _parse_date date_str = Null \/ exists t, _parse_date date_str = Time t).
  { unfold _parse_date. destruct date_str as [|s|q|t]; cbn [isna].
    - now left.
    - destruct (try_formats _ formats) as [t|]; [right; now exists t|].
      destruct (to_datetime _) as [[t|]|]; [right; now exists t | now left | now left].
    - destruct (try_formats _ formats) as [t|]; [right; now exists t|].
      destruct (to_datetime _) as [[t|]|]; [right; now exists t | now left | now left].
    - right. now exists t. }
  split; [exact Hkind|]. split; [|split].
  - destruct Hkind as [->|[t ->]]; reflexivity.
  - destruct date_str; cbn [isna]; try discriminate. reflexivity.
  - intros t ->. reflexivity.
Qed.

(** X2.  For a text cell [_parse_date] tries the formats in their order:
    the result is the datetime of the first format that [strptime]
    accepts, and the lenient parser is consulted only when every format is
    refused (its failure gives the missing marker). *)
Theorem parse_date_first_format `{PyLib} (text : string) :
  (exists before fmt after t,
     formats = (before ++ fmt :: after)%list /\
     (forall f, In f before -> strptime text f = None) /\
     strptime text fmt = Some t /\
     _parse_date (Str text) = Time t)
  \/ ((forall f, In f formats -> strptime text f = None) /\
      _parse_date (Str text)
      = match to_datetime (Str text) with
        | Some (Some t) => Time t
        | _ => Null
        end).
Proof.
  pose proof (try_formats_first text formats) as Hf.
  unfold _parse_date. cbn [isna str_].
  destruct (try_formats text formats) as [t|].
  - left. destruct Hf as (before & fmt & after & Heq & Hb & Ht).
    exists before, fmt, after, t. repeat split; assumption.
  - right. split; [exact Hf|].
    destruct (to_datetime (Str text)) as [[t|]|]; reflexivity.
Qed.

End ParseDateFacts.

(** ** Further properties: normalisation *)
Module ViewFacts.
Import DataProcessor Spec Terms FrameFacts NormalizerFacts ProcessingTimeFacts.

Section View.
Context `{PyLib}.

Lemma loc_nan_lookup_other (test : cell -> bool) (col c : string) (df : DataFrame) :
  c <> col -> lookup c (loc_nan test col df) = lookup c df.
Proof.
  intros Hc. unfold loc_nan. destruct (lookup col df); [|reflexivity].
  rewrite lookup_setitem. apply String.eqb_neq in Hc. now rewrite Hc.
Qed.

Lemma processing_time_lookup_other (df : DataFrame) (c : string) :
  c <> "processing_time_days" ->
  lookup c (processing_time df) = lookup c df.
Proof.
  intros Hc. unfold processing_time.
  destruct (lookup "application_date" df); [|reflexivity].
  destruct (lookup "decision_date" df); [|reflexivity].
  rewrite !loc_nan_lookup_other by assumption.
  rewrite lookup_setitem. apply String.eqb_neq in Hc. now rewrite Hc.
Qed.

(** A column that the copy has not made is absent before the stages. *)
Lemma copied_lookup_none (self : DataProcessor) (p : DataFrame) (c : string) :
  copy_mapped (raw_data self) (mapped_columns (column_mapping self)) [] = Ok p ->
  is_mapped (column_mapping self) c = false ->
  lookup c p = None.
Proof.
  intros Hp Hm. apply lookup_absent. intros Hin.
  destruct (copy_mapped_props _ _ _ _ Hp) as [Hcols _].
  destruct (Hcols _ Hin) as [[]|Hk].
  assert (is_mapped (column_mapping self) c = true); [|congruence].
  unfold is_mapped. apply existsb_exists. exists c.
  split; [assumption | apply String.eqb_refl].
Qed.

Lemma canonical_not_mapped (self : DataProcessor) (c : string) :
  canonical_mapping (column_mapping self) ->
  ~ In c canonical_fields ->
  is_mapped (column_mapping self) c = false.
Proof.
  intros Hcan Hc. apply not_true_is_false. intros Hm. apply Hc, Hcan.
  unfold is_mapped in Hm. apply existsb_exists in Hm.
  destruct Hm as (x & Hx & Heq). apply String.eqb_eq in Heq. subst x.
  now apply mapped_columns_keys.
Qed.

(** The lookups of the view in terms of the copied columns. *)
Lemma stages_lookup_status (self : DataProcessor) (p : DataFrame) :
  lookup "status_standardized" p = None ->
  lookup "status_standardized" (stages self p)
  = option_map (map (fun c => Str (_standardize_status self c)))
               (lookup "status" (stages self p)).
Proof.
  intros Hnone. unfold stages. simpl fold_left.
  rewrite !periods_lookup by (simpl; intros [E|[E|[E|[]]]]; discriminate).
  rewrite !processing_time_lookup_other by discriminate.
  set (d1 := convert_date _ _).
  assert (Hd1 : lookup "status_standardized" d1 = None).
  { unfold d1. now rewrite !convert_date_lookup. }
  unfold standardize. destruct (lookup "status" d1) as [s|] eqn:Es.
  - rewrite !lookup_setitem. simpl. now rewrite Es.
  - now rewrite Es, Hd1.
Qed.

Lemma stages_lookup_days_none (self : DataProcessor) (p : DataFrame) :
  lookup "processing_time_days" p = None ->
  lookup "application_date" p = None \/ lookup "decision_date" p = None ->
  lookup "processing_time_days" (stages self p) = None.
Proof.
  intros Hnone Hdate. unfold stages. simpl fold_left.
  rewrite periods_lookup by (simpl; intros [E|[E|[E|[]]]]; discriminate).
  set (d2 := standardize self _).
  assert (Hd2 : forall c, c <> "status_standardized" ->
            lookup c d2
            = lookup c (convert_date (convert_date p "application_date") "decision_date")).
  { intros c Hc. unfold d2. now apply standardize_lookup. }
  assert (Hn2 : lookup "processing_time_days" d2 = None).
  { rewrite Hd2 by discriminate. now rewrite !convert_date_lookup. }
  pose proof (processing_time_lookup d2 Hn2) as Hpt.
  assert (Hdate2 : lookup "application_date" d2 = None \/ lookup "decision_date" d2 = None).
  { rewrite !Hd2 by discriminate. rewrite !convert_date_lookup. simpl.
    destruct Hdate as [->| ->]; [left | right]; reflexivity. }
  destruct Hdate2 as [E|E]; rewrite E in Hpt.
  - now rewrite Hpt.
  - destruct (lookup "application_date" d2); now rewrite Hpt.
Qed.

(** X4.  In a view made with a mapping of canonical fields the column
    [status_standardized] is there exactly when the status is mapped, is
    the classification of the status column row by row, and holds no
    value but approved, rejected, other and unknown. *)
Theorem status_standardized_classes (self self' : DataProcessor) (view : DataFrame) :
  canonical_mapping (column_mapping self) ->
  preprocess_data self = Ok (view, self') ->
  lookup "status_standardized" view
  = option_map (map (fun c => Str (_standardize_status self c)))
               (lookup "status" view)
  /\ (forall col, lookup "status_standardized" view = Some col ->
                  Forall (fun c => In c status_classes) col).
Proof.
  intros Hcan. rewrite preprocess_data_stages.
  destruct (copy_mapped (raw_data self) (mapped_columns (column_mapping self)) [])
    as [p|e] eqn:Hp; simpl; [|discriminate].
  intros [= <- _].
  assert (Heq : lookup "status_standardized" (stages self p)
                = option_map (map (fun c => Str (_standardize_status self c)))
                             (lookup "status" (stages self p))).
  { apply stages_lookup_status. apply (copied_lookup_none self); [assumption|].
    apply canonical_not_mapped; [assumption|].
    simpl. intros Hin. repeat (destruct Hin as [Hin|Hin]; [discriminate|]).
    contradiction. }
  split; [exact Heq|].
  intros col Hcol. rewrite Heq in Hcol.
  destruct (lookup "status" (stages self p)) as [s|]; [|discriminate].
  injection Hcol as <-. apply Forall_map, Forall_forall. intros c _.
  unfold _standardize_status, status_classes.
  destruct (isna c); [simpl; tauto|].
  destruct (existsb _ (approval_terms self)); [simpl; tauto|].
  destruct (existsb _ (rejection_terms self)); simpl; tauto.
Qed.

(** X5.  When the mapping (of canonical fields) leaves the application
    date or the decision date unmapped, the view has no processing time
    and [get_processing_time_stats] on the processor that
    [preprocess_data] leaves raises the ValueError "Processing time not
    calculated". *)
Theorem stats_need_both_dates (self self' : DataProcessor) (view : DataFrame)
    (group_by : option string) :
  canonical_mapping (column_mapping self) ->
  is_mapped (column_mapping self) "application_date" = false
  \/ is_mapped (column_mapping self) "decision_date" = false ->
  preprocess_data self = Ok (view, self') ->
  has_column "processing_time_days" view = false /\
  get_processing_time_stats self' group_by
  = Raise (ValueError "Processing time not calculated. Check date columns mapping.").
Proof.
  intros Hcan Hdate. rewrite preprocess_data_stages.
  destruct (copy_mapped (raw_data self) (mapped_columns (column_mapping self)) [])
    as [p|e] eqn:Hp; simpl; [|discriminate].
  intros [= <- <-].
  assert (Hnone : lookup "processing_time_days" (stages self p) = None).
  { apply stages_lookup_days_none.
    - apply (copied_lookup_none self); [assumption|].
      apply canonical_not_mapped; [assumption|].
      simpl. intros Hin. repeat (destruct Hin as [Hin|Hin]; [discriminate|]).
      contradiction.
    - destruct Hdate as [Hd|Hd]; [left | right];
        now apply (copied_lookup_none self). }
  assert (Hhas : has_column "processing_time_days" (stages self p) = false)
    by now rewrite has_column_lookup, Hnone.
  split; [exact Hhas|].
  unfold get_processing_time_stats. cbn [data]. now rewrite Hhas.
Qed.

(** X6.  When the mapping (of canonical fields) leaves the loan amount
    unmapped, [get_loan_amount_analysis] on the processor that
    [preprocess_data] leaves raises nothing and returns the table
    without rows. *)
Theorem loan_amount_optional (self self' : DataProcessor) (view : DataFrame) :
  canonical_mapping (column_mapping self) ->
  is_mapped (column_mapping self) "loan_amount" = false ->
  preprocess_data self = Ok (view, self') ->
  get_loan_amount_analysis self'
  = Ok (empty_frame ["status"; "count"; "mean"; "median"; "min"; "max"]).
Proof.
  intros Hcan Hloan. rewrite preprocess_data_stages.
  destruct (copy_mapped (raw_data self) (mapped_columns (column_mapping self)) [])
    as [p|e] eqn:Hp; simpl; [|discriminate].
  intros [= <- <-].
  assert (Hhas : has_column "loan_amount" (stages self p) = false).
  { apply not_true_is_false. intros Hc. apply has_column_In in Hc.
    destruct (stages_columns _ _ _ Hc) as [Hd|Hin].
    - simpl in Hd. repeat (destruct Hd as [Hd|Hd]; [discriminate|]). contradiction.
    - destruct (copy_mapped_props _ _ _ _ Hp) as [Hcols _].
      destruct (Hcols _ Hin) as [[]|Hk].
      assert (is_mapped (column_mapping self) "loan_amount" = true); [|congruence].
      unfold is_mapped. apply existsb_exists. exists "loan_amount".
      split; [assumption | reflexivity]. }
  unfold get_loan_amount_analysis. cbn [data]. now rewrite Hhas.
Qed.

End View.

Lemma status_standardized_classes_witness :
  exists view self',
    @preprocess_data example_lib (example_processor full_mapping) = Ok (view, self') /\
    lookup "status_standardized" view
    = Some [Str "approved"; Str "rejected"; Str "other"; Str "unknown"].
Proof.
  eexists. eexists. split; [reflexivity|].
  etransitivity.
  - eapply (@status_standardized_classes example_lib (example_processor full_mapping)).
    + intros std Hin. simpl in Hin. simpl. tauto.
    + reflexivity.
  - reflexivity.
Defined.

Lemma stats_need_both_dates_witness :
  exists view self',
    @preprocess_data example_lib (example_processor application_only_mapping)
    = Ok (view, self') /\
    @get_processing_time_stats example_lib self' None
    = Raise (ValueError "Processing time not calculated. Check date columns mapping.").
Proof.
  eexists. eexists. split; [reflexivity|].
  eapply (@stats_need_both_dates example_lib (example_processor application_only_mapping)).
  - intros std Hin. simpl in Hin. simpl. tauto.
  - right. reflexivity.
  - reflexivity.
Defined.

Lemma loan_amount_optional_witness :
  exists view self',
    @preprocess_data example_lib (example_processor full_mapping) = Ok (view, self') /\
    @get_loan_amount_analysis example_lib self'
    = Ok (empty_frame ["status"; "count"; "mean"; "median"; "min"; "max"]).
Proof.
  eexists. eexists. split; [reflexivity|].
  eapply (@loan_amount_optional example_lib (example_processor full_mapping)).
  - intros std Hin. simpl in Hin. simpl. tauto.
  - reflexivity.
  - reflexivity.
Defined.

End ViewFacts.

(** ** Further properties: column suggestion *)
Module SuggestFacts.
Import ColumnMapper DataProcessor Spec Terms ColumnMapperFacts.

Lemma first_hit_position (m : string -> string -> bool) (names cols : list string) (k : nat) :
  first_hit m names cols k -> exists col, nth_error cols k = Some col /\ k < List.length cols.
Proof.
  intros (before & name & after & pre & col & post & _ & -> & -> & _).
  exists col. split.
  - rewrite nth_error_app2 by lia. now rewrite Nat.sub_diag.
  - rewrite length_app. simpl. lia.
Qed.

(** X7.  The number that [suggest_column] returns is 0 or the position,
    counted from 1, of a column of the raw table: it never exceeds the
    number of columns, so that it is a valid index into the caller's list
    of an empty entry followed by the columns; it is 0 when there are no
    columns or no names. *)
Theorem suggest_column_in_range (self : DataProcessor) (possible_names : list string) :
  let cols := columns (raw_data self) in
  suggest_column self possible_names <= List.length cols /\
  (suggest_column self possible_names = 0 \/
   exists k col, suggest_column self possible_names = S k /\ nth_error cols k = Some col) /\
  (cols = [] \/ possible_names = [] -> suggest_column self possible_names = 0).
Proof.
  intros cols. unfold suggest_column, suggest. fold cols.
  pose proof (scan_exact_spec possible_names cols) as He.
  pose proof (scan_spec case_insensitive possible_names cols) as Hc.
  pose proof (scan_spec partial possible_names cols) as Hp.
  assert (Hhit : forall m k, first_hit m possible_names cols k ->
            S k <= List.length cols /\
            (S k = 0 \/ exists k' col, S k = S k' /\ nth_error cols k' = Some col) /\
            (cols = [] \/ possible_names = [] -> S k = 0)).
  { intros m k Hk. destruct (first_hit_position _ _ _ _ Hk) as (col & Hcol & Hlt).
    split; [lia|]. split; [right; now exists k, col|].
    intros [E|E].
    - rewrite E in Hlt. simpl in Hlt. lia.
    - destruct Hk as (before & name & after & _ & _ & _ & Hn & _).
      rewrite E in Hn. now destruct before. }
  destruct (scan_exact possible_names cols) as [i|].
  { destruct He as (k & -> & Hk). now apply (Hhit exact). }
  destruct (scan case_insensitive possible_names cols) as [i|].
  { destruct Hc as (k & -> & Hk). now apply (Hhit case_insensitive). }
  destruct (scan partial possible_names cols) as [i|].
  { destruct Hp as (k & -> & Hk). now apply (Hhit partial). }
  split; [lia|]. split; [now left | reflexivity].
Qed.

End SuggestFacts.

(** ** Further properties: approval rate and processing-time statistics *)
Module RateFacts.
Import DataProcessor Spec Terms FrameFacts ApprovalFacts RejectionFacts.

Lemma count_true_map {A} (f : A -> bool) (l : list A) :
  count_true (map f l) = List.length (filter f l).
Proof.
  unfold count_true. induction l as [|x l IH]; simpl; [reflexivity|].
  destruct (f x); simpl; now rewrite IH.
Qed.

Lemma length_select {A} (mask : list bool) (s : list A) :
  List.length mask = List.length s ->
  List.length (select mask s) = count_true mask.
Proof.
  unfold count_true. revert s.
  induction mask as [|b mask IH]; intros [|x s]; simpl; try discriminate; [reflexivity|].
  intros [= Hlen]. destruct b; simpl; now rewrite IH.
Qed.

Lemma length_select_le {A} (mask : list bool) (s : list A) :
  List.length (select mask s) <= count_true mask.
Proof.
  unfold count_true. revert s.
  induction mask as [|b mask IH]; intros [|x s]; simpl; try lia.
  specialize (IH s). destruct b; simpl; lia.
Qed.

Lemma length_filter_le {A} (f : A -> bool) (l : list A) :
  List.length (filter f l) <= List.length l.
Proof. induction l as [|x l IH]; simpl; [lia|]. destruct (f x); simpl; lia. Qed.

Lemma rate_of_fraction (approved total : nat) :
  approved <= total -> is_fraction (rate_of approved total).
Proof.
  intros Hle. unfold rate_of, is_fraction.
  destruct (total =? 0)%nat eqn:E.
  - split; [apply Qle_refl | discriminate].
  - apply Nat.eqb_neq in E.
    assert (Hpos : (0 < of_nat total)%Q).
    { unfold of_nat. rewrite <- (Zlt_Qlt 0). lia. }
    split.
    + apply Qle_shift_div_l; [assumption|]. rewrite Qmult_0_l.
      unfold of_nat. rewrite <- (Zle_Qle 0). lia.
    + apply Qle_shift_div_r; [assumption|]. rewrite Qmult_1_l.
      unfold of_nat. rewrite <- Zle_Qle. lia.
Qed.

Lemma Forall2_map_le {A} (f g : A -> nat) (l : list A) :
  (forall x, f x <= g x) -> Forall2 le (map f l) (map g l).
Proof. intros Hfg. induction l; simpl; constructor; auto. Qed.

(** The rows of a non-missing key are those of the key among the
    non-missing keys. *)
Lemma count_dropna (k : cell) (keys : Series) :
  isna k = false -> count k (dropna keys) = count k keys.
Proof.
  intros Hk. unfold count, dropna. rewrite filter_absorb; [reflexivity|].
  intros x Hx. destruct x; try reflexivity. destruct k; discriminate.
Qed.

Lemma group_sizes_sum (keys : Series) :
  list_sum (map (fun g => count_true (snd g)) (groupby keys))
  = List.length (dropna keys).
Proof.
  unfold groupby. rewrite map_map. cbn [snd].
  rewrite (map_ext_in _ (fun k => count k (dropna keys))).
  - rewrite sum_sort, sum_counts, <- sum_ones. f_equal.
    apply map_ext_in. intros e He. now apply unique_once.
  - intros k Hk. rewrite count_true_map. fold (count k keys).
    symmetry. apply count_dropna.
    apply In_sort, In_unique in Hk. unfold dropna in Hk.
    apply filter_In in Hk. destruct Hk as [_ Hk]. now apply negb_true_iff in Hk.
Qed.

Section Rates.
Context `{PyLib}.

Lemma overall_approval_value (df : DataFrame) (st : Series) (n : nat) :
  rectangular n df ->
  lookup "status_standardized" df = Some st ->
  overall_approval df
  = Ok (overall_table n (List.length (filter (eq_str "approved") st))).
Proof.
  intros Hr Hst.
  pose proof (rectangular_lookup n _ _ _ Hr Hst) as Hlen.
  unfold overall_approval, getitem. rewrite Hst. cbn [bind].
  destruct df as [|[c s] df]; [discriminate|].
  inversion Hr as [|x l Hx Hl]; subst. cbn [snd] in Hx.
  cbn [len select_rows map]. rewrite length_select by (rewrite length_map; lia).
  rewrite count_true_map, Hx.
  unfold overall_table, rate_of. destruct (List.length st); reflexivity.
Qed.

(** X8.  On processed data whose columns all have [n] rows the ungrouped
    [get_approval_rate] reports [n] applications and, as approved, the
    number of rows whose standardized status is approved; that number is
    at most [n] and the rate lies between 0 and 1. *)
Theorem overall_approval_counts (self : DataProcessor) (df : DataFrame)
    (st : Series) (n : nat) :
  data self = Some df ->
  rectangular n df ->
  lookup "status_standardized" df = Some st ->
  let approved := List.length (filter (eq_str "approved") st) in
  get_approval_rate self None None = Ok (overall_table n approved) /\
  approved <= n /\
  is_fraction (rate_of approved n).
Proof.
  intros Hdata Hr Hst approved.
  pose proof (rectangular_lookup n _ _ _ Hr Hst) as Hlen.
  assert (Hle : approved <= n).
  { unfold approved. rewrite <- Hlen. apply length_filter_le. }
  split; [|split; [exact Hle | now apply rate_of_fraction]].
  unfold get_approval_rate. rewrite Hdata. simpl.
  now apply overall_approval_value.
Qed.

(** X9.  Grouped by a column of the processed data, [get_approval_rate]
    returns one row for each distinct non-missing value of that column:
    the totals of the rows add up to the number of rows with a
    non-missing value there (rows with a missing value are in no group),
    and in every row the approved count is at most the total. *)
Theorem grouped_approval_partition (self : DataProcessor) (df : DataFrame)
    (g : string) (keys st : Series) :
  data self = Some df ->
  lookup g df = Some keys ->
  lookup "status_standardized" df = Some st ->
  exists ks totals approveds,
    get_approval_rate self (Some g) None = Ok (grouped_table g ks totals approveds) /\
    list_sum totals = List.length (dropna keys) /\
    Forall2 le approveds totals /\
    (forall c, In c (dropna keys) ->
               List.length (filter (fun k => cell_eqb k c) ks) = 1).
Proof.
  intros Hdata Hkeys Hst.
  unfold get_approval_rate. rewrite Hdata. cbn [is_period andb].
  rewrite has_column_lookup, Hkeys.
  unfold grouped_approval, getitem. rewrite Hkeys, Hst. cbn [bind].
  eexists. eexists. eexists. unfold grouped_table.
  rewrite <- truediv_rate_of by apply group_sizes_positive.
  split; [reflexivity|]. split; [apply group_sizes_sum|]. split.
  - apply Forall2_map_le. intros grp.
    etransitivity; [apply length_filter_le | apply length_select_le].
  - intros c Hc. unfold groupby. rewrite map_map. cbn [fst].
    rewrite map_id, filter_sort. now apply unique_once.
Qed.

(** X10.  On processed data with a processing-time column of numbers (as
    [preprocess_data] makes it) the ungrouped
    [get_processing_time_stats] raises nothing; its aggregations are
    taken over the non-missing processing times only, and its count is
    their number. *)
Theorem processing_time_stats_count (self : DataProcessor) (df : DataFrame)
    (days : Series) :
  data self = Some df ->
  lookup "processing_time_days" df = Some days ->
  Forall (fun c => numeric c = true) days ->
  get_processing_time_stats self None
  = Ok (frame_of_rows stat_names [time_stats (dropna days)]) /\
  lookup "count" (frame_of_rows stat_names [time_stats (dropna days)])
  = Some [Num (of_nat (List.length (dropna days)))].
Proof.
  intros Hdata Hdays _. unfold get_processing_time_stats. rewrite Hdata.
  rewrite has_column_lookup, Hdays. cbn [negb].
  unfold getitem. rewrite Hdays. cbn [bind].
  rewrite lookup_select_rows, Hdays. cbn [option_map bind].
  rewrite select_map_filter. fold (dropna days).
  split; [reflexivity|].
  cbn. now rewrite dropna_idem.
Qed.

End Rates.

Lemma overall_approval_counts_witness :
  @get_approval_rate example_lib (processed monthly_view) None None
  = Ok (overall_table 5 3).
Proof.
  now apply (@overall_approval_counts example_lib (processed monthly_view) monthly_view
               [Str "approved"; Str "rejected"; Str "approved"; Str "other"; Str "approved"]
               5 eq_refl ltac:(repeat constructor) eq_refl).
Defined.

Lemma grouped_approval_partition_witness :
  exists ks totals approveds,
    @get_approval_rate example_lib (processed monthly_view)
      (Some "application_yearmonth") None
    = Ok (grouped_table "application_yearmonth" ks totals approveds) /\
    list_sum totals = 4.
Proof.
  destruct (@grouped_approval_partition example_lib (processed monthly_view) monthly_view
              "application_yearmonth"
              [Str "2023-01"; Str "2023-01"; Str "2023-02"; Str "2023-03"; Null]
              [Str "approved"; Str "rejected"; Str "approved"; Str "other"; Str "approved"]
              eq_refl eq_refl eq_refl) as (ks & totals & approveds & Ht & Hsum & _).
  exists ks, totals, approveds. split; [exact Ht | exact Hsum].
Defined.

Lemma processing_time_stats_count_witness :
  lookup "count"
    (frame_of_rows stat_names
       [@time_stats example_lib (dropna [Num 3; Null; Num 10])])
  = Some [Num (of_nat 2)].
Proof.
  apply (@processing_time_stats_count example_lib
           (processed [("processing_time_days", [Num 3; Null; Num 10])])
           [("processing_time_days", [Num 3; Null; Num 10])]
           [Num 3; Null; Num 10] eq_refl eq_refl ltac:(repeat constructor)).
Defined.

End RateFacts.

(** ** Further properties: trend detection *)
Module DetectFacts.
Import DataProcessor Statistics Spec Terms FrameFacts ApprovalFacts.

Lemma floats_rates (approveds totals : list nat) :
  exists vs, floats (zip_with rate_of approveds totals) = Some vs /\
             List.length vs = List.length (zip_with rate_of approveds totals).
Proof.
  revert totals. induction approveds as [|a approveds IH]; intros [|t totals]; simpl;
    try (exists []; split; reflexivity).
  destruct (IH totals) as (vs & -> & Hlen). simpl.
  eexists. split; [reflexivity|]. simpl. now rewrite Hlen.
Qed.

Lemma dropna_rates (approveds totals : list nat) :
  dropna (zip_with rate_of approveds totals) = zip_with rate_of approveds totals.
Proof.
  revert totals. induction approveds as [|a approveds IH]; intros [|t totals]; simpl;
    try reflexivity.
  unfold dropna in *. simpl. now rewrite IH.
Qed.

Section Detect.
Variable mannkendall : list Q -> option (Q * Q).

(** X11.  Whatever the significance test does, the result of
    [detect_trends] on a series of numbers is either the "insufficient
    data" result, exactly when the series has fewer than three values,
    or a result whose trend is increasing, decreasing or stable and
    whose confidence (high, moderate or low) and recent change are both
    present. *)
Theorem detect_values_shape (values : list Q) :
  let r := detect_values mannkendall values in
  (List.length values < 3 -> r = insufficient_data) /\
  (3 <= List.length values ->
   In (trend r) ["increasing"; "decreasing"; "stable"] /\
   In (confidence r) [Some "high"; Some "moderate"; Some "low"] /\
   recent_change r <> None) /\
  (trend r = "insufficient data" <-> List.length values < 3).
Proof.
  cbv zeta. unfold detect_values.
  destruct (List.length values <? 3)%nat eqn:E.
  - apply Nat.ltb_lt in E. repeat split; trivial; lia.
  - apply Nat.ltb_ge in E.
    assert (Hshape :
      let r := match mannkendall values with
               | Some (t, p) => primary values t p
               | None => fallback values
               end in
      In (trend r) ["increasing"; "decreasing"; "stable"] /\
      In (confidence r) [Some "high"; Some "moderate"; Some "low"] /\
      recent_change r <> None).
    { cbv zeta. destruct (mannkendall values) as [[t p]|].
      - unfold primary. cbn [trend confidence recent_change].
        replace (3 <=? List.length values)%nat with true
          by (symmetry; apply Nat.leb_le; lia).
        repeat split.
        + destruct (lt 0 t); [simpl; tauto|]. destruct (lt t 0); simpl; tauto.
        + destruct (Qle_bool p 0.05); [simpl; tauto|].
          destruct (Qle_bool p 0.1); simpl; tauto.
        + discriminate.
      - unfold fallback.
        replace (2 <=? List.length values)%nat with true
          by (symmetry; apply Nat.leb_le; lia).
        cbn [trend confidence recent_change]. repeat split.
        + destruct (lt 0.01 _); [simpl; tauto|]. destruct (lt _ (-0.01)); simpl; tauto.
        + simpl. tauto.
        + discriminate. }
    cbv zeta in Hshape. split; [intros; lia|]. split; [intros _; exact Hshape|].
    split; [|intros; lia]. intros Ht. destruct Hshape as (Hin & _).
    rewrite Ht in Hin. simpl in Hin.
    repeat (destruct Hin as [Hin|Hin]; [discriminate|]). contradiction.
Qed.

(** X12.  [detect_trends] answers "insufficient data", and raises
    nothing, when it is given no table, a table without rows, a table
    without the value column, or a value column with fewer than three
    non-missing values. *)
Theorem detect_trends_insufficient (time_series_data : option DataFrame)
    (value_col : string) :
  (time_series_data = None \/
   exists df, time_series_data = Some df /\
     (len df = 0 \/ has_column value_col df = false \/
      exists s, lookup value_col df = Some s /\ List.length (dropna s) < 3)) ->
  detect_trends mannkendall time_series_data value_col = Ok insufficient_data.
Proof.
  intros [->|(df & -> & Hcase)]; [reflexivity|]. unfold detect_trends.
  destruct (len df =? 0)%nat eqn:El; [reflexivity|].
  destruct (has_column value_col df) eqn:Eh; [|reflexivity]. cbn [negb orb].
  destruct Hcase as [Hl|[Hh|(s & Hs & Hlen)]].
  - apply Nat.eqb_neq in El. contradiction.
  - discriminate.
  - unfold getitem. rewrite Hs. cbn [bind].
    apply Nat.ltb_lt in Hlen. now rewrite Hlen.
Qed.

(** X13.  The monthly approval-rate table of [get_approval_rate] is
    always fit for [detect_trends]: with processed data that has the
    month key and the standardized status, the table is returned and
    [detect_trends] on its column [approval_rate] raises nothing. *)
Theorem trend_of_monthly_approval `{PyLib} (self : DataProcessor) (df : DataFrame) :
  data self = Some df ->
  has_column "application_yearmonth" df = true ->
  has_column "status_standardized" df = true ->
  exists table r,
    get_approval_rate self None (Some "monthly") = Ok table /\
    detect_trends mannkendall (Some table) "approval_rate" = Ok r.
Proof.
  intros Hdata Hm Hs. unfold get_approval_rate. rewrite Hdata.
  cbn [is_period]. rewrite Hm.
  change (String.eqb "monthly" "monthly") with true. cbn [andb].
  destruct (grouped_approval_table df "application_yearmonth" Hm Hs)
    as (ks & totals & approveds & -> & _).
  eexists. cut (exists r, detect_trends mannkendall
                    (Some (grouped_table "application_yearmonth" ks totals approveds))
                    "approval_rate" = Ok r).
  { intros [r Hr]. exists r. split; [reflexivity | exact Hr]. }
  unfold detect_trends, grouped_table.
  destruct (len _ =? 0)%nat; [now eexists|].
  change (has_column "approval_rate" _) with true. cbn [negb orb].
  unfold getitem. cbn [lookup String.eqb Ascii.eqb Bool.eqb andb bind].
  rewrite dropna_rates.
  destruct (floats_rates approveds totals) as (vs & -> & _).
  destruct (_ <? 3)%nat; now eexists.
Qed.

End Detect.

Lemma detect_trends_insufficient_witness :
  detect_trends scipy_stats_mannkendall
    (Some [("approval_rate", [Num 0.5; Null; Num 0.6])]) "approval_rate"
  = Ok insufficient_data.
Proof.
  apply detect_trends_insufficient. right. eexists. split; [reflexivity|].
  right; right. eexists. split; [reflexivity | simpl; lia].
Defined.

Lemma trend_of_monthly_approval_witness :
  exists table r,
    @get_approval_rate example_lib (processed monthly_view) None (Some "monthly")
    = Ok table /\
    detect_trends scipy_stats_mannkendall (Some table) "approval_rate" = Ok r.
Proof.
  apply (@trend_of_monthly_approval scipy_stats_mannkendall example_lib
           (processed monthly_view) monthly_view eq_refl eq_refl eq_refl).
Defined.

End DetectFacts.

(** ** Further properties: recommendations *)
Module AdviceFacts.
Import Statistics Spec Terms.

Lemma prefix_occurs (c : ascii) (needle hay : string) :
  String.prefix needle hay = true -> occurs c needle = true -> occurs c hay = true.
Proof.
  revert hay. induction needle as [|a needle IH]; intros hay Hp Ho; simpl in Ho;
    [discriminate|].
  destruct hay as [|b hay]; simpl in Hp; [discriminate|].
  destruct (ascii_dec a b) as [->|]; [|discriminate].
  simpl. apply orb_true_iff in Ho. apply orb_true_iff.
  destruct Ho as [Ho|Ho]; [now left | right; now apply IH].
Qed.

Lemma contains_occurs (c : ascii) (needle hay : string) :
  contains needle hay = true -> occurs c needle = true -> occurs c hay = true.
Proof.
  induction hay as [|b hay IH]; intros Hc Ho.
  - destruct needle as [|a needle]; simpl in Ho, Hc; discriminate.
  - cbn [contains] in Hc.
    destruct (String.prefix needle (String b hay)) eqn:E.
    + now apply (prefix_occurs c) in E.
    + simpl. apply orb_true_iff. right. now apply IH.
Qed.

Lemma contains_without (c : ascii) (needle hay : string) :
  occurs c needle = true -> occurs c hay = false -> contains needle hay = false.
Proof.
  intros Hn Hh. apply not_true_is_false. intros Hc.
  rewrite (contains_occurs c _ _ Hc Hn) in Hh. discriminate.
Qed.

Lemma Forall_when {A} (P : A -> Prop) (b : bool) (l : list A) :
  Forall P l -> Forall P (when b l).
Proof. destruct b; simpl; [trivial | constructor]. Qed.

Lemma Forall_specific (P : recommendation -> Prop) (insights : list dict) :
  (forall insight, Forall P (recommend insight)) -> Forall P (specific insights).
Proof.
  intros Hr. unfold specific.
  assert (Hacc : forall acc, Forall P acc ->
            Forall P (fold_left (fun recs insight => (recs ++ recommend insight)%list)
                                insights acc)).
  { induction insights as [|i insights IH]; simpl; [trivial|].
    intros acc Hacc. apply IH, Forall_app. split; [assumption | apply Hr]. }
  apply Hacc. constructor.
Qed.

Lemma recommend_well_formed (insight : dict) : Forall well_formed (recommend insight).
Proof.
  unfold recommend.
  repeat first
    [ apply Forall_app; split
    | apply Forall_when
    | match goal with |- Forall _ (if ?b then _ else _) => destruct b end
    | match goal with |- Forall _ (_ :: _) => constructor end
    | match goal with |- Forall _ [] => constructor end
    | match goal with
      | |- well_formed _ =>
          unfold well_formed; cbn [priority category];
          try match goal with |- context [if ?b then _ else _] => destruct b end;
          simpl; tauto
      end ].
Qed.

(** X14.  Every recommendation that [generate_recommendations] returns
    has priority high or medium, never low, and one of the categories
    approval_rate, processing_time, bottleneck, correlation and general. *)
Theorem recommendations_well_formed (insights : list dict) :
  Forall well_formed (generate_recommendations insights).
Proof.
  unfold generate_recommendations. destruct insights as [|i insights]; [constructor|].
  assert (Hs : Forall well_formed (specific (i :: insights)))
    by (apply Forall_specific, recommend_well_formed).
  destruct (_ <? 3)%nat; [|assumption].
  apply Forall_app. split; [assumption|].
  unfold general. repeat constructor; simpl; tauto.
Qed.

Lemma recommend_plain_bottleneck (insight : dict) :
  dict_get insight "category" "" = "bottleneck" ->
  occurs "_" (dict_get insight "description" "") = false ->
  recommend insight = [].
Proof.
  intros Hcat Hdesc. unfold recommend. rewrite Hcat.
  cbn [String.eqb Ascii.eqb Bool.eqb andb when app].
  rewrite (contains_without "_" "processing_time outliers" _ eq_refl Hdesc),
    (contains_without "_" "rejection_reason" _ eq_refl Hdesc),
    (contains_without "_" "volume_fluctuation" _ eq_refl Hdesc).
  reflexivity.
Qed.

(** X15.  The three bottleneck recommendations are keyed on the texts
    "processing_time outliers", "rejection_reason" and "volume_fluctuation",
    each with an underscore: a bottleneck insight whose description has no
    underscore produces no recommendation of its own. *)
Theorem bottleneck_needs_underscore (insight : dict) :
  dict_get insight "category" "" = "bottleneck" ->
  occurs "_" (dict_get insight "description" "") = false ->
  recommend insight = [].
Proof. exact (recommend_plain_bottleneck insight). Qed.

Lemma bottleneck_needs_underscore_witness :
  recommend outlier_insight = [] /\
  List.length (generate_recommendations [outlier_insight]) = 2.
Proof.
  split.
  - apply bottleneck_needs_underscore; reflexivity.
  - reflexivity.
Defined.

End AdviceFacts.

(** ** Further properties: summary metrics *)
Module SummaryFacts.
Import DataProcessor Statistics Synthesis Spec Terms FrameFacts ApprovalFacts RateFacts.

Lemma filter_disjoint {A} (f g : A -> bool) (l : list A) :
  (forall x, f x = true -> g x = false) ->
  List.length (filter f l) + List.length (filter g l)
  = List.length (filter (fun x => f x || g x) l).
Proof.
  intros Hfg. induction l as [|x l IH]; simpl; [reflexivity|].
  destruct (f x) eqn:Ef; simpl.
  - rewrite (Hfg x Ef). simpl. lia.
  - destruct (g x); simpl; lia.
Qed.

Lemma filter_all {A} (f : A -> bool) (l : list A) :
  Forall (fun x => f x = true) l -> filter f l = l.
Proof.
  induction 1 as [|x l Hx Hl IH]; simpl; [reflexivity|]. now rewrite Hx, IH.
Qed.

Lemma approved_not_rejected (c : cell) :
  eq_str "approved" c = true -> eq_str "rejected" c = false.
Proof.
  destruct c as [|s| |]; simpl; try discriminate.
  intros E. apply String.eqb_eq in E. now subst.
Qed.

Section Summary.
Context `{PyLib}.

(** X16.  On a table whose columns all have [n] rows and that has the
    standardized status, [calculate_summary_metrics] reports [n]
    applications; the approved and the rejected counts together are at
    most [n], and exactly [n] when every status is approved or rejected;
    the overall approval rate lies between 0 and 1.  A table without
    rows gives the all-zero summary. *)
Theorem summary_counts (df : DataFrame) (st : Series) (n : nat) :
  rectangular n df ->
  lookup "status_standardized" df = Some st ->
  let m := calculate_summary_metrics (Some df) in
  total_applications m = n /\
  approved_count m + rejected_count m <= n /\
  (Forall (fun c => decided c = true) st -> approved_count m + rejected_count m = n) /\
  (0 <= overall_approval_rate m /\ overall_approval_rate m <= 1)%Q /\
  (n = 0 -> m = calculate_summary_metrics None).
Proof.
  intros Hr Hst.
  pose proof (rectangular_lookup n _ _ _ Hr Hst) as Hlen.
  assert (Hn : len df = n).
  { destruct df as [|[c s] df]; [discriminate|].
    inversion Hr as [|x l Hx Hl]; subst. exact Hx. }
  cbv zeta. unfold calculate_summary_metrics, empty. rewrite Hn, Hst.
  destruct (n =? 0)%nat eqn:E.
  - apply Nat.eqb_eq in E. subst n. cbn.
    repeat split; try lia; try apply Qle_refl; try discriminate.
  - apply Nat.eqb_neq in E.
    destruct (match lookup "processing_time_days" df with
              | Some days => _ | None => _ end) as [avg med].
    cbn [total_applications approved_count rejected_count overall_approval_rate].
    pose proof (filter_disjoint (eq_str "approved") (eq_str "rejected") st
                  approved_not_rejected) as Hsum.
    split; [reflexivity|]. split; [|split; [|split; [|lia]]].
    + rewrite Hsum, <- Hlen. apply length_filter_le.
    + intros Hall. rewrite Hsum, <- Hlen. f_equal. now apply filter_all.
    + replace (0 <? n)%nat with true by (symmetry; apply Nat.ltb_lt; lia).
      assert (Hle : List.length (filter (eq_str "approved") st) <= n)
        by (rewrite <- Hlen; apply length_filter_le).
      pose proof (rate_of_fraction _ _ Hle) as Hf.
      unfold rate_of, is_fraction in Hf.
      replace (n =? 0)%nat with false in Hf by (symmetry; now apply Nat.eqb_neq).
      exact Hf.
Qed.

(** X17.  The summary agrees with the ungrouped [get_approval_rate] on
    the same view: same number of applications, same approved count,
    same rate. *)
Theorem summary_agrees_with_approval_rate (self : DataProcessor) (df : DataFrame)
    (st : Series) (n : nat) :
  data self = Some df ->
  rectangular n df ->
  lookup "status_standardized" df = Some st ->
  let m := calculate_summary_metrics (Some df) in
  get_approval_rate self None None
  = Ok [ ("total_applications", [Num (of_nat (total_applications m))]);
         ("approved", [Num (of_nat (approved_count m))]);
         ("approval_rate", [Num (overall_approval_rate m)]) ].
Proof.
  intros Hdata Hr Hst.
  pose proof (rectangular_lookup n _ _ _ Hr Hst) as Hlen.
  assert (Hn : len df = n).
  { destruct df as [|[c s] df]; [discriminate|].
    inversion Hr as [|x l Hx Hl]; subst. exact Hx. }
  cbv zeta. unfold get_approval_rate. rewrite Hdata. cbn [is_period andb].
  rewrite (overall_approval_value df st n Hr Hst).
  unfold calculate_summary_metrics, empty. rewrite Hn, Hst.
  unfold overall_table, rate_of.
  destruct (n =? 0)%nat eqn:E.
  - apply Nat.eqb_eq in E. subst n.
    destruct st; [|discriminate]. reflexivity.
  - apply Nat.eqb_neq in E.
    destruct (match lookup "processing_time_days" df with
              | Some days => _ | None => _ end) as [avg med].
    cbn [total_applications approved_count rejected_count overall_approval_rate].
    replace (0 <? n)%nat with true by (symmetry; apply Nat.ltb_lt; lia).
    reflexivity.
Qed.

End Summary.

Lemma summary_counts_witness :
  total_applications (@calculate_summary_metrics example_lib (Some monthly_view)) = 5 /\
  approved_count (@calculate_summary_metrics example_lib (Some monthly_view))
  + rejected_count (@calculate_summary_metrics example_lib (Some monthly_view)) <= 5.
Proof.
  destruct (@summary_counts example_lib monthly_view
              [Str "approved"; Str "rejected"; Str "approved"; Str "other"; Str "approved"]
              5 ltac:(repeat constructor) eq_refl) as (Ht & Hle & _).
  split; [exact Ht | exact Hle].
Defined.

Lemma summary_agrees_with_approval_rate_witness :
  @get_approval_rate example_lib (processed monthly_view) None None
  = Ok [ ("total_applications", [Num (of_nat 5)]);
         ("approved", [Num (of_nat 3)]);
         ("approval_rate",
          [Num (overall_approval_rate
                  (@calculate_summary_metrics example_lib (Some monthly_view)))]) ].
Proof.
  apply (@summary_agrees_with_approval_rate example_lib (processed monthly_view)
           monthly_view
           [Str "approved"; Str "rejected"; Str "approved"; Str "other"; Str "approved"]
           5 eq_refl ltac:(repeat constructor) eq_refl).
Defined.

End SummaryFacts.

(** ** Further properties: bottlenecks *)
Module BottleneckFacts.
Import DataProcessor Statistics Synthesis Spec Terms FrameFacts ApprovalFacts
       RejectionFacts RateFacts AdviceFacts.

(** A percentage of counts against a whole number. *)
Lemma percent_le (k : Z) (c t : nat) :
  0 < t ->
  (of_nat c / of_nat t * 100 <= inject_Z k)%Q <-> (100 * Z.of_nat c <= k * Z.of_nat t)%Z.
Proof.
  intros Ht.
  assert (Hpos : (0 < of_nat t)%Q) by (unfold of_nat; rewrite <- (Zlt_Qlt 0); lia).
  assert (Hnz : ~ (of_nat t == 0)%Q) by (intros E; rewrite E in Hpos; now apply Qlt_irrefl in Hpos).
  rewrite <- (Qmult_le_r _ _ (of_nat t) Hpos).
  assert (E1 : (of_nat c / of_nat t * 100 * of_nat t == inject_Z (100 * Z.of_nat c))%Q).
  { rewrite inject_Z_mult. unfold of_nat. field. exact Hnz. }
  rewrite E1. unfold of_nat. rewrite <- inject_Z_mult, <- Zle_Qle. reflexivity.
Qed.

Lemma percent_lt (k : Z) (c t : nat) :
  0 < t ->
  Statistics.lt (inject_Z k) (of_nat c / of_nat t * 100)
  = (k * Z.of_nat t <? 100 * Z.of_nat c)%Z.
Proof.
  intros Ht. unfold Statistics.lt.
  destruct (Z.ltb_spec (k * Z.of_nat t) (100 * Z.of_nat c)) as [Hlt|Hge].
  - apply negb_true_iff, not_true_is_false. intros Hle.
    apply Qle_bool_iff, percent_le in Hle; [lia | assumption].
  - apply negb_false_iff, Qle_bool_iff, percent_le; assumption.
Qed.

Lemma occurs_append (c : ascii) (a b : string) :
  occurs c (a ++ b) = occurs c a || occurs c b.
Proof.
  induction a as [|d a IH]; simpl; [reflexivity|].
  rewrite IH. now rewrite orb_assoc.
Qed.

Lemma digits_plain (d : Decimal.uint) : occurs "_" (NilEmpty.string_of_uint d) = false.
Proof. induction d; simpl; assumption || reflexivity. Qed.

Lemma str_nat_plain (n : nat) : occurs "_" (str_nat n) = false.
Proof.
  unfold str_nat, NilZero.string_of_uint.
  destruct (Nat.to_uint n); try reflexivity; apply digits_plain.
Qed.

Lemma zeros_plain (k : nat) : occurs "_" (String.concat "" (repeat "0" k)) = false.
Proof.
  induction k as [|k IH]; [reflexivity|].
  destruct k as [|k]; [reflexivity|].
  change (occurs "_" ("0" ++ "" ++ String.concat "" (repeat "0" (S k))) = false).
  now rewrite !occurs_append, IH.
Qed.

Lemma zero_pad_plain (width : nat) (s : string) :
  occurs "_" s = false -> occurs "_" (zero_pad width s) = false.
Proof.
  intros Hs. unfold zero_pad. now rewrite occurs_append, Hs, zeros_plain.
Qed.

(** The rendering of numbers writes no underscore. *)
Lemma format_fixed_plain (digits : nat) (q : Q) :
  occurs "_" (format_fixed digits q) = false.
Proof.
  unfold format_fixed. rewrite !occurs_append, str_nat_plain.
  destruct (Qle_bool 0 q); destruct (digits =? 0)%nat; cbn [occurs orb Ascii.eqb Bool.eqb];
    try reflexivity;
    rewrite occurs_append; cbn [occurs orb Ascii.eqb Bool.eqb];
    apply zero_pad_plain, str_nat_plain.
Qed.

Section Checks.
Context `{PyLib}.
Variable quantile : list Q -> Q -> Q.
Variable fixed : nat -> Q -> string.

Lemma outlier_shape (df : DataFrame) (l : list bottleneck) :
  outlier_bottleneck quantile fixed df = Ok l ->
  exists o, map type l = when o ["processing_time"] /\ Forall severity_ok l /\
            ((forall d q, occurs "_" (fixed d q) = false) -> Forall plain l).
Proof.
  unfold outlier_bottleneck.
  destruct (lookup "processing_time_days" df) as [days|];
    [|intros [= <-]; exists false; repeat split; constructor].
  destruct (dropna days) as [|v vs];
    [intros [= <-]; exists false; repeat split; constructor|].
  destruct (floats (v :: vs)) as [values|]; [|discriminate].
  destruct (Statistics.lt 10 _);
    [|intros [= <-]; exists false; repeat split; constructor].
  intros [= <-]. exists true. split; [reflexivity|]. split.
  - constructor; [|constructor]. unfold severity_ok. cbn [severity].
    destruct (Statistics.lt 20 _); simpl; tauto.
  - intros Hfixed. constructor; [|constructor]. unfold plain.
    cbn [Synthesis.description occurs Ascii.eqb Bool.eqb orb andb].
    rewrite occurs_append, Hfixed. reflexivity.
Qed.

Lemma rejection_shape (df : DataFrame) :
  exists r, map type (rejection_bottleneck fixed df) = when r ["rejection_reason"] /\
            Forall severity_ok (rejection_bottleneck fixed df).
Proof.
  unfold rejection_bottleneck.
  destruct (lookup "rejection_reason" df); [|exists false; split; constructor].
  destruct (lookup "status_standardized" df) as [st|]; [|exists false; split; constructor].
  destruct (if empty _ then None else _) as [reasons|]; [|exists false; split; constructor].
  destruct (value_counts (dropna reasons)) as [|[top c] others];
    [exists false; split; constructor|].
  destruct (Statistics.lt 50 _); [|exists false; split; constructor].
  exists true. split; [reflexivity|].
  constructor; [|constructor]. unfold severity_ok. cbn [severity].
  destruct (Statistics.lt 70 _); simpl; tauto.
Qed.

Lemma volume_shape (df : DataFrame) :
  exists v, map type (volume_bottleneck df) = when v ["volume_fluctuation"] /\
            Forall severity_ok (volume_bottleneck df) /\
            Forall plain (volume_bottleneck df).
Proof.
  unfold volume_bottleneck.
  destruct (lookup "application_yearmonth" df) as [months|];
    [|exists false; repeat split; constructor].
  destruct (2 <? _)%nat; [|exists false; repeat split; constructor].
  destruct (filter _ _) as [|change changes] eqn:E;
    [exists false; repeat split; constructor|].
  exists true. split; [reflexivity|]. split.
  - constructor; [|constructor]. unfold severity_ok. simpl. tauto.
  - constructor; [|constructor]. unfold plain.
    cbn [Synthesis.description occurs Ascii.eqb Bool.eqb orb andb].
    rewrite !occurs_append, str_nat_plain. reflexivity.
Qed.

(** X18.  [identify_bottlenecks] returns at most three bottlenecks, at
    most one of each type and in the order processing_time,
    rejection_reason, volume_fluctuation, each with severity high or
    medium; without a table, or for a table without rows, it returns
    none. *)
Theorem identify_bottlenecks_shape (data : option DataFrame) (bs : list bottleneck) :
  identify_bottlenecks quantile fixed data = Ok bs ->
  (exists o r v, map type bs = bottleneck_types o r v) /\
  Forall severity_ok bs /\
  List.length bs <= 3 /\
  (data = None \/ (exists df, data = Some df /\ len df = 0) -> bs = []).
Proof.
  unfold identify_bottlenecks. destruct data as [df|].
  2:{ intros [= <-]. split; [exists false, false, false; reflexivity|].
      split; [constructor|]. split; [simpl; lia | reflexivity]. }
  unfold empty. destruct (len df =? 0)%nat eqn:El.
  { intros [= <-]. split; [exists false, false, false; reflexivity|].
    split; [constructor|]. split; [simpl; lia | reflexivity]. }
  destruct (outlier_bottleneck quantile fixed df) as [outliers|e] eqn:Eo;
    cbn [bind]; [|discriminate].
  intros [= <-].
  destruct (outlier_shape df outliers Eo) as (o & Ho & Hso & _).
  destruct (rejection_shape df) as (r & Hr & Hsr).
  destruct (volume_shape df) as (v & Hv & Hsv & _).
  assert (Htypes : map type (outliers ++ rejection_bottleneck fixed df
                               ++ volume_bottleneck df)
                   = bottleneck_types o r v).
  { rewrite !map_app, Ho, Hr, Hv. reflexivity. }
  split; [now exists o, r, v|]. split; [|split].
  - rewrite !Forall_app. repeat split; assumption.
  - rewrite <- (length_map type), Htypes. destruct o, r, v; simpl; lia.
  - intros [Hn|(d & [= <-] & Hl)]; [discriminate|].
    apply Nat.eqb_neq in El. contradiction.
Qed.

(** X19.  With a formatter that writes no underscore, no bottleneck of
    type processing_time or volume_fluctuation that
    [identify_bottlenecks] returns leads to a recommendation of its own:
    the insight made of it has a description without the keyword that
    [generate_recommendations] looks for. *)
Theorem plain_bottlenecks_unadvised (data : option DataFrame)
    (bs : list bottleneck) (b : bottleneck) :
  (forall d q, occurs "_" (fixed d q) = false) ->
  identify_bottlenecks quantile fixed data = Ok bs ->
  In b bs ->
  type b <> "rejection_reason" ->
  recommend (bottleneck_insight b) = [].
Proof.
  intros Hfixed Hbs Hin Htype.
  assert (Hplain : plain b).
  { unfold identify_bottlenecks in Hbs. destruct data as [df|];
      [|injection Hbs as <-; contradiction].
    destruct (empty df); [injection Hbs as <-; contradiction|].
    destruct (outlier_bottleneck quantile fixed df) as [outliers|e] eqn:Eo;
      cbn [bind] in Hbs; [|discriminate].
    injection Hbs as <-.
    destruct (outlier_shape df outliers Eo) as (o & _ & _ & Hpo).
    destruct (rejection_shape df) as (r & Hr & _).
    destruct (volume_shape df) as (v & _ & _ & Hpv).
    apply in_app_or in Hin. destruct Hin as [Hin|Hin].
    - specialize (Hpo Hfixed). rewrite Forall_forall in Hpo. now apply Hpo.
    - apply in_app_or in Hin. destruct Hin as [Hin|Hin].
      + exfalso. apply Htype.
        assert (Ht : In (type b) (map type (rejection_bottleneck fixed df)))
          by now apply in_map.
        rewrite Hr in Ht. destruct r; simpl in Ht; [|contradiction].
        destruct Ht as [<-|[]]. reflexivity.
      + rewrite Forall_forall in Hpv. now apply Hpv. }
  apply recommend_plain_bottleneck; [reflexivity | exact Hplain].
Qed.

(** X20.  On a table whose columns all have [n] rows,
    [identify_bottlenecks]' check of the rejection reasons looks at the
    most frequent reason of the rejected rows (no other reason has a
    higher count): it reports a bottleneck exactly when that reason has
    more than half of the rejections that have a reason, with severity
    high exactly when it has more than 70 percent of them. *)
Theorem rejection_bottleneck_majority (df : DataFrame) (rs st : Series) (n : nat) :
  rectangular n df ->
  lookup "rejection_reason" df = Some rs ->
  lookup "status_standardized" df = Some st ->
  let reasons := rejected_reasons df in
  match value_counts reasons with
  | [] => rejection_bottleneck fixed df = []
  | (top, c) :: others =>
      Forall (fun kc => snd kc <= c) others /\
      if (List.length reasons <? 2 * c)%nat
      then exists b,
             rejection_bottleneck fixed df = [b] /\
             type b = "rejection_reason" /\
             severity b
             = (if (7 * List.length reasons <? 10 * c)%nat then "high" else "medium")
      else rejection_bottleneck fixed df = []
  end.
Proof.
  intros Hr Hrs Hst reasons.
  assert (Hreasons : reasons = dropna (select (map (eq_str "rejected") st) rs)).
  { unfold reasons, rejected_reasons. now rewrite Hst, Hrs. }
  pose proof (rectangular_lookup n _ _ _ Hr Hst) as Hlst.
  pose proof (rectangular_lookup n _ _ _ Hr Hrs) as Hlrs.
  unfold rejection_bottleneck. rewrite Hrs, Hst, lookup_select_rows, Hrs.
  cbn [option_map].
  destruct (empty (select_rows (map (eq_str "rejected") st) df)) eqn:Ee;
    [|rewrite <- Hreasons].
  - assert (Hnil : reasons = []).
    { rewrite Hreasons. unfold empty in Ee. apply Nat.eqb_eq in Ee.
      destruct df as [|[c0 s0] df]; [discriminate|].
      inversion Hr as [|x l Hx Hl]; subst. cbn [snd] in Hx.
      cbn [len select_rows map] in Ee.
      rewrite length_select in Ee by (rewrite length_map; lia).
      assert (Hz : List.length (select (map (eq_str "rejected") st) rs) = 0).
      { rewrite length_select by (rewrite length_map; lia). exact Ee. }
      apply length_zero_iff_nil in Hz. now rewrite Hz. }
    rewrite Hnil. reflexivity.
  - assert (Hclean : dropna reasons = reasons)
      by (rewrite Hreasons; apply dropna_idem).
    destruct (value_counts_spec reasons Hclean) as (Hsorted & Hcount & _ & _).
    destruct (value_counts reasons) as [|[top c] others]; [reflexivity|].
    assert (Hpos : 0 < List.length reasons).
    { destruct (Hcount top c (or_introl eq_refl)) as [Hin _].
      destruct reasons; [contradiction | simpl; lia]. }
    split.
    + cbn [map snd] in Hsorted. inversion Hsorted as [|a l Hl Hall]; subst.
      apply Forall_map in Hall. exact Hall.
    + change (Statistics.lt 50 ?x) with (Statistics.lt (inject_Z 50) x).
      change (Statistics.lt 70 ?x) with (Statistics.lt (inject_Z 70) x).
      rewrite !percent_lt by assumption.
      replace (50 * Z.of_nat (List.length reasons) <? 100 * Z.of_nat c)%Z
        with (List.length reasons <? 2 * c)%nat
        by (destruct (Nat.ltb_spec (List.length reasons) (2 * c));
            destruct (Z.ltb_spec (50 * Z.of_nat (List.length reasons))
                                 (100 * Z.of_nat c)); trivial; lia).
      replace (70 * Z.of_nat (List.length reasons) <? 100 * Z.of_nat c)%Z
        with (7 * List.length reasons <? 10 * c)%nat
        by (destruct (Nat.ltb_spec (7 * List.length reasons) (10 * c));
            destruct (Z.ltb_spec (70 * Z.of_nat (List.length reasons))
                                 (100 * Z.of_nat c)); trivial; lia).
      destruct (List.length reasons <? 2 * c)%nat; [|reflexivity].
      eexists. split; [reflexivity|]. split; reflexivity.
Qed.

End Checks.

Lemma identify_bottlenecks_shape_witness :
  exists bs,
    @identify_bottlenecks example_lib first_quantile format_fixed (Some monthly_view)
    = Ok bs /\
    List.length bs <= 3.
Proof.
  eexists. split; [reflexivity|].
  now apply (@identify_bottlenecks_shape example_lib first_quantile format_fixed
               (Some monthly_view)).
Defined.

Lemma rejection_bottleneck_majority_witness :
  exists b,
    @rejection_bottleneck example_lib format_fixed rejections_view = [b] /\
    severity b = "medium".
Proof.
  pose proof (@rejection_bottleneck_majority example_lib format_fixed rejections_view
                (repeat (Str "Low Credit Score") 6 ++ repeat (Str "Other") 4 ++ [Null])%list
                (repeat (Str "rejected") 10 ++ [Str "approved"])%list
                11 ltac:(repeat constructor) eq_refl eq_refl) as Hm.
  cbv zeta in Hm.
  change (value_counts (rejected_reasons rejections_view))
    with [(Str "Low Credit Score", 6); (Str "Other", 4)] in Hm.
  destruct Hm as (_ & b & Hb & _ & Hs).
  exists b. split; [exact Hb | exact Hs].
Defined.

Lemma plain_bottlenecks_unadvised_witness :
  exists b,
    @identify_bottlenecks example_lib first_quantile format_fixed (Some monthly_view)
    = Ok [b] /\
    type b = "volume_fluctuation" /\
    recommend (bottleneck_insight b) = [].
Proof.
  eexists. split; [reflexivity|]. split; [reflexivity|].
  eapply (@plain_bottlenecks_unadvised example_lib first_quantile format_fixed
            (Some monthly_view)).
  - apply format_fixed_plain.
  - reflexivity.
  - now left.
  - discriminate.
Defined.

End BottleneckFacts.

(** ** Further properties: monthly volumes *)
Module VolumeFacts.
Import DataProcessor Statistics Synthesis Spec Terms FrameFacts ApprovalFacts
       RejectionFacts RateFacts.

Lemma pct_changes_adjacent (volumes : list nat) :
  pct_changes volumes = map change_of (adjacent volumes).
Proof.
  induction volumes as [|a volumes IH]; [reflexivity|].
  destruct volumes as [|b volumes]; [reflexivity|].
  change (pct_changes (a :: b :: volumes))
    with (change_of (a, b) :: pct_changes (b :: volumes)).
  change (adjacent (a :: b :: volumes)) with ((a, b) :: adjacent (b :: volumes)).
  cbn [map]. now rewrite IH.
Qed.

Lemma adjacent_positive (volumes : list nat) :
  Forall (fun v => 1 <= v) volumes ->
  Forall (fun ab => 1 <= fst ab) (adjacent volumes).
Proof.
  induction volumes as [|a volumes IH]; [constructor|].
  destruct volumes as [|b volumes]; [constructor|].
  intros Hall. inversion Hall as [|x l Ha Hl]; subst.
  change (adjacent (a :: b :: volumes)) with ((a, b) :: adjacent (b :: volumes)).
  constructor; [exact Ha | now apply IH].
Qed.

Lemma small_change (a b : nat) :
  1 <= a ->
  (Qabs (change_of (a, b)) <= 0.3)%Q
  <-> 10 * (Nat.max a b - Nat.min a b) <= 3 * a.
Proof.
  intros Ha. unfold change_of. cbn [fst snd].
  assert (Hpos : (0 < of_nat a)%Q) by (unfold of_nat; rewrite <- (Zlt_Qlt 0); lia).
  assert (Hnz : ~ (of_nat a == 0)%Q)
    by (intros E; rewrite E in Hpos; now apply Qlt_irrefl in Hpos).
  assert (Hx : ((of_nat b - of_nat a) / of_nat a * of_nat a == of_nat b - of_nat a)%Q)
    by (field; exact Hnz).
  rewrite Qabs_Qle_condition.
  rewrite <- (Qmult_le_r (- 0.3) _ (of_nat a) Hpos).
  rewrite <- (Qmult_le_r _ 0.3 (of_nat a) Hpos).
  rewrite Hx. unfold of_nat, Qle, Qmult, Qminus, Qplus, Qopp, inject_Z.
  cbn [Qnum Qden].
  change (Z.pos (1 * 1)) with 1%Z. change (Z.pos (10 * 1)) with 10%Z.
  split.
  - intros [H1 H2]. destruct (Nat.max_spec a b) as [[? ->]|[? ->]];
      destruct (Nat.min_spec a b) as [[? ->]|[? ->]]; lia.
  - intros Hj. destruct (Nat.max_spec a b) as [[? E1]|[? E1]];
      destruct (Nat.min_spec a b) as [[? E2]|[? E2]]; rewrite E1, E2 in Hj; lia.
Qed.

Lemma jump_spec (ab : nat * nat) :
  1 <= fst ab -> Statistics.lt 0.3 (Qabs (change_of ab)) = jump ab.
Proof.
  destruct ab as [a b]. cbn [fst]. intros Ha. unfold Statistics.lt, jump. cbn [fst snd].
  destruct (Nat.ltb_spec (3 * a) (10 * (Nat.max a b - Nat.min a b))) as [Hlt|Hge].
  - apply negb_true_iff, not_true_is_false. intros Hle.
    apply Qle_bool_iff, small_change in Hle; [lia | assumption].
  - apply negb_false_iff, Qle_bool_iff, small_change; assumption.
Qed.

Lemma jump_reaches (ab : nat * nat) : jump ab = true -> reaches ab = true.
Proof.
  unfold jump, reaches. intros Hj. apply Nat.ltb_lt in Hj. apply Nat.leb_le. lia.
Qed.

Lemma above_reaching (l : list (nat * nat)) :
  List.length (filter jump l) <= List.length (filter reaches l) /\
  (filter reaches l = [] -> filter jump l = []).
Proof.
  induction l as [|ab l [IHl IHn]]; [split; [constructor | reflexivity]|].
  cbn [filter]. destruct (jump ab) eqn:Ej.
  - rewrite (jump_reaches ab Ej). split; [cbn [List.length]; lia | discriminate].
  - destruct (reaches ab); split; try assumption; try discriminate.
    cbn [List.length]. lia.
Qed.

(** X21.  The volume check of [identify_bottlenecks] works on the numbers
    of applications per month, each at least 1, so that no percentage
    change divides by zero.  With at most two months, or when no month
    differs from the month before by as much as 30 percent of that month's
    volume, it reports nothing; with more than two months, one of which
    differs from the month before by more than 30 percent, it reports one
    bottleneck, and the number in its description lies between the number
    of changes of more than 30 percent and the number of changes of at
    least 30 percent.  (A change of exactly 30 percent is decided by the
    rounding of the binary floats in the code and is left open here.) *)
Theorem volume_bottleneck_jumps (df : DataFrame) (months : Series) :
  lookup "application_yearmonth" df = Some months ->
  let volumes := map (fun g => count_true (snd g)) (groupby months) in
  let above := filter jump (adjacent volumes) in
  let reaching := filter reaches (adjacent volumes) in
  Forall (fun v => 1 <= v) volumes /\
  (List.length volumes <= 2 \/ reaching = [] -> volume_bottleneck df = []) /\
  (2 < List.length volumes -> above <> [] ->
   exists k,
     List.length above <= k <= List.length reaching /\
     volume_bottleneck df
     = [ {| type := "volume_fluctuation";
            Synthesis.description :=
              "Significant monthly volume fluctuations detected in "
              ++ str_nat k ++ " months";
            severity := "medium" |} ]).
Proof.
  intros Hm volumes above reaching.
  pose proof (group_sizes_positive months) as Hpos. fold volumes in Hpos.
  assert (Hsig : filter (fun change => Statistics.lt 0.3 change)
                        (map Qabs (pct_changes volumes))
                 = map (fun ab => Qabs (change_of ab)) above).
  { rewrite pct_changes_adjacent, map_map. unfold above.
    pose proof (adjacent_positive volumes Hpos) as Hadj.
    induction (adjacent volumes) as [|ab l IH]; [reflexivity|].
    inversion Hadj as [|x l' Hab Hl]; subst. cbn [map filter].
    rewrite (jump_spec ab Hab). destruct (jump ab); cbn [map]; now rewrite IH. }
  destruct (above_reaching (adjacent volumes)) as [Hle Hnone].
  fold above in Hle, Hnone. fold reaching in Hle, Hnone.
  split; [exact Hpos|].
  unfold volume_bottleneck. rewrite Hm. fold volumes. rewrite Hsig. split.
  - intros [Hlen|Hnil].
    + replace (2 <? List.length volumes)%nat with false
        by (symmetry; apply Nat.ltb_ge; lia). reflexivity.
    + rewrite (Hnone Hnil). now destruct (2 <? List.length volumes)%nat.
  - intros Hlen Hne.
    replace (2 <? List.length volumes)%nat with true
      by (symmetry; apply Nat.ltb_lt; lia).
    exists (List.length above). split; [lia|].
    rewrite length_map. destruct above; [congruence | reflexivity].
Qed.

Lemma volume_bottleneck_jumps_witness :
  exists k,
    1 <= k <= 1 /\
    volume_bottleneck monthly_view
    = [ {| type := "volume_fluctuation";
           Synthesis.description :=
             "Significant monthly volume fluctuations detected in "
             ++ str_nat k ++ " months";
           severity := "medium" |} ].
Proof.
  apply (volume_bottleneck_jumps monthly_view
           [Str "2023-01"; Str "2023-01"; Str "2023-02"; Str "2023-03"; Null] eq_refl);
    [simpl; lia | discriminate].
Defined.

End VolumeFacts.

(** ** Further properties: insights *)
Module InsightFacts.
Import DataProcessor Statistics Synthesis Spec Terms FrameFacts AdviceFacts.

Lemma prefix_append (needle rest : string) : String.prefix needle (needle ++ rest) = true.
Proof.
  induction needle as [|a needle IH]; simpl; [now destruct rest|].
  destruct (ascii_dec a a); [assumption | congruence].
Qed.

Lemma contains_prefix (needle hay : string) :
  String.prefix needle hay = true -> contains needle hay = true.
Proof. intros Hp. destruct hay; cbn [contains]; now rewrite Hp. Qed.

Lemma contains_middle (before needle rest : string) :
  contains needle (before ++ needle ++ rest) = true.
Proof.
  induction before as [|c before IH].
  - change (contains needle (needle ++ rest) = true).
    apply contains_prefix, prefix_append.
  - change (contains needle (String c (before ++ needle ++ rest)) = true).
    cbn [contains]. rewrite IH. now destruct (String.prefix _ _).
Qed.

Lemma append_assoc (a b c : string) : (a ++ b) ++ c = a ++ (b ++ c).
Proof. induction a as [|x a IH]; simpl; [reflexivity | now rewrite IH]. Qed.

Lemma specific_flat_map (insights : list dict) :
  specific insights = flat_map recommend insights.
Proof.
  unfold specific.
  assert (Hacc : forall acc,
            fold_left (fun recs insight => (recs ++ recommend insight)%list) insights acc
            = (acc ++ flat_map recommend insights)%list).
  { induction insights as [|i insights IH]; intros acc; simpl.
    - now rewrite app_nil_r.
    - now rewrite IH, app_assoc. }
  apply Hacc.
Qed.

Lemma generate_recommendations_keeps (insights : list dict) (i : dict)
    (r : recommendation) :
  In i insights -> In r (recommend i) -> In r (generate_recommendations insights).
Proof.
  intros Hi Hr.
  assert (Hs : In r (specific insights)).
  { rewrite specific_flat_map. apply in_flat_map. now exists i. }
  unfold generate_recommendations. destruct insights as [|j insights]; [contradiction|].
  destruct (_ <? 3)%nat; [apply in_or_app; now left | assumption].
Qed.

Section Insights.
Context `{PyLib}.
Variable fixed : nat -> Q -> string.

(** The text of a trend insight names the direction of the trend. *)
Lemma trend_insight_text (category subject : string) (info : trend_info) :
  Statistics.trend info <> "insufficient data" ->
  exists rest,
    trend_insight fixed category subject (Some info)
    = [ [ ("category", category);
          ("description",
           (subject ++ " shows a ") ++ Statistics.trend info ++ rest) ] ].
Proof.
  intros Ht. unfold trend_insight.
  apply String.eqb_neq in Ht. rewrite Ht.
  destruct (recent_change info) as [change|].
  - destruct (Statistics.lt 5 _).
    + eexists. do 3 f_equal. f_equal.
      rewrite !append_assoc. reflexivity.
    + eexists. do 3 f_equal. f_equal. rewrite !append_assoc. reflexivity.
  - eexists. do 3 f_equal. f_equal. rewrite !append_assoc. reflexivity.
Qed.

Lemma trend_insight_category (category subject : string) (trend : option trend_info) :
  Forall (fun i => dict_get i "category" "" = category)
         (trend_insight fixed category subject trend).
Proof.
  unfold trend_insight. destruct trend as [info|]; [|constructor].
  destruct (String.eqb _ _); constructor; [reflexivity | constructor].
Qed.

Lemma correlation_insight_category (df : DataFrame) (factor : string) :
  Forall (fun i => dict_get i "category" "" = "correlation")
         (correlation_insight fixed df factor).
Proof.
  unfold correlation_insight.
  destruct (lookup factor df); [|constructor].
  destruct (lookup "status_standardized" df); [|constructor].
  destruct (_ <? _)%nat; [|constructor].
  destruct (series_corr _ _); try constructor.
  destruct (Statistics.lt 0.2 _); constructor; [reflexivity | constructor].
Qed.

Lemma filter_other_category (name other : string) (l : list dict) :
  other <> name ->
  Forall (fun i => dict_get i "category" "" = other) l ->
  filter (has_category name) l = [].
Proof.
  intros Hne Hall. induction Hall as [|i l Hi Hl IH]; [reflexivity|].
  simpl. unfold has_category at 1. rewrite Hi.
  apply String.eqb_neq in Hne. now rewrite Hne.
Qed.

(** X22.  [generate_insights] returns nothing without a table or for a
    table without rows, whatever trends and bottlenecks it is given;
    otherwise its insights of category bottleneck are the given
    bottlenecks, one each and in their order, with their description
    and severity. *)
Theorem insights_keep_bottlenecks (data : option DataFrame)
    (approval_trend processing_time_trend : option trend_info)
    (bottlenecks : list bottleneck) :
  let insights :=
    generate_insights fixed data approval_trend processing_time_trend
                      (Some bottlenecks) in
  (data = None \/ (exists df, data = Some df /\ len df = 0) -> insights = []) /\
  (forall df, data = Some df -> len df <> 0 ->
     filter (has_category "bottleneck") insights = map bottleneck_insight bottlenecks).
Proof.
  cbv zeta. split.
  - intros [->|(df & -> & Hl)]; [reflexivity|].
    unfold generate_insights, empty. now rewrite Hl.
  - intros df -> Hl. unfold generate_insights, empty.
    apply Nat.eqb_neq in Hl. rewrite Hl.
    rewrite !filter_app.
    rewrite (filter_other_category "bottleneck" "approval_rate")
      by (discriminate || apply trend_insight_category).
    rewrite (filter_other_category "bottleneck" "processing_time")
      by (discriminate || apply trend_insight_category).
    assert (Hc : filter (has_category "bottleneck")
                   (if has_column "status_standardized" df
                    then flat_map (correlation_insight fixed df)
                           (filter (is_factor df) potential_factors)
                    else []) = []).
    { destruct (has_column "status_standardized" df); [|reflexivity].
      apply (filter_other_category "bottleneck" "correlation"); [discriminate|].
      apply Forall_flat_map, Forall_forall. intros f _.
      apply correlation_insight_category. }
    rewrite Hc, app_nil_r. cbn [app].
    induction bottlenecks as [|b bs IH]; [reflexivity|].
    cbn [map filter]. unfold has_category at 1. cbn. now rewrite IH.
Qed.

(** X23.  For a table with rows, a decreasing approval-rate trend given
    to [generate_insights] always brings the high-priority
    recommendation on declining approval rates out of
    [generate_recommendations], and an increasing processing-time trend
    the high-priority recommendation on the processing workflow. *)
Theorem trends_are_advised (df : DataFrame)
    (approval_trend processing_time_trend : option trend_info)
    (bottlenecks : option (list bottleneck)) :
  len df <> 0 ->
  let advice :=
    generate_recommendations
      (generate_insights fixed (Some df) approval_trend processing_time_trend
                         bottlenecks) in
  (forall info, approval_trend = Some info -> Statistics.trend info = "decreasing" ->
                In approval_advice advice) /\
  (forall info, processing_time_trend = Some info ->
                Statistics.trend info = "increasing" ->
                In workflow_advice advice).
Proof.
  intros Hl. cbv zeta. unfold generate_insights, empty.
  apply Nat.eqb_neq in Hl. rewrite Hl. split.
  - intros info -> Ht.
    destruct (trend_insight_text "approval_rate" "Approval rate" info) as [rest Hi];
      [rewrite Ht; discriminate|].
    rewrite Hi, Ht.
    eapply generate_recommendations_keeps; [now left|].
    unfold recommend. cbn [dict_get String.eqb Ascii.eqb Bool.eqb andb].
    rewrite contains_middle. now left.
  - intros info -> Ht.
    destruct (trend_insight_text "processing_time" "Processing time" info) as [rest Hi];
      [rewrite Ht; discriminate|].
    rewrite Hi, Ht.
    eapply generate_recommendations_keeps.
    + apply in_or_app. right. now left.
    + unfold recommend. cbn [dict_get String.eqb Ascii.eqb Bool.eqb andb].
      rewrite contains_middle. cbn [when app]. now left.
Qed.

End Insights.

Lemma trends_are_advised_witness :
  In approval_advice
     (generate_recommendations
        (@generate_insights example_lib format_fixed (Some monthly_view)
           (Some falling_trend) None None)).
Proof.
  destruct (@trends_are_advised example_lib format_fixed monthly_view
              (Some falling_trend) None None ltac:(discriminate)) as [Hfalling _].
  exact (Hfalling falling_trend eq_refl eq_refl).
Defined.

End InsightFacts.

(** ** Further properties: distinct values and filters *)
Module UtilsFacts.
Import DataProcessor Utils Spec Terms FrameFacts ApprovalFacts RejectionFacts RateFacts.

Lemma firstn_incl {A} (n : nat) (l : list A) (x : A) : In x (firstn n l) -> In x l.
Proof.
  revert l. induction n as [|n IH]; intros [|y l]; simpl; try tauto.
  intros [->|Hin]; [now left | right; now apply IH].
Qed.

Lemma value_counts_keys (s : Series) (k : cell) (c : nat) :
  In (k, c) (value_counts s) -> In k s /\ isna k = false.
Proof.
  unfold value_counts. intros Hin.
  apply In_sort, in_map_iff in Hin. destruct Hin as (k' & [= <- <-] & Hk).
  apply In_unique in Hk. unfold dropna in Hk. apply filter_In in Hk.
  destruct Hk as [Hin Hna]. split; [assumption | now apply negb_true_iff].
Qed.

(** X24.  For a non-negative [max_display] (10 when left out)
    [get_unique_values] returns at most [max_display] values, each a
    non-missing value of the column; without a table, or without the
    column in the table, it returns none. *)
Theorem get_unique_values_bounded (df : option DataFrame) (column : string)
    (max_display : option Z) :
  let m := match max_display with Some n => n | None => 10%Z end in
  let values := get_unique_values df column max_display in
  (0 <= m)%Z ->
  (Z.of_nat (List.length values) <= m)%Z /\
  (forall v, In v values ->
     isna v = false /\
     exists d s, df = Some d /\ lookup column d = Some s /\ In v s) /\
  (df = None \/ (exists d, df = Some d /\ has_column column d = false) -> values = []).
Proof.
  cbv zeta. intros Hm. unfold get_unique_values.
  destruct df as [d|]; [|split; [simpl; lia | split; [intros v [] | reflexivity]]].
  destruct (lookup column d) as [s|] eqn:Hs.
  2:{ split; [simpl; lia | split; [intros v [] | reflexivity]]. }
  set (m := match max_display with Some n => n | None => 10%Z end) in *.
  assert (Habsent : Some d = None \/ (exists d0, Some d = Some d0 /\ has_column column d0 = false)
                    -> False).
  { intros [E|(d0 & [= <-] & Hc)]; [discriminate|].
    rewrite has_column_lookup, Hs in Hc. discriminate. }
  destruct (Z.ltb_spec m (Z.of_nat (List.length (unique (dropna s))))) as [Hlt|Hge].
  - rewrite head_firstn by assumption. split; [|split].
    + rewrite length_map.
      pose proof (firstn_le_length (Z.to_nat m) (value_counts s)). lia.
    + intros v Hv. apply in_map_iff in Hv. destruct Hv as ([k c] & <- & Hin).
      apply firstn_incl, value_counts_keys in Hin. destruct Hin as [Hin Hna].
      split; [exact Hna|]. now exists d, s.
    + intros Ha. now apply Habsent in Ha.
  - split; [exact Hge|]. split.
    + intros v Hv. apply In_unique in Hv. unfold dropna in Hv.
      apply filter_In in Hv. destruct Hv as [Hin Hna].
      split; [now apply negb_true_iff | now exists d, s].
    + intros Ha. now apply Habsent in Ha.
Qed.

Lemma columns_select_rows (mask : list bool) (df : DataFrame) :
  columns (select_rows mask df) = columns df.
Proof.
  unfold columns, select_rows. rewrite map_map. apply map_ext. now intros [n s].
Qed.

Lemma length_select_length {A} (mask : list bool) (s : list A) :
  List.length (select mask s) <= List.length s.
Proof.
  revert s. induction mask as [|b mask IH]; intros [|x s]; simpl; try lia.
  specialize (IH s). destruct b; simpl; lia.
Qed.

Lemma len_select_rows (mask : list bool) (df : DataFrame) :
  len (select_rows mask df) <= len df.
Proof. destruct df as [|[n s] df]; simpl; [lia | apply length_select_length]. Qed.

Lemma select_all {A} (k : nat) (s : list A) :
  List.length s <= k -> select (repeat true k) s = s.
Proof.
  revert s. induction k as [|k IH]; intros [|x s]; simpl; try reflexivity; try lia.
  intros Hl. f_equal. apply IH. lia.
Qed.

Lemma map_filter_true {A} (f : A -> bool) (s : list A) :
  map f (filter f s) = repeat true (List.length (filter f s)).
Proof.
  induction s as [|x s IH]; simpl; [reflexivity|].
  destruct (f x) eqn:E; simpl; [now rewrite E, IH | assumption].
Qed.

Section Filters.
Variable between : Series -> cell -> cell -> option (list bool).
Variable is_datetime : Series -> bool.

Lemma apply_filter_selects (df out : DataFrame) (column : string) (value : filter_value) :
  apply_filter between is_datetime df column value = Ok out ->
  out = df \/ exists mask, out = select_rows mask df.
Proof.
  unfold apply_filter. destruct (lookup column df) as [s|]; [|intros [= <-]; now left].
  destruct value as [|v|values].
  - intros [= <-]. now left.
  - intros [= <-]. right. now eexists.
  - destruct values as [|a [|b [|c values]]];
      try (intros [= <-]; right; now eexists).
    destruct (between s a b) as [mask|]; [intros [= <-]; right; now eexists|].
    destruct (is_datetime s); [discriminate | intros [= <-]; now left].
Qed.

Lemma apply_filters_selects (filters : list (string * filter_value)) :
  forall df out,
    apply_filters between is_datetime df filters = Ok out ->
    exists masks, out = fold_left (fun d m => select_rows m d) masks df /\
                  List.length masks <= List.length filters.
Proof.
  induction filters as [|[column value] filters IH]; intros df out; simpl.
  - intros [= <-]. exists []. split; [reflexivity | simpl; lia].
  - destruct (apply_filter between is_datetime df column value) as [df'|e] eqn:E;
      cbn [bind]; [|discriminate].
    intros Hrest. destruct (IH _ _ Hrest) as (masks & -> & Hlen).
    destruct (apply_filter_selects _ _ _ _ E) as [->|[mask ->]].
    + exists masks. split; [reflexivity | lia].
    + exists (mask :: masks). split; [reflexivity | simpl; lia].
Qed.

Lemma selections_restrict (masks : list (list bool)) :
  forall df,
    columns (fold_left (fun d m => select_rows m d) masks df) = columns df /\
    len (fold_left (fun d m => select_rows m d) masks df) <= len df.
Proof.
  induction masks as [|m masks IH]; intros df; simpl; [split; [reflexivity | lia]|].
  destruct (IH (select_rows m df)) as [Hc Hl]. split.
  - now rewrite Hc, columns_select_rows.
  - pose proof (len_select_rows m df). lia.
Qed.

(** X25.  [filter_dataframe] only removes rows: when it returns, the
    table it returns is the given table after a sequence of row
    selections, at most one for each filter, with the same columns in
    the same order and no more rows. *)
Theorem filter_dataframe_restricts (df out : DataFrame)
    (filters : list (string * filter_value)) :
  filter_dataframe between is_datetime (Some df) filters = Ok (Some out) ->
  columns out = columns df /\
  len out <= len df /\
  exists masks, out = fold_left (fun d m => select_rows m d) masks df /\
                List.length masks <= List.length filters.
Proof.
  intros Hf.
  assert (Hsel : exists masks, out = fold_left (fun d m => select_rows m d) masks df /\
                               List.length masks <= List.length filters).
  { unfold filter_dataframe in Hf. destruct filters as [|f filters].
    - injection Hf as <-. exists []. split; [reflexivity | simpl; lia].
    - destruct (apply_filters between is_datetime df (f :: filters)) as [d|e] eqn:E;
        cbn [bind] in Hf; [|discriminate].
      injection Hf as <-. now apply apply_filters_selects. }
  destruct Hsel as (masks & -> & Hlen).
  destruct (selections_restrict masks df) as [Hc Hl].
  split; [exact Hc|]. split; [exact Hl|]. now exists masks.
Qed.

(** X26.  Filters that name a column the table does not have, or that
    hold no value, are ignored: if every filter is of that kind,
    [filter_dataframe] returns the table as it is. *)
Theorem filter_dataframe_ignores (df : DataFrame)
    (filters : list (string * filter_value)) :
  (forall column value, In (column, value) filters ->
                        lookup column df = None \/ value = FNone) ->
  filter_dataframe between is_datetime (Some df) filters = Ok (Some df).
Proof.
  intros Hall.
  assert (Hsame : apply_filters between is_datetime df filters = Ok df).
  { induction filters as [|[column value] filters IH]; [reflexivity|].
    cbn [apply_filters].
    assert (Hone : apply_filter between is_datetime df column value = Ok df).
    { unfold apply_filter.
      destruct (Hall column value (or_introl eq_refl)) as [->| ->]; [reflexivity|].
      now destruct (lookup column df). }
    rewrite Hone. cbn [bind]. apply IH.
    intros c v Hin. apply Hall. now right. }
  unfold filter_dataframe. destruct filters; [reflexivity|].
  now rewrite Hsame.
Qed.

(** X27.  A filter on one value keeps the rows that hold the value in
    the column and no others, and applying it a second time changes
    nothing (on a table whose columns all have [n] rows). *)
Theorem value_filter_idempotent (df : DataFrame) (column : string) (value : cell)
    (s : Series) (n : nat) :
  rectangular n df ->
  lookup column df = Some s ->
  exists out,
    filter_dataframe between is_datetime (Some df) [(column, FOne value)]
    = Ok (Some out) /\
    lookup column out = Some (filter (eq_value value) s) /\
    filter_dataframe between is_datetime (Some out) [(column, FOne value)]
    = Ok (Some out).
Proof.
  intros Hr Hs.
  pose proof (rectangular_lookup n _ _ _ Hr Hs) as Hlen.
  exists (select_rows (map (eq_value value) s) df).
  assert (Hcol : lookup column (select_rows (map (eq_value value) s) df)
                 = Some (filter (eq_value value) s)).
  { now rewrite lookup_select_rows, Hs, <- select_map_filter. }
  split; [|split; [exact Hcol|]].
  - unfold filter_dataframe, apply_filters, apply_filter. now rewrite Hs.
  - unfold filter_dataframe, apply_filters, apply_filter. rewrite Hcol. cbn [bind].
    do 2 f_equal. rewrite map_filter_true.
    unfold select_rows. rewrite map_map.
    apply map_ext_in. intros [c col] Hin.
    f_equal. apply select_all.
    unfold rectangular in Hr. rewrite Forall_forall in Hr.
    specialize (Hr _ Hin). cbn [snd] in Hr.
    rewrite length_select by (rewrite length_map; lia).
    rewrite count_true_map. lia.
Qed.

End Filters.

Lemma get_unique_values_bounded_witness :
  (Z.of_nat (List.length (get_unique_values (Some rejections_view) "rejection_reason"
                            (Some 1%Z))) <= 1)%Z.
Proof.
  apply (get_unique_values_bounded (Some rejections_view) "rejection_reason" (Some 1%Z)).
  lia.
Defined.

Lemma filter_dataframe_restricts_witness :
  exists out,
    filter_dataframe (fun _ _ _ => None) (fun _ => false) (Some monthly_view)
      [("status_standardized", FSeq [Str "approved"])] = Ok (Some out) /\
    len out <= len monthly_view.
Proof.
  eexists. split; [reflexivity|].
  now apply (filter_dataframe_restricts (fun _ _ _ => None) (fun _ => false)
               monthly_view _ [("status_standardized", FSeq [Str "approved"])]).
Defined.

Lemma filter_dataframe_ignores_witness :
  filter_dataframe (fun _ _ _ => None) (fun _ => false) (Some monthly_view)
    [("loan_amount", FOne (Num 1)); ("status_standardized", FNone)]
  = Ok (Some monthly_view).
Proof.
  apply filter_dataframe_ignores. intros column value [[= <- <-]|[[= <- <-]|[]]];
    [now left | now right].
Defined.

Lemma value_filter_idempotent_witness :
  exists out,
    filter_dataframe (fun _ _ _ => None) (fun _ => false) (Some monthly_view)
      [("status_standardized", FOne (Str "approved"))] = Ok (Some out) /\
    filter_dataframe (fun _ _ _ => None) (fun _ => false) (Some out)
      [("status_standardized", FOne (Str "approved"))] = Ok (Some out).
Proof.
  destruct (value_filter_idempotent (fun _ _ _ => None) (fun _ => false) monthly_view
              "status_standardized" (Str "approved")
              [Str "approved"; Str "rejected"; Str "approved"; Str "other"; Str "approved"]
              5 ltac:(repeat constructor) eq_refl) as (out & H1 & _ & H2).
  exists out. split; assumption.
Defined.

End UtilsFacts.

(** ** Further properties: the metric methods after normalisation *)
Module PipelineFacts.
Import DataProcessor Statistics Spec Terms FrameFacts NormalizerFacts ProcessingTimeFacts
       ApprovalFacts ViewFacts.

Lemma copy_mapped_has (df : DataFrame) (mapped : list (string * string)) :
  forall acc p c,
    copy_mapped df mapped acc = Ok p ->
    has_column c acc = true \/ In c (map fst mapped) ->
    has_column c p = true.
Proof.
  induction mapped as [|[std col] mapped IH]; intros acc p c; simpl.
  - intros [= <-] [Hc|[]]. exact Hc.
  - unfold getitem. destruct (lookup col df) as [s|]; cbn [bind]; [|discriminate].
    intros Hp [Hc|[<-|Hc]]; apply (IH _ _ _ Hp).
    + left. now apply has_column_setitem.
    + left. rewrite has_column_lookup, lookup_setitem, String.eqb_refl. reflexivity.
    + now right.
Qed.

Section Metrics.
Context `{PyLib}.

Lemma approval_rate_returns (self : DataProcessor) (df : DataFrame)
    (group_by time_period : option string) :
  data self = Some df ->
  has_column "status_standardized" df = true ->
  returns (get_approval_rate self group_by time_period) = true.
Proof.
  intros Hdata Hs. unfold get_approval_rate. rewrite Hdata.
  assert (Hoverall : returns (overall_approval df) = true).
  { destruct (overall_approval_table df Hs) as (a & -> & _). reflexivity. }
  assert (Hgrouped : forall d g, has_column g d = true ->
            has_column "status_standardized" d = true ->
            returns (grouped_approval d g) = true).
  { intros d g Hg Hd.
    destruct (grouped_approval_table d g Hg Hd) as (k & t & a & -> & _). reflexivity. }
  destruct (is_period time_period "monthly" && has_column "application_yearmonth" df)
    eqn:Em.
  { apply andb_true_iff in Em. now apply Hgrouped. }
  destruct (is_period time_period "quarterly" && has_column "application_date" df)
    eqn:Eq.
  { apply andb_true_iff in Eq. destruct Eq as [_ Hc].
    destruct (has_column_Some _ _ Hc) as [app Happ].
    unfold getitem at 1. rewrite Happ. cbn [bind]. apply Hgrouped.
    - rewrite has_column_lookup, lookup_setitem, String.eqb_refl. reflexivity.
    - rewrite has_column_lookup, lookup_setitem. simpl.
      now rewrite <- has_column_lookup. }
  destruct (is_period time_period "yearly" && has_column "application_year" df)
    eqn:Ey.
  { apply andb_true_iff in Ey. now apply Hgrouped. }
  destruct group_by as [g|]; [|exact Hoverall].
  destruct (has_column g df) eqn:Eg; [now apply Hgrouped | exact Hoverall].
Qed.

Lemma rejection_factors_returns (self : DataProcessor) (df : DataFrame)
    (n_top : option Z) :
  data self = Some df ->
  has_column "status_standardized" df = true ->
  returns (get_rejection_factors self n_top) = true.
Proof.
  intros Hdata Hs. destruct (has_column_Some _ _ Hs) as [st Hst].
  unfold get_rejection_factors. rewrite Hdata. unfold getitem. rewrite Hst.
  cbn [bind]. rewrite has_column_lookup, !lookup_select_rows.
  destruct (lookup "rejection_reason" df) as [rs|] eqn:Hrs; [|reflexivity].
  cbn [option_map bind]. rewrite !lookup_select_rows, Hrs. reflexivity.
Qed.

Lemma correlation_factors_returns (self : DataProcessor) (df : DataFrame) :
  data self = Some df ->
  has_column "status_standardized" df = true ->
  returns (get_correlation_factors self) = true.
Proof.
  intros Hdata Hs. destruct (has_column_Some _ _ Hs) as [st Hst].
  unfold get_correlation_factors. rewrite Hdata. unfold getitem. rewrite Hst.
  cbn [bind]. destruct (filter _ potential_factors); [reflexivity|].
  destruct (somes _); reflexivity.
Qed.

(** X28.  Once [preprocess_data] has returned for a mapping (of
    canonical fields) that maps the status, the processor it leaves
    answers every call of [get_approval_rate], [get_rejection_factors]
    and [get_correlation_factors] with a table, whatever the
    arguments: none of them raises. *)
Theorem metrics_after_preprocess (self self' : DataProcessor) (view : DataFrame)
    (group_by time_period : option string) (n_top : option Z) :
  canonical_mapping (column_mapping self) ->
  is_mapped (column_mapping self) "status" = true ->
  preprocess_data self = Ok (view, self') ->
  has_column "status_standardized" view = true /\
  returns (get_approval_rate self' group_by time_period) = true /\
  returns (get_rejection_factors self' n_top) = true /\
  returns (get_correlation_factors self') = true.
Proof.
  intros Hcan Hstatus. rewrite preprocess_data_stages.
  destruct (copy_mapped (raw_data self) (mapped_columns (column_mapping self)) [])
    as [p|e] eqn:Hp; simpl; [|discriminate].
  intros [= <- <-].
  assert (Hs : has_column "status_standardized" (stages self p) = true).
  { assert (Hst : has_column "status" (stages self p) = true).
    { apply stages_has. apply (copy_mapped_has _ _ _ _ _ Hp). right.
      unfold is_mapped in Hstatus. apply existsb_exists in Hstatus.
      destruct Hstatus as (x & Hx & Heq). apply String.eqb_eq in Heq. now subst. }
    rewrite has_column_lookup in Hst |- *.
    rewrite stages_lookup_status.
    - destruct (lookup "status" (stages self p)); [reflexivity | discriminate].
    - apply (copied_lookup_none self); [assumption|].
      apply canonical_not_mapped; [assumption|].
      simpl. intros Hin. repeat (destruct Hin as [Hin|Hin]; [discriminate|]).
      contradiction. }
  split; [exact Hs|]. split; [|split].
  - now apply approval_rate_returns with (stages self p).
  - now apply rejection_factors_returns with (stages self p).
  - now apply correlation_factors_returns with (stages self p).
Qed.

End Metrics.

Lemma metrics_after_preprocess_witness :
  exists view self',
    @preprocess_data example_lib (example_processor full_mapping) = Ok (view, self') /\
    returns (@get_approval_rate example_lib self' None (Some "quarterly")) = true.
Proof.
  eexists. eexists. split; [reflexivity|].
  eapply (@metrics_after_preprocess example_lib (example_processor full_mapping) _ _
            None (Some "quarterly") None).
  - intros std Hin. simpl in Hin. simpl. tauto.
  - reflexivity.
  - reflexivity.
Defined.

End PipelineFacts.


(** ** Further properties: the direction of the fallback *)
Module DirectionFacts.
Import Statistics Spec Terms.

Lemma lt_spec (a b : Q) : Statistics.lt a b = true <-> (a < b)%Q.
Proof.
  unfold Statistics.lt. rewrite negb_true_iff. split.
  - intros Hf. apply Qnot_le_lt. intros Hle. apply Qle_bool_iff in Hle. congruence.
  - intros Hlt. apply not_true_is_false. intros Hle. apply Qle_bool_iff in Hle.
    now apply Qlt_not_le in Hlt.
Qed.

Lemma lt_flip (a b c d : Q) :
  (c == - b)%Q -> (d == - a)%Q -> Statistics.lt a b = Statistics.lt c d.
Proof.
  intros Hc Hd. apply eq_true_iff_eq. rewrite !lt_spec, Hc, Hd.
  split; intros Hlt.
  - now apply Qopp_lt_compat.
  - apply Qopp_lt_compat in Hlt. now rewrite !Qopp_involutive in Hlt.
Qed.

Lemma hd_rev (l : list Q) (d : Q) : hd d (rev l) = last l d.
Proof.
  induction l as [|x l IH]; [reflexivity|].
  destruct l as [|y l]; [reflexivity|].
  change (rev (x :: y :: l)) with (rev (y :: l) ++ [x])%list.
  change (last (x :: y :: l) d) with (last (y :: l) d). rewrite <- IH.
  destruct (rev (y :: l)) eqn:E; [|reflexivity].
  apply (f_equal (@List.length Q)) in E. rewrite length_rev in E. discriminate.
Qed.

Lemma last_rev (l : list Q) (d : Q) : last (rev l) d = hd d l.
Proof. destruct l as [|x l]; [reflexivity|]. simpl. apply last_last. Qed.

(** X29.  On the fallback path the direction follows the order of the
    series: for a series of at least three values on which, as on its
    reverse, the call of the significance test raises, the series is
    increasing exactly when its reverse is decreasing, decreasing exactly
    when its reverse is increasing, and stable exactly when its reverse
    is. *)
Theorem fallback_direction_reverses (mannkendall : list Q -> option (Q * Q))
    (values : list Q) :
  3 <= List.length values ->
  mannkendall values = None ->
  mannkendall (rev values) = None ->
  let forward := trend (detect_values mannkendall values) in
  let backward := trend (detect_values mannkendall (rev values)) in
  (forward = "increasing" <-> backward = "decreasing") /\
  (forward = "decreasing" <-> backward = "increasing") /\
  (forward = "stable" <-> backward = "stable").
Proof.
  intros Hlen Hf Hb. cbv zeta. unfold detect_values.
  rewrite Hf, Hb, length_rev.
  replace (List.length values <? 3)%nat with false
    by (symmetry; apply Nat.ltb_ge; lia).
  unfold fallback. rewrite length_rev.
  replace (2 <=? List.length values)%nat with true
    by (symmetry; apply Nat.leb_le; lia).
  cbn [trend]. unfold first_value, last_value. rewrite hd_rev, last_rev.
  set (k := (of_nat (List.length values) - 1)%Q).
  set (s := ((last values 0 - hd 0 values) / k)%Q).
  set (s' := ((hd 0 values - last values 0) / k)%Q).
  assert (Hs : (s == - s')%Q) by (unfold s, s', Qdiv; ring).
  assert (H1 : Statistics.lt 0.01 s' = Statistics.lt s (-0.01))
    by (apply lt_flip; [exact Hs | reflexivity]).
  assert (H2 : Statistics.lt s' (-0.01) = Statistics.lt 0.01 s)
    by (apply lt_flip; [reflexivity | exact Hs]).
  rewrite H1, H2.
  assert (Hex : Statistics.lt 0.01 s = true -> Statistics.lt s (-0.01) = true -> False).
  { intros Ha Hb'. apply lt_spec in Ha, Hb'.
    pose proof (Qlt_trans _ _ _ Ha Hb') as Habs. now vm_compute in Habs. }
  destruct (Statistics.lt 0.01 s) eqn:Ea; destruct (Statistics.lt s (-0.01)) eqn:Eb.
  - exfalso. now apply Hex.
  - repeat split; intros; try reflexivity; discriminate.
  - repeat split; intros; try reflexivity; discriminate.
  - repeat split; intros; try reflexivity; discriminate.
Qed.

Lemma fallback_direction_reverses_witness :
  trend (detect_values scipy_stats_mannkendall doubling_series) = "increasing" <->
  trend (detect_values scipy_stats_mannkendall (rev doubling_series)) = "decreasing".
Proof.
  apply (fallback_direction_reverses scipy_stats_mannkendall doubling_series);
    [simpl; lia | reflexivity | reflexivity].
Defined.

End DirectionFacts.
